(** * The terminal input path: composition proxy and dual-transport delivery

    A shallow embedding of
    - [web/src/client/components/ime-input.ts] (class [DesktopIMEInput]) and
    - [web/src/client/components/session-view/input-manager.ts]
      (class [InputManager]).

    Every handler of the two classes becomes a function from the object's
    fields (and whatever it reads from the browser) to the new fields and the
    list of observable calls it made, in program order.

    Strings.  A JavaScript string is a sequence of UTF-16 code units.  The
    embedding uses [string], one [ascii] per code unit, which covers the code
    units 0..255; every key name, token and control character the handlers
    compare against lies in that range. *)

From Stdlib Require Import ZArith List Bool String Ascii Lia.
Import ListNotations.

Local Open Scope string_scope.
Local Open Scope list_scope.

(** ** JavaScript primitives used by the handlers *)

Module JS.

(** [if (s)] on a string: every string but the empty one is truthy. *)
Definition truthy (s : string) : bool := negb (s =? "").

(** [if (x)] on [string | undefined]. *)
Definition truthy_opt (o : option string) : bool :=
  match o with
  | Some s => truthy s
  | None => false
  end.

Definition unit_code (c : ascii) : Z := Z.of_nat (nat_of_ascii c).

(** [s.charCodeAt(0)]; [None] stands for [NaN] (empty string). *)
Definition charCodeAt0 (s : string) : option Z :=
  match s with
  | String c _ => Some (unit_code c)
  | EmptyString => None
  end.

(** [String.fromCharCode(n)] for a code unit below 256. *)
Definition fromCharCode (n : Z) : string :=
  String (ascii_of_nat (Z.to_nat n)) EmptyString.

(** [toLowerCase] on the code units 0..255: A-Z and the Latin-1 capitals
    (U+00C0..U+00DE but the multiplication sign U+00D7) move up by 32. *)
Definition lower_unit (c : ascii) : ascii :=
  let n := unit_code c in
  if ((65 <=? n) && (n <=? 90) ||
      (192 <=? n) && (n <=? 214) ||
      (216 <=? n) && (n <=? 222))%Z
  then ascii_of_nat (Z.to_nat (n + 32))
  else c.

Fixpoint toLowerCase (s : string) : string :=
  match s with
  | EmptyString => EmptyString
  | String c r => String (lower_unit c) (toLowerCase r)
  end.

(** White space of [String.prototype.trim] among the code units 0..255:
    TAB, LF, VT, FF, CR, SPACE and NO-BREAK SPACE. *)
Definition is_space (c : ascii) : bool :=
  let n := unit_code c in
  ((9 <=? n) && (n <=? 13) || (n =? 32) || (n =? 160))%Z.

Fixpoint trimStart (s : string) : string :=
  match s with
  | String c r => if is_space c then trimStart r else s
  | EmptyString => EmptyString
  end.

Fixpoint rev_string (s acc : string) : string :=
  match s with
  | EmptyString => acc
  | String c r => rev_string r (String c acc)
  end.

Definition trim (s : string) : string :=
  rev_string (trimStart (rev_string (trimStart s) "")) "".

(** [xs.includes(s)] on an array of strings. *)
Definition includes (xs : list string) (s : string) : bool :=
  existsb (String.eqb s) xs.

End JS.

(** ** Events delivered by the browser *)

(** The fields of a [KeyboardEvent] the handlers destructure. *)
Record KeyboardEvent := mkKey {
  key : string;
  ctrlKey : bool;
  altKey : bool;
  metaKey : bool;
  shiftKey : bool
}.

(** What the global paste handler tests on [e.target]. *)
Record PasteTarget := mkTarget {
  (** [target === this.input] *)
  isProxy : bool;
  (** the target is an INPUT or TEXTAREA, is content-editable, or sits in a
      Monaco editor or a key-binding context *)
  isEditable : bool
}.

(** ** [DesktopIMEInput] (ime-input.ts) *)

Module IME.

(** [input.style.opacity]: '0.01' after [hideInput], '0.8' after
    [showInput]. *)
Inductive Opacity := Faint | Shown.

Record t := mk {
  (** [this.isComposing] *)
  isComposing : bool;
  (** [this.input.value], the proxy buffer *)
  value : string;
  opacity : Opacity;
  (** [document.activeElement === this.input]; owned by the browser *)
  focused : bool;
  (** attribute [data-ime-composing] of [document.body] *)
  composingAttr : bool;
  (** attribute [data-ime-input-focused] of [document.body] *)
  focusedAttr : bool;
  (** whether [options.onSpecialKey] was supplied *)
  hasOnSpecialKey : bool
}.

(** The closures handed to [setTimeout]. *)
Inductive Deferred :=
| HideAndReposition   (* after a composition end *)
| HideIfUnfocused.    (* after plain input *)

(** Calls a handler makes, in program order.  [logger.log] is not traced;
    [logger.warn] is. *)
Inductive Effect :=
| OnTextInput (s : string)           (* options.onTextInput(s) *)
| OnSpecialKey (k : string)          (* options.onSpecialKey(k) *)
| PreventDefault                     (* e.preventDefault() *)
| StopPropagation                    (* e.stopPropagation() *)
| SetTimeout (d : Deferred) (ms : Z) (* setTimeout(d, ms) *)
| Warn (msg : string).               (* logger.warn(msg) *)

Definition Result : Type := t * list Effect.

Definition set_isComposing (b : bool) (s : t) : t :=
  mk b (value s) (opacity s) (focused s) (composingAttr s) (focusedAttr s)
     (hasOnSpecialKey s).
Definition set_value (v : string) (s : t) : t :=
  mk (isComposing s) v (opacity s) (focused s) (composingAttr s)
     (focusedAttr s) (hasOnSpecialKey s).
Definition set_opacity (o : Opacity) (s : t) : t :=
  mk (isComposing s) (value s) o (focused s) (composingAttr s)
     (focusedAttr s) (hasOnSpecialKey s).
Definition set_composingAttr (b : bool) (s : t) : t :=
  mk (isComposing s) (value s) (opacity s) (focused s) b (focusedAttr s)
     (hasOnSpecialKey s).

(** [updatePosition] re-writes the same four style constants and logs; it
    changes no field of the model.  [showInput] sets the opacity. *)
Definition updatePosition (s : t) : t := s.
Definition showInput (s : t) : t := updatePosition (set_opacity Shown s).
Definition hideInput (s : t) : t := set_opacity Faint s.

Definition handleCompositionStart (s : t) : Result :=
  let s := set_isComposing true s in
  let s := set_composingAttr true s in
  let s := showInput s in
  (updatePosition s, []).

Definition handleCompositionUpdate (s : t) (data : string) : Result :=
  (updatePosition s, []).

Definition handleCompositionEnd (s : t) (data : string) : Result :=
  let s := set_isComposing false s in
  let s := set_composingAttr false s in
  let finalText := data in
  let sent :=
    if JS.truthy finalText
    then [OnTextInput finalText]
    else [Warn "IME composition ended with no text"] in
  (set_value "" s, sent ++ [SetTimeout HideAndReposition 100]).

(** The [input] event: [e.target] is the proxy, whose value the browser has
    already updated. *)
Definition handleInput (s : t) : Result :=
  let text := value s in
  if isComposing s then (s, [])
  else if JS.truthy text
       then (set_value "" s, [OnTextInput text; SetTimeout HideIfUnfocused 100])
       else (s, []).

Definition handleKeydown (s : t) (e : KeyboardEvent) : Result :=
  if (metaKey e || ctrlKey e) && (key e =? "v") then (s, [])
  else if isComposing s then (s, [])
  else if hasOnSpecialKey s then
    if key e =? "Enter" then
      if JS.truthy (JS.trim (value s))
      then (set_value "" s, [PreventDefault; OnTextInput (value s)])
      else (s, [PreventDefault; OnSpecialKey "enter"])
    else if key e =? "Backspace" then
      if negb (JS.truthy (value s))
      then (s, [PreventDefault; OnSpecialKey "backspace"])
      else (s, [])
    else if key e =? "Tab" then
      (s, [PreventDefault;
           OnSpecialKey (if shiftKey e then "shift_tab" else "tab")])
    else if key e =? "Escape" then
      (s, [PreventDefault; OnSpecialKey "escape"])
    else if key e =? "ArrowUp" then
      (s, [PreventDefault; OnSpecialKey "arrow_up"])
    else if key e =? "ArrowDown" then
      (s, [PreventDefault; OnSpecialKey "arrow_down"])
    else if key e =? "ArrowLeft" then
      if negb (JS.truthy (value s))
      then (s, [PreventDefault; OnSpecialKey "arrow_left"])
      else (s, [])
    else if key e =? "ArrowRight" then
      if negb (JS.truthy (value s))
      then (s, [PreventDefault; OnSpecialKey "arrow_right"])
      else (s, [])
    else if key e =? "Delete" then
      (s, [PreventDefault; StopPropagation; OnSpecialKey "delete"])
    else (s, [])
  else (s, []).

(** [clip] is [e.clipboardData?.getData('text')]. *)
Definition handlePaste (s : t) (clip : option string) : Result :=
  match clip with
  | Some pastedText =>
      if JS.truthy pastedText
      then (set_value "" s, [OnTextInput pastedText; PreventDefault])
      else (s, [])
  | None => (s, [])
  end.

(** The document-level paste listener installed by [setupEventListeners]. *)
Definition globalPasteHandler (s : t) (target : PasteTarget)
    (clip : option string) : Result :=
  if isProxy target then (s, [])
  else if isEditable target then (s, [])
  else match clip with
       | Some pastedText =>
           if JS.truthy pastedText
           then (s, [OnTextInput pastedText; PreventDefault])
           else (s, [])
       | None => (s, [])
       end.

(** One paste event as the two listeners of [setupEventListeners] see it:
    the listener on the proxy runs when the proxy is the target, then the
    event bubbles to the listener on [document]. *)
Definition dispatchPaste (s : t) (target : PasteTarget)
    (clip : option string) : Result :=
  let (s1, t1) := if isProxy target then handlePaste s clip else (s, []) in
  let (s2, t2) := globalPasteHandler s1 target clip in
  (s2, t1 ++ t2).

(** Readers over a list of calls. *)
Definition textOf (e : Effect) : option string :=
  match e with OnTextInput s => Some s | _ => None end.
Definition specialOf (e : Effect) : option string :=
  match e with OnSpecialKey k => Some k | _ => None end.
Definition isPreventDefault (e : Effect) : bool :=
  match e with PreventDefault => true | _ => false end.

Fixpoint choose {A B} (f : A -> option B) (l : list A) : list B :=
  match l with
  | [] => []
  | x :: r => match f x with
              | Some y => y :: choose f r
              | None => choose f r
              end
  end.

(** The texts handed to [onTextInput], the keys handed to [onSpecialKey]
    and the number of [preventDefault] calls. *)
Definition texts (l : list Effect) : list string := choose textOf l.
Definition specials (l : list Effect) : list string := choose specialOf l.
Definition prevented (l : list Effect) : nat :=
  List.length (filter isPreventDefault l).

End IME.

(** ** The wire payload and the collaborators of [InputManager] *)

(** The argument of [sendInputInternal], typed
    [{ text?: string; key?: string }] in the source. *)
Module Input.

Record t := mk {
  text : option string;
  key : option string
}.

(** The object literals [{ text }] and [{ key: inputText }]. *)
Definition ofText (s : string) : t := mk (Some s) None.
Definition ofKey (k : string) : t := mk None (Some k).

(** Number of populated fields. *)
Definition fields (p : t) : nat :=
  (match text p with Some _ => 1 | None => 0 end) +
  (match key p with Some _ => 1 | None => 0 end).

End Input.

(** [Session] is declared in shared/types; the manager reads [id] and reads
    and writes [status], which it only ever compares with ['exited']. *)
Record Session := mkSession {
  id : string;
  status : string
}.

(** [InputManagerCallbacks]: [requestUpdate] is mandatory; the optional
    [getKeyboardCaptureActive] is [None] when absent and otherwise the value
    it returns.  [getTerminalElement] only feeds the proxy's position and
    font size. *)
Record InputManagerCallbacks := mkCallbacks {
  getKeyboardCaptureActive : option bool
}.

(** How the [fetch] of the fallback request settles. *)
Inductive FetchOutcome :=
| Response (code : Z)   (* a response with this status code *)
| Threw.                (* the promise rejects *)

(** What one call reads from outside the object. *)
Record World := mkWorld {
  (** [Date.now()] *)
  now : Z;
  (** the boolean [websocketInputClient.sendInput(input)] returns *)
  wsAccepts : bool;
  (** the outcome of the fallback [fetch] *)
  fetched : FetchOutcome
}.

(** ** [InputManager] (session-view/input-manager.ts) *)

Module InputManager.

Record t := mk {
  session : option Session;
  callbacks : option InputManagerCallbacks;
  useWebSocketInput : bool;
  lastEscapeTime : Z;
  imeInput : option IME.t;
  (** due times of the pending closures
      [setTimeout(() => this.imeInput?.refreshPosition(), 50)]; the
      browser's timer queue as far as this object fills it *)
  timers : list Z
}.

(** Calls the manager makes, in program order.  [logger.log] and
    [logger.debug] are not traced; [logger.warn] and [logger.error] are. *)
Inductive Effect :=
| WsSend (p : Input.t) (accepted : bool)
    (* websocketInputClient.sendInput(p), with the boolean it returned *)
| HttpPost (sid : string) (p : Input.t)
    (* fetch('/api/sessions/' + sid + '/input', { method: 'POST', body: p }) *)
| RequestUpdate                  (* callbacks.requestUpdate() *)
| CaptureToggled (active : bool) (* the 'capture-toggled' custom event *)
| ConsumeEvent                   (* consumeEvent(e) *)
| RefreshPosition                (* imeInput.refreshPosition() *)
| LogWarn (msg : string)
| LogError (msg : string).

Definition Result : Type := t * list Effect.

Definition DOUBLE_ESCAPE_THRESHOLD : Z := 500.

Definition set_session (s : option Session) (m : t) : t :=
  mk s (callbacks m) (useWebSocketInput m) (lastEscapeTime m) (imeInput m)
     (timers m).
Definition set_lastEscapeTime (x : Z) (m : t) : t :=
  mk (session m) (callbacks m) (useWebSocketInput m) x (imeInput m)
     (timers m).
Definition set_imeInput (i : option IME.t) (m : t) : t :=
  mk (session m) (callbacks m) (useWebSocketInput m) (lastEscapeTime m) i
     (timers m).
Definition set_timers (l : list Z) (m : t) : t :=
  mk (session m) (callbacks m) (useWebSocketInput m) (lastEscapeTime m)
     (imeInput m) l.

(** [this.session.status = 'exited'] on the session object. *)
Definition exit_session (s : Session) : Session := mkSession (id s) "exited".

(** [this.imeInput?.isFocused()] and [this.imeInput?.isComposingText()]
    as conditions: [undefined] is falsy. *)
Definition imeFocused (m : t) : bool :=
  match imeInput m with
  | Some i => IME.focused i
  | None => false
  end.
Definition imeComposing (m : t) : bool :=
  match imeInput m with
  | Some i => IME.isComposing i
  | None => false
  end.

(** [response.ok] *)
Definition ok (code : Z) : bool := ((200 <=? code) && (code <=? 299))%Z.

Definition specialKeys : list string :=
  [ "enter"; "escape"; "backspace"; "tab"; "shift_tab";
    "arrow_up"; "arrow_down"; "arrow_left"; "arrow_right";
    "ctrl_enter"; "shift_enter"; "page_up"; "page_down"; "home"; "end";
    "delete";
    "f1"; "f2"; "f3"; "f4"; "f5"; "f6"; "f7"; "f8"; "f9"; "f10"; "f11";
    "f12" ].

(** The [await fetch] is taken as one step: no other handler runs between
    the request and its response. *)
Definition sendInputInternal (m : t) (w : World) (input : Input.t)
    (errorContext : string) : Result :=
  match session m with
  | None => (m, [LogWarn "No session available, cannot send input"])
  | Some s =>
      let tried :=
        if useWebSocketInput m then [WsSend input (wsAccepts w)] else [] in
      if useWebSocketInput m && wsAccepts w then (m, tried)
      else
        let posted := tried ++ [HttpPost (id s) input] in
        match fetched w with
        | Threw => (m, posted ++ [LogError ("error " ++ errorContext)])
        | Response code =>
            if negb (ok code) then
              if (code =? 400)%Z then
                match session m with
                | Some s' =>
                    (set_session (Some (exit_session s')) m,
                     posted ++
                     match callbacks m with
                     | Some _ => [RequestUpdate]
                     | None => []
                     end)
                | None => (m, posted)
                end
              else (m, posted ++ [LogError ("failed to " ++ errorContext)])
            else (m, posted)
        end
  end.

Definition refreshIMEPosition (m : t) (w : World) : Result :=
  if imeFocused m
  then (set_timers (timers m ++ [(now w + 50)%Z]) m, [RefreshPosition])
  else (m, []).

(** [await a; b] for two steps of one call. *)
Definition andThen (r : Result) (k : t -> Result) : Result :=
  let (m1, t1) := r in
  let (m2, t2) := k m1 in
  (m2, t1 ++ t2).

Definition sendInputText (m : t) (w : World) (text : string) : Result :=
  andThen (sendInputInternal m w (Input.ofText text) "send input to session")
          (fun m => refreshIMEPosition m w).

Definition sendControlSequence (m : t) (w : World) (controlChar : string)
    : Result :=
  andThen (sendInputInternal m w (Input.ofText controlChar)
             "send control sequence to session")
          (fun m => refreshIMEPosition m w).

Definition sendInput (m : t) (w : World) (inputText : string) : Result :=
  let input :=
    if JS.includes specialKeys inputText
    then Input.ofKey inputText
    else Input.ofText inputText in
  andThen (sendInputInternal m w input "send input to session")
          (fun m => refreshIMEPosition m w).

(** The escape sequences of the Alt combinations: ESC b, ESC f, Ctrl+W. *)
Definition esc_b : string := JS.fromCharCode 27 ++ "b".
Definition esc_f : string := JS.fromCharCode 27 ++ "f".
Definition ctrl_w : string := JS.fromCharCode 23.

Section Keyboard.

(** [isCopyPasteShortcut] (utils/browser-shortcuts) and [isIMEAllowedKey]
    (utils/ime-constants) are imported predicates on the event. *)
Variable isCopyPasteShortcut : KeyboardEvent -> bool.
Variable isIMEAllowedKey : KeyboardEvent -> bool.

Definition handleKeyboardInput (m : t) (w : World) (e : KeyboardEvent)
    : Result :=
  match session m with
  | None => (m, [])
  | Some s =>
    if imeFocused m && negb (isIMEAllowedKey e) then (m, [])
    else if imeComposing m then (m, [])
    else
    let k := key e in
    if (k =? "Escape") && (status s =? "exited") then (m, [])
    else if status s =? "exited" then (m, [])
    else if isCopyPasteShortcut e then (m, [])
    else
    let altOnly :=
      altKey e && negb (ctrlKey e) && negb (metaKey e)
      && negb (shiftKey e) in
    if altOnly && (k =? "ArrowLeft")
    then andThen (m, [ConsumeEvent]) (fun m => sendInput m w esc_b)
    else if altOnly && (k =? "ArrowRight")
    then andThen (m, [ConsumeEvent]) (fun m => sendInput m w esc_f)
    else if altOnly && (k =? "Backspace")
    then andThen (m, [ConsumeEvent]) (fun m => sendInput m w ctrl_w)
    else
    (* lines 340-350: the Ctrl combinations, then the send *)
    let finish (m : t) (inputText : string) : Result :=
      let inputText :=
        if ctrlKey e && (String.length k =? 1)%nat && negb (k =? "Enter")
        then match JS.charCodeAt0 (JS.toLowerCase k) with
             | Some charCode =>
                 if ((97 <=? charCode) && (charCode <=? 122))%Z
                 then JS.fromCharCode (charCode - 96)
                 else inputText
             | None => inputText
             end
        else inputText in
      sendInput m w inputText in
    if k =? "Enter" then
      finish m (if ctrlKey e then "ctrl_enter"
                else if shiftKey e then "shift_enter"
                else "enter")
    else if k =? "Escape" then
      let timeSinceLastEscape := (now w - lastEscapeTime m)%Z in
      if (timeSinceLastEscape <? DOUBLE_ESCAPE_THRESHOLD)%Z then
        (set_lastEscapeTime 0 m,
         match callbacks m with
         | Some c =>
             let currentCapture :=
               match getKeyboardCaptureActive c with
               | Some b => b
               | None => true
               end in
             [CaptureToggled (negb currentCapture)]
         | None => []
         end)
      else finish (set_lastEscapeTime (now w) m) "escape"
    else if k =? "ArrowUp" then finish m "arrow_up"
    else if k =? "ArrowDown" then finish m "arrow_down"
    else if k =? "ArrowLeft" then finish m "arrow_left"
    else if k =? "ArrowRight" then finish m "arrow_right"
    else if k =? "Tab" then
      finish m (if shiftKey e then "shift_tab" else "tab")
    else if k =? "Backspace" then finish m "backspace"
    else if k =? "Delete" then finish m "delete"
    else if k =? " " then finish m " "
    else if (String.length k =? 1)%nat then finish m k
    else (m, [])
  end.

(** The guards of lines 201-226, taken together: a session is attached
    and has not exited, the focused proxy does not hold the key back and
    no composition is in progress. *)
Definition listening (m : t) (e : KeyboardEvent) : bool :=
  match session m with
  | None => false
  | Some s =>
      negb (imeFocused m && negb (isIMEAllowedKey e))
      && negb (imeComposing m)
      && negb (status s =? "exited")
  end.

(** The event gets as far as the key mapping: it passes these guards and
    is no copy/paste shortcut (lines 228-232). *)
Definition reachesMapping (m : t) (e : KeyboardEvent) : bool :=
  listening m e && negb (isCopyPasteShortcut e).

End Keyboard.

(** The call ends on the fallback transport with status 400, the one
    outcome that marks the session as exited. *)
Definition definitivelyRejected (m : t) (w : World) : bool :=
  negb (useWebSocketInput m && wsAccepts w)
  && match fetched w with
     | Response code => (code =? 400)%Z
     | Threw => false
     end.

(** The closures [setupIMEInput] passes to the proxy:
    [onTextInput: text => this.sendInputText(text)] and
    [onSpecialKey: key => this.sendInput(key)]. *)
Definition onProxyCall (m : t) (w : World) (c : IME.Effect) : Result :=
  match c with
  | IME.OnTextInput s => sendInputText m w s
  | IME.OnSpecialKey k => sendInput m w k
  | _ => (m, [])
  end.

Fixpoint onProxyCalls (m : t) (w : World) (cs : list IME.Effect) : Result :=
  match cs with
  | [] => (m, [])
  | c :: r => andThen (onProxyCall m w c) (fun m => onProxyCalls m w r)
  end.

(** An event on the proxy, seen from the manager: the proxy's handler runs
    and its callbacks reach the manager.  The manager reads only
    [IME.focused] of the proxy, which no handler writes, so running the
    callbacks after the handler gives what running them inside it gives. *)
Definition proxyEvent (h : IME.t -> IME.Result) (m : t) (w : World)
    : Result :=
  match imeInput m with
  | None => (m, [])
  | Some i =>
      let (i', cs) := h i in
      onProxyCalls (set_imeInput (Some i') m) w cs
  end.

(** The browser runs the timeouts that are due at time [t]; each runs
    [this.imeInput?.refreshPosition()]. *)
Definition runTimers (m : t) (t : Z) : Result :=
  let due := filter (fun d => (d <=? t)%Z) (timers m) in
  let rest := filter (fun d => negb (d <=? t)%Z) (timers m) in
  (set_timers rest m,
   match imeInput m with
   | Some _ => map (fun _ => RefreshPosition) due
   | None => []
   end).

(** Readers over a trace. *)

(** Payloads that went out: accepted by the persistent channel, or posted
    on the fallback transport. *)
Fixpoint sent (l : list Effect) : list Input.t :=
  match l with
  | [] => []
  | WsSend p true :: r => p :: sent r
  | HttpPost _ p :: r => p :: sent r
  | _ :: r => sent r
  end.

Fixpoint viaWebSocket (l : list Effect) : list Input.t :=
  match l with
  | [] => []
  | WsSend p true :: r => p :: viaWebSocket r
  | _ :: r => viaWebSocket r
  end.

Fixpoint viaHttp (l : list Effect) : list Input.t :=
  match l with
  | [] => []
  | HttpPost _ p :: r => p :: viaHttp r
  | _ :: r => viaHttp r
  end.

(** Every payload handed to any transport, accepted or not. *)
Fixpoint offered (l : list Effect) : list Input.t :=
  match l with
  | [] => []
  | WsSend p _ :: r => p :: offered r
  | HttpPost _ p :: r => p :: offered r
  | _ :: r => offered r
  end.

Fixpoint toggles (l : list Effect) : list bool :=
  match l with
  | [] => []
  | CaptureToggled b :: r => b :: toggles r
  | _ :: r => toggles r
  end.

Fixpoint refreshes (l : list Effect) : nat :=
  match l with
  | [] => 0
  | RequestUpdate :: r => S (refreshes r)
  | _ :: r => refreshes r
  end.

Fixpoint repositions (l : list Effect) : nat :=
  match l with
  | [] => 0
  | RefreshPosition :: r => S (repositions r)
  | _ :: r => repositions r
  end.

Fixpoint errorsLogged (l : list Effect) : nat :=
  match l with
  | [] => 0
  | LogError _ :: r => S (errorsLogged r)
  | _ :: r => errorsLogged r
  end.

End InputManager.

(** ** Concrete states and events

    Instances on which the handlers are run.  The two imported predicates are
    given one possible reading: Ctrl or Cmd with C, V or X is a copy/paste
    shortcut, and the focused proxy lets through modified keys and the
    arrows. *)

Module Sample.

Definition isCopyPasteShortcut (e : KeyboardEvent) : bool :=
  (ctrlKey e || metaKey e) && negb (altKey e) && negb (shiftKey e)
  && JS.includes ["c"; "v"; "x"] (JS.toLowerCase (key e)).

Definition isIMEAllowedKey (e : KeyboardEvent) : bool :=
  ctrlKey e || metaKey e || altKey e
  || JS.includes ["ArrowLeft"; "ArrowRight"; "ArrowUp"; "ArrowDown";
                  "Home"; "End"] (key e).

Definition proxy : IME.t := IME.mk false "" IME.Shown true false true true.
Definition composingProxy : IME.t :=
  IME.mk true "ni" IME.Shown true true true true.

Definition running : Session := mkSession "s1" "running".
Definition exited : Session := mkSession "s1" "exited".
Definition hooks : InputManagerCallbacks := mkCallbacks (Some true).

Definition manager : InputManager.t :=
  InputManager.mk (Some running) (Some hooks) true 0 (Some proxy) [].
Definition composingManager : InputManager.t :=
  InputManager.mk (Some running) (Some hooks) true 0 (Some composingProxy) [].
Definition exitedManager : InputManager.t :=
  InputManager.mk (Some exited) (Some hooks) true 0 (Some proxy) [].
(** The focus is on the terminal, not on the proxy. *)
Definition blurredProxy : IME.t :=
  IME.mk false "" IME.Faint false false false true.
Definition terminalManager : InputManager.t :=
  InputManager.mk (Some running) (Some hooks) true 0 (Some blurredProxy) [].

(** The persistent channel accepts. *)
Definition online (t : Z) : World := mkWorld t true (Response 200).
(** The persistent channel declines and the fallback answers [code]. *)
Definition offline (t code : Z) : World := mkWorld t false (Response code).

Definition t0 : Z := 1700000000000.

Definition press (k : string) : KeyboardEvent :=
  mkKey k false false false false.
Definition ctrl (k : string) : KeyboardEvent :=
  mkKey k true false false false.

End Sample.

(** ** The proxy's focus handling, deferred closures and events
    (ime-input.ts, lines 344-531) *)

Module IMELife.

(** The closures the proxy hands to [setTimeout] and
    [requestAnimationFrame]. *)
Inductive Closure :=
| AfterCompositionEnd   (* 100 ms after a composition end, lines 227-232 *)
| AfterInput            (* 100 ms after plain input, lines 258-262 *)
| AfterBlur             (* 50 ms after a blur, lines 360-369 *)
| FocusCheck            (* next frame after [focus()], lines 428-438 *)
| FocusRetry.           (* the frame after that, lines 431-436 *)

Definition ofDeferred (d : IME.Deferred) : Closure :=
  match d with
  | IME.HideAndReposition => AfterCompositionEnd
  | IME.HideIfUnfocused => AfterInput
  end.

(** What the focus handling asks of the browser. *)
Inductive Request :=
| InputFocus                          (* this.input.focus() *)
| SetTimeout (c : Closure) (ms : Z)
| AnimationFrame (c : Closure)        (* requestAnimationFrame(c) *)
| ListenersRemoved                    (* the removeEventListener calls *)
| InputRemoved.                       (* this.input.remove() *)

Definition set_focusedAttr (b : bool) (s : IME.t) : IME.t :=
  IME.mk (IME.isComposing s) (IME.value s) (IME.opacity s) (IME.focused s)
         (IME.composingAttr s) b (IME.hasOnSpecialKey s).

(** [document.activeElement] moves to or away from the proxy; the browser
    does this, no handler does. *)
Definition set_focused (b : bool) (s : IME.t) : IME.t :=
  IME.mk (IME.isComposing s) (IME.value s) (IME.opacity s) b
         (IME.composingAttr s) (IME.focusedAttr s) (IME.hasOnSpecialKey s).

(** [focusRetentionInterval] is never assigned, so [startFocusRetention]
    and [stopFocusRetention] find it null and do nothing. *)
Definition startFocusRetention (s : IME.t) : IME.t := s.
Definition stopFocusRetention (s : IME.t) : IME.t := s.

Definition handleFocus (s : IME.t) : IME.t :=
  let s := set_focusedAttr true s in
  let s := IME.showInput s in
  startFocusRetention s.

Definition handleBlur (s : IME.t) : IME.t * list Request :=
  (s, [SetTimeout AfterBlur 50]).

Definition focus (s : IME.t) : IME.t * list Request :=
  let s := IME.updatePosition s in
  let s := IME.showInput s in
  let s := IME.set_opacity IME.Shown s in
  (s, [InputFocus; AnimationFrame FocusCheck]).

Definition cleanup (s : IME.t) : IME.t * list Request :=
  let s := stopFocusRetention s in
  let s := set_focusedAttr false s in
  let s := IME.set_composingAttr false s in
  (s, [ListenersRemoved; InputRemoved]).

(** A closure runs. *)
Definition runClosure (c : Closure) (s : IME.t) : IME.t * list Request :=
  match c with
  | AfterCompositionEnd =>
      let s := if negb (IME.focused s) then IME.hideInput s else s in
      (IME.updatePosition s, [])
  | AfterInput =>
      (if negb (IME.focused s) then IME.hideInput s else s, [])
  | AfterBlur =>
      if negb (IME.focused s) then
        let s := set_focusedAttr false s in
        let s := stopFocusRetention s in
        (if negb (IME.isComposing s) then IME.hideInput s else s, [])
      else (s, [])
  | FocusCheck =>
      if negb (IME.focused s)
      then (s, [AnimationFrame FocusRetry])
      else (s, [])
  | FocusRetry =>
      if negb (IME.focused s) then (s, [InputFocus]) else (s, [])
  end.

(** Whatever can happen to the proxy between its construction and its
    cleanup: the events it listens to, its closures coming due, and the
    browser editing the buffer or moving the focus. *)
Inductive Event :=
| CompositionStart
| CompositionUpdate (data : string)
| CompositionEnd (data : string)
| InputEvent
| Keydown (e : KeyboardEvent)
| Paste (target : PasteTarget) (clip : option string)
| Focus
| Blur
| Due (c : Closure)
| FocusCall                       (* the public [focus()] *)
| BrowserEdits (v : string)       (* the user's typing changes the buffer *)
| BrowserFocus (b : bool).        (* the active element changes *)

(** The proxy after an event, and the callbacks the event made. *)
Definition step (s : IME.t) (ev : Event) : IME.Result :=
  match ev with
  | CompositionStart => IME.handleCompositionStart s
  | CompositionUpdate d => IME.handleCompositionUpdate s d
  | CompositionEnd d => IME.handleCompositionEnd s d
  | InputEvent => IME.handleInput s
  | Keydown e => IME.handleKeydown s e
  | Paste target clip => IME.dispatchPaste s target clip
  | Focus => (handleFocus s, [])
  | Blur => (fst (handleBlur s), [])
  | Due c => (fst (runClosure c s), [])
  | FocusCall => (fst (focus s), [])
  | BrowserEdits v => (IME.set_value v s, [])
  | BrowserFocus b => (set_focused b s, [])
  end.

Fixpoint run (s : IME.t) (evs : list Event) : IME.Result :=
  match evs with
  | [] => (s, [])
  | ev :: r =>
      let (s1, c1) := step s ev in
      let (s2, c2) := run s1 r in
      (s2, c1 ++ c2)
  end.

(** The proxy as the constructor leaves it when called with
    [autoFocus: true] and an [onSpecialKey] callback, as the manager calls
    it: [createInput] sets the opacity to '0.01', [focus()] raises it to
    '0.8' and calls [input.focus()]; when the browser grants the focus, the
    focus event runs [handleFocus] at once. *)
Definition create (focusGranted : bool) : IME.t :=
  let s := IME.mk false "" IME.Faint false false false true in
  let s := fst (focus s) in
  if focusGranted then handleFocus (set_focused true s) else s.

(** Events that neither end a composition nor paste. *)
Definition absorbed (ev : Event) : bool :=
  match ev with
  | CompositionEnd _ => false
  | Paste _ _ => false
  | _ => true
  end.

(** Events other than the focus leaving the proxy. *)
Definition keepsFocus (ev : Event) : bool :=
  match ev with
  | BrowserFocus false => false
  | _ => true
  end.

End IMELife.

(** ** The manager's set-up and tear-down
    (input-manager.ts, lines 38-198 and 492-721) *)

Module Lifecycle.

(** What the set-up reads from the page at the time of a call. *)
Record Page := mkPage {
  (** [/iPhone|Android/i.test(ua) && !/iPad/.test(ua)] *)
  isMobilePhone : bool;
  (** the imported [detectMobile()] *)
  detectMobile : bool;
  (** the callbacks carry [getTerminalElement] and it returns an element *)
  terminalElement : bool;
  (** one of the three look-ups for the terminal container succeeds *)
  terminalContainer : bool;
  (** the URL parameter [socket_input] *)
  socket_input : option string;
  (** the browser grants [input.focus()] to a new proxy *)
  focusGranted : bool
}.

(** The manager together with the two things its set-up keeps outside the
    fields of the input path: the global composition listener, and the
    [retryCount] arguments of the pending closures
    [setTimeout(() => this.setupIMEInput(retryCount + 1), 100)], oldest
    first. *)
Record t := mk {
  core : InputManager.t;
  globalCompositionListener : bool;
  retries : list nat
}.

Inductive Effect :=
| ProxyCreated                     (* new DesktopIMEInput({...}) *)
| ProxyCleanedUp                   (* imeInput.cleanup() *)
| ProxyAsked (r : IMELife.Request) (* what imeInput.focus() asks for *)
| ListenerAdded      (* document.addEventListener('compositionstart', ...) *)
| ListenerRemoved    (* document.removeEventListener('compositionstart', ...) *)
| WsConnect (sid : string)         (* websocketInputClient.connect(session) *)
| WsDisconnect                     (* websocketInputClient.disconnect() *)
| RetryScheduled (retryCount : nat) (ms : Z)
| Error (msg : string)
| Warn (msg : string).

Definition Result : Type := t * list Effect.

Definition MAX_RETRIES : nat := 10.
Definition IME_SETUP_RETRY_DELAY_MS : Z := 100.

(** The warning both set-up paths log when no container is found. *)
Definition containerNotFound : string :=
  "Terminal container not found (tried session-terminal, terminal-container, .terminal-scroll-container), cannot setup IME input".

Definition set_core (c : InputManager.t) (l : t) : t :=
  mk c (globalCompositionListener l) (retries l).
Definition set_listener (b : bool) (l : t) : t :=
  mk (core l) b (retries l).
Definition set_retries (r : list nat) (l : t) : t :=
  mk (core l) (globalCompositionListener l) r.

Definition set_callbacks (c : option InputManagerCallbacks)
    (m : InputManager.t) : InputManager.t :=
  InputManager.mk (InputManager.session m) c
    (InputManager.useWebSocketInput m) (InputManager.lastEscapeTime m)
    (InputManager.imeInput m) (InputManager.timers m).
Definition set_useWebSocketInput (b : bool) (m : InputManager.t)
    : InputManager.t :=
  InputManager.mk (InputManager.session m) (InputManager.callbacks m) b
    (InputManager.lastEscapeTime m) (InputManager.imeInput m)
    (InputManager.timers m).

Definition andThen (r : Result) (k : t -> Result) : Result :=
  let (l1, t1) := r in
  let (l2, t2) := k l1 in
  (l2, t1 ++ t2).

Definition hasProxy (l : t) : bool :=
  match InputManager.imeInput (core l) with
  | Some _ => true
  | None => false
  end.
Definition hasSession (l : t) : bool :=
  match InputManager.session (core l) with
  | Some _ => true
  | None => false
  end.

(** [new DesktopIMEInput({ ..., autoFocus: true })] assigned to
    [this.imeInput]. *)
Definition createProxy (l : t) (page : Page) : Result :=
  (set_core (InputManager.set_imeInput
               (Some (IMELife.create (focusGranted page))) (core l)) l,
   [ProxyCreated]).

Definition setupIMEInput (retryCount : nat) (l : t) (page : Page) : Result :=
  if isMobilePhone page then (l, [])
  else if hasProxy l then (l, [])
  else
    let terminal :=
      match InputManager.callbacks (core l) with
      | Some _ => terminalElement page
      | None => false
      end in
    if negb terminal then
      if (MAX_RETRIES <=? retryCount)%nat
      then (l, [Error "Failed to setup IME after maximum retries"])
      else (set_retries (retries l ++ [retryCount + 1]) l,
            [RetryScheduled (retryCount + 1) IME_SETUP_RETRY_DELAY_MS])
    else if negb (terminalContainer page)
    then (l, [Warn containerNotFound])
    else createProxy l page.

Definition forceSetupIMEInput (l : t) (page : Page) : Result :=
  if negb (terminalContainer page)
  then (l, [Warn containerNotFound])
  else createProxy l page.

Definition enableIMEInput (l : t) (page : Page) : Result :=
  if detectMobile page then (l, [])
  else if hasProxy l then (l, [])
  else if negb (hasSession l) then (l, [])
  else forceSetupIMEInput l page.

Definition retryIMESetup (l : t) (page : Page) : Result :=
  if negb (hasProxy l) && negb (detectMobile page)
  then setupIMEInput 0 l page
  else (l, []).

(** The listener [setupGlobalCompositionListener] installs, called on a
    [compositionstart] anywhere in the document. *)
Definition onGlobalCompositionStart (l : t) (page : Page) : Result :=
  if globalCompositionListener l then
    if negb (hasProxy l) && hasSession l && negb (detectMobile page)
    then enableIMEInput l page
    else (l, [])
  else (l, []).

Definition setupGlobalCompositionListener (l : t) : Result :=
  if globalCompositionListener l then (l, [])
  else (set_listener true l, [ListenerAdded]).

Definition cleanup (l : t) : Result :=
  let (l, t1) :=
    if hasProxy l
    then (set_core (InputManager.set_imeInput None (core l)) l,
          [ProxyCleanedUp])
    else (l, []) in
  let (l, t2) :=
    if globalCompositionListener l
    then (set_listener false l, [ListenerRemoved])
    else (l, []) in
  let t3 :=
    if InputManager.useWebSocketInput (core l) then [WsDisconnect] else [] in
  let c := InputManager.set_session None (core l) in
  let c := set_callbacks None c in
  (set_core c l, t1 ++ t2 ++ t3).

Definition setCallbacks (c : InputManagerCallbacks) (l : t) : Result :=
  (set_core (set_callbacks (Some c) (core l)) l, []).

Definition setSession (session : option Session) (l : t) (page : Page)
    : Result :=
  let isSome := match session with Some _ => true | None => false end in
  andThen (if negb isSome && hasProxy l then cleanup l else (l, []))
  (fun l =>
  andThen (set_core (InputManager.set_session session (core l)) l, [])
  (fun l =>
  andThen (if isSome && negb (hasProxy l)
           then setupIMEInput 0 l page else (l, []))
  (fun l =>
  andThen (if isSome && negb (detectMobile page)
           then setupGlobalCompositionListener l else (l, []))
  (fun l =>
  andThen (match socket_input page with
           | Some v =>
               (set_core (set_useWebSocketInput (v =? "true") (core l)) l, [])
           | None => (l, [])
           end)
  (fun l =>
  match session with
  | Some s =>
      if InputManager.useWebSocketInput (core l)
      then (l, [WsConnect (id s)])
      else (l, [])
  | None => (l, [])
  end))))).

Definition focusIMEInput (l : t) : Result :=
  match InputManager.imeInput (core l) with
  | Some i =>
      let (i', asked) := IMELife.focus i in
      (set_core (InputManager.set_imeInput (Some i') (core l)) l,
       map ProxyAsked asked)
  | None => (l, [])
  end.

(** The oldest pending retry closure comes due. *)
Definition fireRetry (l : t) (page : Page) : Result :=
  match retries l with
  | [] => (l, [])
  | n :: r => setupIMEInput n (set_retries r l) page
  end.

(** Retry closures keep coming due, [fuel] of them at most, the page being
    [pages k] when the [k]-th comes due. *)
Fixpoint fireRetries (fuel : nat) (k : nat) (pages : nat -> Page) (l : t)
    : Result :=
  match fuel with
  | O => (l, [])
  | S f =>
      match retries l with
      | [] => (l, [])
      | _ => andThen (fireRetry l (pages k))
                     (fun l => fireRetries f (S k) pages l)
      end
  end.

(** The public operations of the set-up, and the two callbacks the browser
    runs for it. *)
Inductive Op :=
| SetSession (s : option Session)
| SetCallbacks (c : InputManagerCallbacks)
| Cleanup
| RetryIMESetup
| EnableIMEInput
| FocusIMEInput
| GlobalCompositionStart
| RetryDue.

Definition apply (o : Op) (l : t) (page : Page) : Result :=
  match o with
  | SetSession s => setSession s l page
  | SetCallbacks c => setCallbacks c l
  | Cleanup => cleanup l
  | RetryIMESetup => retryIMESetup l page
  | EnableIMEInput => enableIMEInput l page
  | FocusIMEInput => focusIMEInput l
  | GlobalCompositionStart => onGlobalCompositionStart l page
  | RetryDue => fireRetry l page
  end.

Fixpoint applyAll (os : list (Op * Page)) (l : t) : Result :=
  match os with
  | [] => (l, [])
  | (o, page) :: r => andThen (apply o l page) (fun l => applyAll r l)
  end.

Fixpoint created (tr : list Effect) : nat :=
  match tr with
  | [] => 0
  | ProxyCreated :: r => S (created r)
  | _ :: r => created r
  end.

Fixpoint cleaned (tr : list Effect) : nat :=
  match tr with
  | [] => 0
  | ProxyCleanedUp :: r => S (cleaned r)
  | _ :: r => cleaned r
  end.

Fixpoint scheduled (tr : list Effect) : nat :=
  match tr with
  | [] => 0
  | RetryScheduled _ _ :: r => S (scheduled r)
  | _ :: r => scheduled r
  end.

Fixpoint errors (tr : list Effect) : nat :=
  match tr with
  | [] => 0
  | Error _ :: r => S (errors r)
  | _ :: r => errors r
  end.

Fixpoint connects (tr : list Effect) : nat :=
  match tr with
  | [] => 0
  | WsConnect _ :: r => S (connects r)
  | _ :: r => connects r
  end.

Fixpoint disconnects (tr : list Effect) : nat :=
  match tr with
  | [] => 0
  | WsDisconnect :: r => S (disconnects r)
  | _ :: r => disconnects r
  end.

(** The manager as its field initialisers leave it. *)
Definition initial : t :=
  mk (InputManager.mk None None true 0 None []) false [].

(** A trace read against the proxy it is about: [alive] says whether a
    proxy exists at the start.  The reading fails when a proxy is built
    while one is alive, or cleaned up while none is; otherwise it tells
    whether one is alive at the end. *)
Fixpoint replay (alive : bool) (tr : list Effect) : option bool :=
  match tr with
  | [] => Some alive
  | ProxyCreated :: r => if alive then None else replay true r
  | ProxyCleanedUp :: r => if alive then replay false r else None
  | _ :: r => replay alive r
  end.

End Lifecycle.

(** ** [isKeyboardShortcut] (input-manager.ts, lines 502-575) *)

Module Shortcuts.

(** What the function tests on [e.target]. *)
Record Element := mkElement {
  tagName : string;
  contentEditable : string;
  (** [target.closest?.('.monaco-editor')] finds something, and so on *)
  inMonacoEditor : bool;
  inKeybindingContext : bool;
  inEditorContainer : bool;
  inInlineEdit : bool
}.

Definition letters : list string := ["a"; "f"; "r"; "l"; "p"; "s"; "d"].

(** The first test of [isKeyboardShortcut]: the user is typing in an input
    field or an editor. *)
Definition editable (target : Element) : bool :=
  (tagName target =? "INPUT")
  || (tagName target =? "TEXTAREA")
  || (tagName target =? "SELECT")
  || (contentEditable target =? "true")
  || inMonacoEditor target
  || inKeybindingContext target
  || inEditorContainer target
  || inInlineEdit target.

Section Imported.

(** [isBrowserShortcut] and [isCopyPasteShortcut] are imported from
    utils/browser-shortcuts. *)
Variable isBrowserShortcut : KeyboardEvent -> bool.
Variable isCopyPasteShortcut : KeyboardEvent -> bool.

(** [isMac] is the value of the expression the function computes twice,
    as [isMac] and as [isMacOS]:
    [/Mac|iPhone|iPod|iPad/i.test(navigator.userAgent) ||
     (navigator.platform && navigator.platform.indexOf('Mac') >= 0)]. *)
Definition isKeyboardShortcut (m : InputManager.t) (isMac : bool)
    (target : Element) (e : KeyboardEvent) : bool :=
  if editable target then
    if isCopyPasteShortcut e then true else false
  else if isBrowserShortcut e then true
  else if (key e =? "F12")
          || (negb isMac && ctrlKey e && shiftKey e && (key e =? "I"))
          || (isMac && metaKey e && altKey e && (key e =? "I"))
  then true
  else if (altKey e || metaKey e) && (key e =? "Tab") then true
  else
    let isMacOS := isMac in
    let k := JS.toLowerCase (key e) in
    if isMacOS && metaKey e && altKey e
       && JS.includes ["arrowleft"; "arrowright"] k
    then true
    else
      let captureActive :=
        match InputManager.callbacks m with
        | Some c =>
            match getKeyboardCaptureActive c with
            | Some b => b
            | None => true
            end
        | None => true
        end in
      if negb captureActive then
        if isMacOS && metaKey e && negb (shiftKey e) && negb (altKey e)
           && JS.includes letters k
        then true
        else if negb isMacOS && ctrlKey e && negb (shiftKey e)
                && negb (altKey e) && JS.includes letters k
        then true
        else false
      else false.

End Imported.

(** The manager with the capture state its callbacks report set to [b]. *)
Definition withCapture (b : bool) (m : InputManager.t) : InputManager.t :=
  Lifecycle.set_callbacks (Some (mkCallbacks (Some b))) m.

End Shortcuts.

(** ** [MobileConsole]: the log buffer
    (lines 735-994 of the listing that follows input-manager.ts) *)

Module MobileConsole.

(** A child of the log container: its text, the log type that chose its
    colour, and whether it is bold. *)
Record LogElement := mkLogElement {
  textContent : string;
  logType : string;
  bold : bool
}.

Record t := mk {
  isMinimized : bool;
  logs : list string;
  maxLogs : nat;
  (** the children of [logContainer], oldest first *)
  children : list LogElement;
  (** [logContainer.style.display] and [container.style.maxHeight] *)
  display : string;
  maxHeight : string
}.

(** The object after its constructor: the field initialisers, and the
    styles [createContainer] and [createLogContainer] write. *)
Definition initial : t := mk false [] 100 [] "" "300px".

(** [addLog(type, args)].  The text [logEntry] ('[' timestamp '] ' message)
    is built from the clock and from [JSON.stringify]; it comes in as an
    argument, with [emoji], the outcome of the nine [message.includes]
    tests. *)
Definition addLog (logType : string) (logEntry : string) (emoji : bool)
    (c : t) : t :=
  let pushed := logs c ++ [logEntry] in
  let kept :=
    if (maxLogs c <? List.length pushed)%nat then List.tl pushed
    else pushed in
  mk (isMinimized c) kept (maxLogs c)
     (children c ++ [mkLogElement logEntry logType emoji])
     (display c) (maxHeight c).

Definition clear (c : t) : t :=
  mk (isMinimized c) [] (maxLogs c) [] (display c) (maxHeight c).

Definition toggleMinimize (c : t) : t :=
  let minimized := negb (isMinimized c) in
  mk minimized (logs c) (maxLogs c) (children c)
     (if minimized then "none" else "block")
     (if minimized then "auto" else "300px").

(** One intercepted console call: its type, its text and the emoji test. *)
Definition Entry : Type := (string * string * bool)%type.

Definition addAll (es : list Entry) (c : t) : t :=
  fold_left (fun c e => addLog (fst (fst e)) (snd (fst e)) (snd e) c) es c.

End MobileConsole.

(** ** Names used to state what the handlers do *)

Module KeyNames.

(** A string [trim] reduces to nothing: empty or white space only. *)
Fixpoint blank (s : string) : bool :=
  match s with
  | EmptyString => true
  | String c r => JS.is_space c && blank r
  end.

(** The key names with a [case] of their own in the [switch] of
    [handleKeyboardInput]. *)
Definition named : list string :=
  [ "Enter"; "Escape"; "ArrowUp"; "ArrowDown"; "ArrowLeft"; "ArrowRight";
    "Tab"; "Backspace"; "Delete"; " " ].

(** The special-key tokens that [switch] assigns. *)
Definition assigned : list string :=
  [ "enter"; "ctrl_enter"; "shift_enter"; "escape";
    "arrow_up"; "arrow_down"; "arrow_left"; "arrow_right";
    "tab"; "shift_tab"; "backspace"; "delete" ].

(** The keys that map to one token whatever the modifiers. *)
Definition navigation : list (string * string) :=
  [ ("ArrowUp", "arrow_up"); ("ArrowDown", "arrow_down");
    ("ArrowLeft", "arrow_left"); ("ArrowRight", "arrow_right");
    ("Backspace", "backspace"); ("Delete", "delete") ].

(** The Alt combinations and the sequences they send. *)
Definition wordMoves : list (string * string) :=
  [ ("ArrowLeft", InputManager.esc_b); ("ArrowRight", InputManager.esc_f);
    ("Backspace", InputManager.ctrl_w) ].

(** [altKey && !ctrlKey && !metaKey && !shiftKey] *)
Definition altOnly (e : KeyboardEvent) : bool :=
  altKey e && negb (ctrlKey e) && negb (metaKey e) && negb (shiftKey e).

End KeyNames.

(** ** How the input path may move a session *)

Module Transitions.

(** From [m] to [m'] in a call that reads [w]: no session stays no session;
    a session keeps its id, and keeps its status unless the call ended in a
    definitive rejection, which leaves it 'exited'. *)
Definition moves (m : InputManager.t) (w : World) (m' : InputManager.t)
    : Prop :=
  match InputManager.session m, InputManager.session m' with
  | Some s, Some s' =>
      id s' = id s
      /\ (status s' = status s
          \/ (status s' = "exited"
              /\ InputManager.definitivelyRejected m w = true))
  | None, None => True
  | _, _ => False
  end.

End Transitions.

(** ** [NgrokService]: the tunnel process and the promise of [start()]
    (src/unnamed/part_000) *)

Module Ngrok.

(** [port] is the decimal text [String(this.config.port)]. *)
Record NgrokConfig := mkConfig {
  authToken : option string;
  domain : option string;
  port : string;
  region : option string
}.

Record NgrokTunnel := mkTunnel {
  publicUrl : string;
  proto : string;
  name : string;
  uri : string
}.

(** The fields of the service; [ngrokProcess] says whether the field holds
    a process. *)
Record t := mk {
  ngrokProcess : bool;
  currentTunnel : option NgrokTunnel;
  isRunning : bool
}.

(** One call of [start()] past the spawn: the service, the local flag
    [resolved], and the close handlers that calls of [stop()] have put on
    the process. *)
Record Run := mkRun {
  service : t;
  resolved : bool;
  stopHandlers : nat
}.

(** One non-empty line of the process's output, after [JSON.parse]: either
    it does not parse (or parses to null, on which the field access
    throws), or it gives the four fields the handler reads, [None] for a
    field that is absent. *)
Inductive Line :=
| NotJson
| Json (msg url lvl err : option string).

Inductive Signal := SIGTERM | SIGKILL.

Inductive Effect :=
| Resolve (tunnel : NgrokTunnel)   (* resolve(this.currentTunnel) *)
| Reject (message : string)        (* reject(new Error(message)) *)
| ClearStartupTimeout              (* cleanup() *)
| Kill (s : Signal)                (* this.ngrokProcess.kill(s) *)
| SetKillTimeout                   (* setTimeout(..., 5000) in stop() *)
| StopSettled                      (* resolve() of a stop() promise *)
| LogError
| LogWarn
| LogDebug.

Definition Result : Type := Run * list Effect.

Definition set_service (s : t) (r : Run) : Run :=
  mkRun s (resolved r) (stopHandlers r).

(** The arguments [start()] hands to [spawn]. *)
Definition args (config : NgrokConfig) : list string :=
  ["http"; port config; "--log=stdout"; "--log-format=json"]
  ++ (if JS.truthy_opt (domain config)
      then ["--domain"; match domain config with Some d => d | None => "" end]
      else [])
  ++ (if JS.truthy_opt (region config)
      then ["--region"; match region config with Some g => g | None => "" end]
      else []).

(** The first lines of [start()]: [Some tunnel] when the call returns the
    current tunnel at once, [None] when it goes on to look for the binary
    and to spawn. *)
Definition startReturnsEarly (s : t) : option NgrokTunnel :=
  if isRunning s then currentTunnel s else None.

(** One line in [handleOutput]. *)
Definition handleLine (config : NgrokConfig) (r : Run) (line : Line)
    : Result :=
  match line with
  | NotJson => (r, [LogDebug])
  | Json msg url lvl err =>
      let started :=
        match msg with
        | Some m => m =? "started tunnel"
        | None => false
        end in
      let (r1, t1) :=
        if started && JS.truthy_opt url && negb (resolved r) then
          let tunnel :=
            mkTunnel (match url with Some u => u | None => "" end)
                     "http" "command_line"
                     ("http://localhost:" ++ port config) in
          (mkRun (mk (ngrokProcess (service r)) (Some tunnel) true)
                 true (stopHandlers r),
           [ClearStartupTimeout; Resolve tunnel])
        else (r, []) in
      let t2 :=
        if match lvl with Some l => l =? "error" | None => false end
           || JS.truthy_opt err
        then [LogError] else [] in
      (r1, t1 ++ t2)
  end.

Fixpoint handleOutput (config : NgrokConfig) (r : Run) (lines : list Line)
    : Result :=
  match lines with
  | [] => (r, [])
  | line :: rest =>
      let (r1, t1) := handleLine config r line in
      let (r2, t2) := handleOutput config r1 rest in
      (r2, t1 ++ t2)
  end.

(** The process's 'error' event. *)
Definition onError (r : Run) (message : string) : Result :=
  if negb (resolved r) then
    (mkRun (mk (ngrokProcess (service r)) (currentTunnel (service r)) false)
           true (stopHandlers r),
     [ClearStartupTimeout; Reject ("Failed to start ngrok: " ++ message)])
  else (r, []).

(** The process's 'close' event: the handler of [start()], then the
    handlers of the calls of [stop()], in the order they were added. *)
Definition onClose (r : Run) (code : option Z) : Result :=
  let s := mk (ngrokProcess (service r)) None false in
  let t1 :=
    match code with
    | Some c => if negb (c =? 0)%Z then [LogError] else []
    | None => []
    end in
  match stopHandlers r with
  | O => (mkRun s (resolved r) 0, t1)
  | S _ =>
      (mkRun (mk false None false) (resolved r) (stopHandlers r),
       t1 ++ repeat StopSettled (stopHandlers r))
  end.

(** [stop()]. *)
Definition stop (r : Run) : Result :=
  if negb (ngrokProcess (service r)) then (r, [])
  else (mkRun (service r) (resolved r) (S (stopHandlers r)),
        [SetKillTimeout; Kill SIGTERM]).

(** The 30 s start-up timeout fires. *)
Definition onStartupTimeout (r : Run) : Result :=
  if negb (resolved r) then
    let (r1, t1) := stop (mkRun (service r) true (stopHandlers r)) in
    (r1, t1 ++ [Reject "Ngrok startup timeout - tunnel failed to start"])
  else (r, []).

(** The 5 s kill timeout of a [stop()] fires. *)
Definition onKillTimeout (r : Run) : Result :=
  if ngrokProcess (service r)
  then (r, [LogWarn; Kill SIGKILL; StopSettled])
  else (r, [StopSettled]).

Inductive Event :=
| Stdout (lines : list Line)
| Stderr
| ProcessError (message : string)
| Close (code : option Z)
| StartupTimeout
| Stop
| KillTimeout.

Definition step (config : NgrokConfig) (r : Run) (ev : Event) : Result :=
  match ev with
  | Stdout lines => handleOutput config r lines
  | Stderr => (r, [LogError])
  | ProcessError message => onError r message
  | Close code => onClose r code
  | StartupTimeout => onStartupTimeout r
  | Stop => stop r
  | KillTimeout => onKillTimeout r
  end.

Fixpoint run (config : NgrokConfig) (r : Run) (evs : list Event) : Result :=
  match evs with
  | [] => (r, [])
  | ev :: rest =>
      let (r1, t1) := step config r ev in
      let (r2, t2) := run config r1 rest in
      (r2, t1 ++ t2)
  end.

(** The run [start()] begins when it spawns the process. *)
Definition spawned (s : t) : Run :=
  mkRun (mk true (currentTunnel s) (isRunning s)) false 0.

Definition getTunnel (s : t) : option NgrokTunnel := currentTunnel s.
Definition isActive (s : t) : bool := isRunning s.
Definition getPublicUrl (s : t) : option string :=
  match currentTunnel s with
  | Some tunnel => if JS.truthy (publicUrl tunnel)
                   then Some (publicUrl tunnel) else None
  | None => None
  end.

(** How often the promise of [start()] is settled in a trace. *)
Fixpoint settled (tr : list Effect) : nat :=
  match tr with
  | [] => 0
  | Resolve _ :: r => S (settled r)
  | Reject _ :: r => S (settled r)
  | _ :: r => settled r
  end.

(** The service as its field initialisers leave it. *)
Definition initial : t := mk false None false.

(** Calls of [start()] one after the other, each with the events of the
    process it spawns; a call that returns early spawns nothing and sees no
    events. *)
Fixpoint calls (config : NgrokConfig) (s : t) (runs : list (list Event))
    : t :=
  match runs with
  | [] => s
  | evs :: rest =>
      match startReturnsEarly s with
      | Some _ => calls config s rest
      | None => calls config (service (fst (run config (spawned s) evs))) rest
      end
  end.

End Ngrok.

(** ** Traces up to the wording of errors *)

Module Traces.

(** A call of the manager with the text of a logged error left out; every
    other call, the warnings included, is kept as it is. *)
Definition withoutErrorText (x : InputManager.Effect) : InputManager.Effect :=
  match x with
  | InputManager.LogError _ => InputManager.LogError ""
  | _ => x
  end.

End Traces.

(** * Properties *)

(** ** Strings *)

Lemma truthy_false_iff (s : string) : JS.truthy s = false <-> s = "".
Proof.
  unfold JS.truthy. destruct s; simpl; split; intro H;
    reflexivity || discriminate.
Qed.

Lemma truthy_true_iff (s : string) : JS.truthy s = true <-> s <> "".
Proof.
  unfold JS.truthy. destruct s; simpl; split; intro H;
    reflexivity || discriminate || congruence.
Qed.

(** A key name of one code unit differs from every longer name. *)
Lemma eqb_length_neq (a b : string) :
  String.length a <> String.length b -> (a =? b) = false.
Proof.
  intro H. apply String.eqb_neq. intro E. apply H. now rewrite E.
Qed.

(** A lower-case letter is its own lower case. *)
Lemma lower_unit_lowercase (c : ascii) :
  (97 <= JS.unit_code c <= 122)%Z -> JS.lower_unit c = c.
Proof.
  intro H. unfold JS.lower_unit.
  assert ((JS.unit_code c <=? 90)%Z = false) as -> by (apply Z.leb_gt; lia).
  assert ((192 <=? JS.unit_code c)%Z = false) as -> by (apply Z.leb_gt; lia).
  assert ((216 <=? JS.unit_code c)%Z = false) as -> by (apply Z.leb_gt; lia).
  now rewrite !andb_false_r.
Qed.

(** No special-key token has a single code unit. *)
Lemma single_unit_not_special (c : ascii) :
  JS.includes InputManager.specialKeys (String c "") = false.
Proof.
  unfold JS.includes, InputManager.specialKeys. cbn [existsb].
  rewrite !(eqb_length_neq (String c "")) by (simpl; discriminate).
  reflexivity.
Qed.

(** ** The composition proxy *)

Section Proxy.

Variable s : IME.t.

Lemma handlePaste_spec (clip : option string) :
  IME.handlePaste s clip =
  if JS.truthy_opt clip
  then (IME.set_value "" s,
        match clip with
        | Some x => [IME.OnTextInput x; IME.PreventDefault]
        | None => []
        end)
  else (s, []).
Proof.
  destruct clip as [x|]; simpl; [destruct (JS.truthy x)|]; reflexivity.
Qed.

Lemma globalPasteHandler_proxy (target : PasteTarget) (clip : option string) :
  isProxy target = true -> IME.globalPasteHandler s target clip = (s, []).
Proof. intro H. unfold IME.globalPasteHandler. now rewrite H. Qed.

Lemma keydown_while_composing (e : KeyboardEvent) :
  IME.isComposing s = true -> IME.handleKeydown s e = (s, []).
Proof.
  intro H. unfold IME.handleKeydown. rewrite H.
  now destruct ((metaKey e || ctrlKey e) && (key e =? "v")).
Qed.

End Proxy.

(** C4.  A composition end clears the composing flag and the proxy buffer in
    every case; it hands the finalized text to [onTextInput] exactly once
    when that text is not empty, and hands over nothing (it only logs a
    warning) when it is empty.  The same holds for a whole composition
    [compositionstart], [compositionupdate x], [compositionend y], from any
    state of the proxy. *)
Theorem composition_end_emits_once (s : IME.t) (x y : string) :
  (let (s', calls) := IME.handleCompositionEnd s y in
   IME.isComposing s' = false
   /\ IME.composingAttr s' = false
   /\ IME.value s' = ""
   /\ IME.texts calls = (if JS.truthy y then [y] else [])
   /\ IME.specials calls = []
   /\ calls = (if JS.truthy y
               then [IME.OnTextInput y]
               else [IME.Warn "IME composition ended with no text"])
              ++ [IME.SetTimeout IME.HideAndReposition 100])
  /\
  (let (s1, c1) := IME.handleCompositionStart s in
   let (s2, c2) := IME.handleCompositionUpdate s1 x in
   let (s3, c3) := IME.handleCompositionEnd s2 y in
   IME.isComposing s1 = true
   /\ IME.isComposing s3 = false
   /\ IME.value s3 = ""
   /\ IME.texts (c1 ++ c2 ++ c3) = (if JS.truthy y then [y] else [])).
Proof.
  split; simpl; destruct (JS.truthy y); simpl; repeat split; reflexivity.
Qed.

(** C8, as the code has it.  A paste event whose target is the proxy, or an
    element of the session area that is not editable, and whose clipboard
    text is not empty hands that text to [onTextInput] exactly once and
    suppresses the default handling exactly once, whatever the composing
    flag, which it leaves as it was.  With empty or missing clipboard text,
    or with another editable element as target, the event makes no call at
    all and leaves the proxy unchanged. *)
Theorem paste_emits_once_when_nonempty
    (s : IME.t) (target : PasteTarget) (clip : option string) :
  let (s', calls) := IME.dispatchPaste s target clip in
  if (isProxy target || negb (isEditable target)) && JS.truthy_opt clip
  then IME.texts calls = match clip with Some x => [x] | None => [] end
       /\ IME.prevented calls = 1
       /\ IME.specials calls = []
       /\ IME.isComposing s' = IME.isComposing s
  else calls = [] /\ s' = s.
Proof.
  unfold IME.dispatchPaste.
  destruct (isProxy target) eqn:P.
  - rewrite handlePaste_spec.
    destruct clip as [x|]; simpl; [destruct (JS.truthy x) eqn:T|];
      rewrite globalPasteHandler_proxy by assumption; simpl; auto.
  - unfold IME.globalPasteHandler. rewrite P.
    destruct (isEditable target); simpl; auto.
    destruct clip as [x|]; simpl; [destruct (JS.truthy x)|]; simpl; auto.
Qed.

(** C8, as stated, fails: pasting an empty clipboard into the proxy makes no
    delivery and does not suppress the default handling. *)
Lemma paste_empty_clipboard_emits_nothing :
  let s := IME.mk false "" IME.Shown true false true true in
  let calls := snd (IME.dispatchPaste s (mkTarget true true) (Some "")) in
  ~ (IME.texts calls = [""] /\ IME.prevented calls = 1).
Proof. simpl. intros [H _]. discriminate H. Qed.

(** ** Dual-transport delivery *)

Section Delivery.

Import InputManager.

Variables (m : InputManager.t) (w : World).

(** Every payload a call offers to a transport is the one it was given. *)
Lemma sendInputInternal_offered (p : Input.t) (ctx : string) :
  Forall (eq p) (offered (snd (sendInputInternal m w p ctx))).
Proof.
  unfold sendInputInternal.
  destruct (session m) as [s|]; simpl; [|constructor].
  destruct (useWebSocketInput m), (wsAccepts w); simpl;
    repeat (constructor; try reflexivity);
    destruct (fetched w) as [code|]; simpl;
    repeat (constructor; try reflexivity);
    destruct (ok code), (code =? 400)%Z, (callbacks m); simpl;
    repeat (constructor; try reflexivity).
Qed.

Lemma sendInputInternal_sent (p : Input.t) (ctx : string) (s : Session) :
  session m = Some s -> sent (snd (sendInputInternal m w p ctx)) = [p].
Proof.
  intro Hs. unfold sendInputInternal. rewrite Hs.
  destruct (useWebSocketInput m), (wsAccepts w); simpl; auto;
    destruct (fetched w) as [code|]; simpl; auto;
    destruct (ok code), (code =? 400)%Z, (callbacks m); simpl; auto.
Qed.

Lemma sendInputInternal_no_session (p : Input.t) (ctx : string) :
  session m = None ->
  sendInputInternal m w p ctx =
  (m, [LogWarn "No session available, cannot send input"]).
Proof. intro Hs. unfold sendInputInternal. now rewrite Hs. Qed.

(** Short of a definitive rejection a call leaves the manager as it was. *)
Lemma sendInputInternal_unchanged (p : Input.t) (ctx : string) :
  definitivelyRejected m w = false ->
  fst (sendInputInternal m w p ctx) = m.
Proof.
  unfold definitivelyRejected, sendInputInternal.
  destruct (session m) as [s|]; [|reflexivity].
  destruct (useWebSocketInput m && wsAccepts w); simpl; [reflexivity|].
  destruct (fetched w) as [code|]; [|reflexivity].
  destruct (ok code); simpl; [reflexivity|].
  destruct (code =? 400)%Z; [discriminate|reflexivity].
Qed.

(** A call changes nothing of the manager but, possibly, the session. *)
Lemma sendInputInternal_frame (p : Input.t) (ctx : string) :
  let m' := fst (sendInputInternal m w p ctx) in
  callbacks m' = callbacks m
  /\ useWebSocketInput m' = useWebSocketInput m
  /\ lastEscapeTime m' = lastEscapeTime m
  /\ imeInput m' = imeInput m
  /\ timers m' = timers m.
Proof.
  unfold sendInputInternal.
  destruct (session m) as [s|]; simpl; auto.
  destruct (useWebSocketInput m && wsAccepts w); simpl; auto.
  destruct (fetched w) as [code|]; simpl; auto.
  destruct (ok code), (code =? 400)%Z; simpl; auto.
Qed.

(** The position refresh touches neither the session nor the transports. *)
Lemma refreshIMEPosition_quiet :
  offered (snd (refreshIMEPosition m w)) = []
  /\ sent (snd (refreshIMEPosition m w)) = []
  /\ toggles (snd (refreshIMEPosition m w)) = []
  /\ session (fst (refreshIMEPosition m w)) = session m
  /\ lastEscapeTime (fst (refreshIMEPosition m w)) = lastEscapeTime m.
Proof.
  unfold refreshIMEPosition. destruct (imeFocused m); simpl; auto.
Qed.

End Delivery.

Section Readers.

Import InputManager.

Lemma offered_app (a b : list Effect) :
  offered (a ++ b) = offered a ++ offered b.
Proof.
  induction a as [|x a IH]; simpl; [reflexivity|].
  destruct x; simpl; rewrite IH; reflexivity.
Qed.

Lemma sent_app (a b : list Effect) : sent (a ++ b) = sent a ++ sent b.
Proof.
  induction a as [|x a IH]; simpl; [reflexivity|].
  destruct x as [p [|]| | | | | | |]; simpl; rewrite IH; reflexivity.
Qed.

Lemma toggles_app (a b : list Effect) :
  toggles (a ++ b) = toggles a ++ toggles b.
Proof.
  induction a as [|x a IH]; simpl; [reflexivity|].
  destruct x; simpl; rewrite IH; reflexivity.
Qed.

Lemma andThen_fst_snd (r : Result) (k : t -> Result) :
  andThen r k = (fst (k (fst r)), snd r ++ snd (k (fst r))).
Proof. destruct r as [m1 t1]. simpl. now destruct (k m1). Qed.

End Readers.

(** C2.  With a session attached, one call of [sendInputInternal] uses
    exactly one transport: when the persistent channel accepts the payload,
    it goes out there and no fallback request is issued; otherwise exactly
    one fallback request is issued, with the very payload the channel was
    offered.  In both cases the payload goes out once, and nothing but this
    payload is ever offered to a transport. *)
Theorem exactly_one_transport
    (m : InputManager.t) (w : World) (p : Input.t) (ctx : string)
    (s : Session) :
  InputManager.session m = Some s ->
  let tr := snd (InputManager.sendInputInternal m w p ctx) in
  (if InputManager.useWebSocketInput m && wsAccepts w
   then InputManager.viaWebSocket tr = [p] /\ InputManager.viaHttp tr = []
   else InputManager.viaWebSocket tr = [] /\ InputManager.viaHttp tr = [p])
  /\ InputManager.sent tr = [p]
  /\ Forall (eq p) (InputManager.offered tr).
Proof.
  intros Hs tr. split; [|split].
  - subst tr. unfold InputManager.sendInputInternal. rewrite Hs.
    destruct (InputManager.useWebSocketInput m), (wsAccepts w); simpl; auto;
      destruct (fetched w) as [code|]; simpl; auto;
      destruct (InputManager.ok code), (code =? 400)%Z,
               (InputManager.callbacks m); simpl; auto.
  - exact (sendInputInternal_sent m w p ctx s Hs).
  - apply sendInputInternal_offered.
Qed.

(** The persistent channel declines "ls": one fallback request carries it. *)
Lemma exactly_one_transport_witness :
  let tr := snd (InputManager.sendInputInternal Sample.manager
                   (Sample.offline Sample.t0 200) (Input.ofText "ls")
                   "send input to session") in
  (InputManager.viaWebSocket tr = []
   /\ InputManager.viaHttp tr = [Input.ofText "ls"])
  /\ InputManager.sent tr = [Input.ofText "ls"]
  /\ Forall (eq (Input.ofText "ls")) (InputManager.offered tr).
Proof.
  exact (exactly_one_transport Sample.manager (Sample.offline Sample.t0 200)
           (Input.ofText "ls") "send input to session" Sample.running
           eq_refl).
Defined.

(** C3, as the code has it.  For a manager with a session attached and
    callbacks registered, when the payload goes to the fallback transport:
    exactly one request is issued, whatever the result (no retry); a 2xx
    response changes nothing; a response with status exactly 400 marks the
    session as exited and requests exactly one UI refresh; every other
    result, the other 4xx codes among them, and a thrown error, is logged as
    an error once and changes nothing. *)
Theorem fallback_result_interpretation
    (m : InputManager.t) (w : World) (p : Input.t) (ctx : string)
    (s : Session) (c : InputManagerCallbacks) :
  InputManager.session m = Some s ->
  InputManager.callbacks m = Some c ->
  InputManager.useWebSocketInput m && wsAccepts w = false ->
  let r := InputManager.sendInputInternal m w p ctx in
  InputManager.viaHttp (snd r) = [p]
  /\ match fetched w with
     | Response code =>
         if ((200 <=? code) && (code <=? 299))%Z then
           fst r = m
           /\ InputManager.refreshes (snd r) = 0
           /\ InputManager.errorsLogged (snd r) = 0
         else if (code =? 400)%Z then
           fst r = InputManager.set_session
                     (Some (mkSession (id s) "exited")) m
           /\ InputManager.refreshes (snd r) = 1
           /\ InputManager.errorsLogged (snd r) = 0
         else
           fst r = m
           /\ InputManager.refreshes (snd r) = 0
           /\ InputManager.errorsLogged (snd r) = 1
     | Threw =>
         fst r = m
         /\ InputManager.refreshes (snd r) = 0
         /\ InputManager.errorsLogged (snd r) = 1
     end.
Proof.
  intros Hs Hc Hws r. subst r.
  unfold InputManager.sendInputInternal. rewrite Hs, Hc, Hws.
  destruct (InputManager.useWebSocketInput m); simpl;
    destruct (fetched w) as [code|]; simpl; auto;
    change ((200 <=? code)%Z && (code <=? 299)%Z) with (InputManager.ok code);
    destruct (InputManager.ok code), (code =? 400)%Z; simpl; auto.
Qed.

(** Status 400 on the fallback: the session is marked exited, one refresh. *)
Lemma fallback_result_interpretation_witness :
  let r := InputManager.sendInputInternal Sample.manager
             (Sample.offline Sample.t0 400) (Input.ofText "ls")
             "send input to session" in
  InputManager.viaHttp (snd r) = [Input.ofText "ls"]
  /\ fst r = InputManager.set_session (Some (mkSession "s1" "exited"))
               Sample.manager
  /\ InputManager.refreshes (snd r) = 1
  /\ InputManager.errorsLogged (snd r) = 0.
Proof.
  exact (fallback_result_interpretation Sample.manager
           (Sample.offline Sample.t0 400) (Input.ofText "ls")
           "send input to session" Sample.running Sample.hooks
           eq_refl eq_refl eq_refl).
Defined.

(** C3, as stated, fails on a 4xx code other than 400: after a 404 the
    session is not marked exited and no refresh is requested. *)
Lemma fallback_404_is_not_an_exit :
  let r := InputManager.sendInputInternal Sample.manager
             (Sample.offline Sample.t0 404) (Input.ofText "ls")
             "send input to session" in
  ~ (InputManager.session (fst r) = Some (mkSession "s1" "exited")
     /\ InputManager.refreshes (snd r) = 1).
Proof. simpl. intros [H _]. discriminate H. Qed.

(** ** Sessions that have exited *)

Section Exited.

Variables isCopyPasteShortcut isIMEAllowedKey : KeyboardEvent -> bool.

(** The keyboard path does guard: for an exited session the handler
    returns at lines 217-226, before any mapping or send. *)
Lemma keyboard_ignores_exited_session
    (m : InputManager.t) (w : World) (e : KeyboardEvent) (s : Session) :
  InputManager.session m = Some s ->
  status s = "exited" ->
  InputManager.handleKeyboardInput isCopyPasteShortcut isIMEAllowedKey
    m w e = (m, []).
Proof.
  intros Hs He. unfold InputManager.handleKeyboardInput.
  rewrite Hs, He. simpl.
  destruct (InputManager.imeFocused m && negb (isIMEAllowedKey e));
    [reflexivity|].
  destruct (InputManager.imeComposing m); [reflexivity|].
  destruct (key e =? "Escape"); reflexivity.
Qed.

End Exited.

(** C1, on the code.  For a session whose status is 'exited' the keyboard
    handler sends nothing, but the text path has no such guard:
    [sendInputText], a paste into the proxy and a composition end each still
    put the text on a transport, on the persistent channel when it accepts
    and on the fallback otherwise. *)
Theorem exited_session_text_path_still_sends :
  let m := Sample.exitedManager in
  InputManager.session m = Some (mkSession "s1" "exited")
  /\ InputManager.handleKeyboardInput Sample.isCopyPasteShortcut
       Sample.isIMEAllowedKey m (Sample.online Sample.t0) (Sample.press "l")
     = (m, [])
  /\ InputManager.sent
       (snd (InputManager.sendInputText m (Sample.online Sample.t0) "ls"))
     = [Input.ofText "ls"]
  /\ InputManager.viaHttp
       (snd (InputManager.sendInputText m (Sample.offline Sample.t0 400) "ls"))
     = [Input.ofText "ls"]
  /\ InputManager.sent
       (snd (InputManager.proxyEvent
               (fun i => IME.handlePaste i (Some "ls"))
               m (Sample.online Sample.t0)))
     = [Input.ofText "ls"]
  /\ InputManager.sent
       (snd (InputManager.proxyEvent
               (fun i => IME.handleCompositionEnd i "ls")
               m (Sample.online Sample.t0)))
     = [Input.ofText "ls"].
Proof. repeat split. Qed.

(** ** Composition in progress *)

(** C5.  While the proxy's composing flag is set, a keydown reaches neither
    key mapping: the proxy's own handler returns without calling back and
    without touching the event, so nothing reaches the manager through it,
    and the session view's handler returns without a send, a notification
    or a state change.  This holds for every key, the copy/paste
    combinations included, which are left to the browser as well. *)
Theorem composing_blocks_keydown
    (isCopyPasteShortcut isIMEAllowedKey : KeyboardEvent -> bool)
    (m : InputManager.t) (w : World) (e : KeyboardEvent) (i : IME.t) :
  InputManager.imeInput m = Some i ->
  IME.isComposing i = true ->
  IME.handleKeydown i e = (i, [])
  /\ snd (InputManager.proxyEvent (fun i => IME.handleKeydown i e) m w) = []
  /\ InputManager.handleKeyboardInput isCopyPasteShortcut isIMEAllowedKey
       m w e = (m, []).
Proof.
  intros Hi Hc. split; [|split].
  - now apply keydown_while_composing.
  - unfold InputManager.proxyEvent. rewrite Hi.
    now rewrite keydown_while_composing.
  - unfold InputManager.handleKeyboardInput.
    destruct (InputManager.session m) as [s|]; [|reflexivity].
    assert (InputManager.imeComposing m = true) as ->
      by (unfold InputManager.imeComposing; now rewrite Hi).
    now destruct (InputManager.imeFocused m && negb (isIMEAllowedKey e)).
Qed.

(** Enter pressed in the middle of a composition. *)
Lemma composing_blocks_keydown_witness :
  IME.handleKeydown Sample.composingProxy (Sample.press "Enter")
  = (Sample.composingProxy, [])
  /\ snd (InputManager.proxyEvent
            (fun i => IME.handleKeydown i (Sample.press "Enter"))
            Sample.composingManager (Sample.online Sample.t0)) = []
  /\ InputManager.handleKeyboardInput Sample.isCopyPasteShortcut
       Sample.isIMEAllowedKey Sample.composingManager
       (Sample.online Sample.t0) (Sample.press "Enter")
     = (Sample.composingManager, []).
Proof.
  exact (composing_blocks_keydown Sample.isCopyPasteShortcut
           Sample.isIMEAllowedKey Sample.composingManager
           (Sample.online Sample.t0) (Sample.press "Enter")
           Sample.composingProxy eq_refl eq_refl).
Defined.

(** ** Payload shape *)

Section Shape.

Import InputManager.

Variables (m : InputManager.t) (w : World).

Lemma send_then_refresh_offered (p : Input.t) (ctx : string) :
  Forall (eq p)
    (offered (snd (andThen (sendInputInternal m w p ctx)
                     (fun m => refreshIMEPosition m w)))).
Proof.
  rewrite andThen_fst_snd. simpl. rewrite offered_app.
  destruct (refreshIMEPosition_quiet
              (fst (sendInputInternal m w p ctx)) w) as [-> _].
  rewrite app_nil_r. apply sendInputInternal_offered.
Qed.

Lemma send_then_refresh_sent (p : Input.t) (ctx : string) :
  sent (snd (andThen (sendInputInternal m w p ctx)
               (fun m => refreshIMEPosition m w)))
  = match session m with
    | Some _ => [p]
    | None => []
    end.
Proof.
  rewrite andThen_fst_snd. simpl. rewrite sent_app.
  destruct (refreshIMEPosition_quiet
              (fst (sendInputInternal m w p ctx)) w) as (_ & -> & _).
  rewrite app_nil_r.
  destruct (session m) as [s|] eqn:Hs.
  - now apply sendInputInternal_sent with s.
  - now rewrite sendInputInternal_no_session.
Qed.

Lemma send_then_refresh_toggles (p : Input.t) (ctx : string) :
  toggles (snd (andThen (sendInputInternal m w p ctx)
                  (fun m => refreshIMEPosition m w))) = [].
Proof.
  rewrite andThen_fst_snd. simpl. rewrite toggles_app.
  destruct (refreshIMEPosition_quiet
              (fst (sendInputInternal m w p ctx)) w) as (_ & _ & -> & _).
  rewrite app_nil_r. unfold sendInputInternal.
  destruct (session m) as [s|]; simpl; auto.
  destruct (useWebSocketInput m), (wsAccepts w); simpl; auto;
    destruct (fetched w) as [code|]; simpl; auto;
    destruct (ok code), (code =? 400)%Z, (callbacks m); simpl; auto.
Qed.

End Shape.

(** The text path never reads the session's status: with a session
    attached, exited or not, the text goes out. *)
Lemma text_path_ignores_status
    (m : InputManager.t) (w : World) (s : Session) (x : string) :
  InputManager.session m = Some s ->
  InputManager.sent (snd (InputManager.sendInputText m w x))
  = [Input.ofText x].
Proof.
  intro Hs. unfold InputManager.sendInputText.
  now rewrite send_then_refresh_sent, Hs.
Qed.

(** C10.  Whatever string [s] is, [sendInputText] offers the transports only
    the payload [{text: s}], the token names such as "enter" included;
    [sendInput] offers only [{key: s}] when [s] is in the fixed list of
    special keys and only [{text: s}] otherwise.  With a session attached
    that payload goes out once.  Every payload offered on either path has
    exactly one field. *)
Theorem text_path_never_classified
    (m : InputManager.t) (w : World) (s : string) :
  let viaText := snd (InputManager.sendInputText m w s) in
  let viaInput := snd (InputManager.sendInput m w s) in
  let classified :=
    if JS.includes InputManager.specialKeys s
    then Input.mk None (Some s)
    else Input.mk (Some s) None in
  Forall (eq (Input.mk (Some s) None)) (InputManager.offered viaText)
  /\ InputManager.sent viaText
     = match InputManager.session m with
       | Some _ => [Input.mk (Some s) None]
       | None => []
       end
  /\ Forall (eq classified) (InputManager.offered viaInput)
  /\ InputManager.sent viaInput
     = match InputManager.session m with
       | Some _ => [classified]
       | None => []
       end
  /\ Forall (fun p => Input.fields p = 1)
       (InputManager.offered viaText ++ InputManager.offered viaInput).
Proof.
  intros viaText viaInput classified.
  assert (HT : Forall (eq (Input.mk (Some s) None))
                 (InputManager.offered viaText))
    by apply send_then_refresh_offered.
  assert (HK : Forall (eq classified) (InputManager.offered viaInput))
    by apply send_then_refresh_offered.
  repeat split; try assumption.
  - apply send_then_refresh_sent.
  - apply send_then_refresh_sent.
  - apply Forall_app. split.
    + eapply Forall_impl; [|exact HT]. intros p <-. reflexivity.
    + eapply Forall_impl; [|exact HK]. intros p <-.
      subst classified.
      now destruct (JS.includes InputManager.specialKeys s).
Qed.

(** The word "enter" as text and as a key. *)
Example enter_as_text_and_as_key :
  InputManager.sent
    (snd (InputManager.sendInputText Sample.manager
            (Sample.online Sample.t0) "enter"))
  = [Input.mk (Some "enter") None]
  /\ InputManager.sent
       (snd (InputManager.sendInput Sample.manager
               (Sample.online Sample.t0) "enter"))
     = [Input.mk None (Some "enter")].
Proof. split; reflexivity. Qed.

(** ** The key mapping *)

Section Mapping.

Import InputManager.

Variables isCopyPasteShortcut isIMEAllowedKey : KeyboardEvent -> bool.

Let handle := handleKeyboardInput isCopyPasteShortcut isIMEAllowedKey.
Let reaches := reachesMapping isCopyPasteShortcut isIMEAllowedKey.

Lemma listening_inv (m : t) (e : KeyboardEvent) :
  listening isIMEAllowedKey m e = true ->
  exists s, session m = Some s
    /\ imeFocused m && negb (isIMEAllowedKey e) = false
    /\ imeComposing m = false
    /\ (status s =? "exited") = false.
Proof.
  unfold listening. destruct (session m) as [s|]; [|discriminate].
  intro H. exists s.
  apply andb_prop in H. destruct H as [H H3].
  apply andb_prop in H. destruct H as [H1 H2].
  repeat split;
    [ now apply negb_true_iff in H1
    | now apply negb_true_iff in H2
    | now apply negb_true_iff in H3 ].
Qed.

(** The guards read the session and the proxy only. *)
Lemma listening_ext (m m' : t) (e : KeyboardEvent) :
  session m' = session m -> imeInput m' = imeInput m ->
  listening isIMEAllowedKey m' e = listening isIMEAllowedKey m e.
Proof.
  intros Hs Hi. unfold listening, imeFocused, imeComposing.
  now rewrite Hs, Hi.
Qed.

(** A copy/paste shortcut is left to the browser in every state. *)
Lemma copy_paste_passes_through (m : t) (w : World) (e : KeyboardEvent) :
  isCopyPasteShortcut e = true -> handle m w e = (m, []).
Proof.
  intro H. subst handle. unfold handleKeyboardInput.
  destruct (session m) as [s|]; [|reflexivity].
  destruct (imeFocused m && negb (isIMEAllowedKey e)); [reflexivity|].
  destruct (imeComposing m); [reflexivity|].
  cbv zeta.
  destruct ((key e =? "Escape") && (status s =? "exited")); [reflexivity|].
  destruct (status s =? "exited"); [reflexivity|].
  now rewrite H.
Qed.

(** Escape, once the guards are passed (lines 271-304). *)
Lemma escape_step (m : t) (w : World) (e : KeyboardEvent) :
  reaches m e = true ->
  key e = "Escape" ->
  handle m w e =
  if (now w - lastEscapeTime m <? DOUBLE_ESCAPE_THRESHOLD)%Z
  then (set_lastEscapeTime 0 m,
        match callbacks m with
        | Some c =>
            [CaptureToggled
               (negb match getKeyboardCaptureActive c with
                     | Some b => b
                     | None => true
                     end)]
        | None => []
        end)
  else sendInput (set_lastEscapeTime (now w) m) w "escape".
Proof.
  intros Hr Hk. subst handle reaches. unfold reachesMapping in Hr.
  apply andb_prop in Hr. destruct Hr as [Hl Hcp].
  apply negb_true_iff in Hcp.
  destruct (listening_inv m e Hl) as (s & Hs & Hf & Hc & Hx).
  unfold handleKeyboardInput. rewrite Hs, Hf, Hc. cbv zeta.
  rewrite Hx, Hcp, Hk. simpl.
  rewrite !andb_false_r. simpl.
  destruct (now w - lastEscapeTime m <? DOUBLE_ESCAPE_THRESHOLD)%Z;
    reflexivity.
Qed.

(** What a send leaves alone: everything but the pending timers and, after
    a definitive rejection, the session. *)
Lemma sendInput_frame (m : t) (w : World) (x : string) :
  let m' := fst (sendInput m w x) in
  callbacks m' = callbacks m
  /\ imeInput m' = imeInput m
  /\ lastEscapeTime m' = lastEscapeTime m
  /\ (definitivelyRejected m w = false -> session m' = session m).
Proof.
  unfold sendInput. rewrite andThen_fst_snd. cbv beta zeta.
  cbn [fst].
  set (p := if JS.includes specialKeys x
            then Input.ofKey x else Input.ofText x).
  destruct (sendInputInternal_frame m w p "send input to session")
    as (Hc & _ & Hl & Hi & _).
  set (m1 := fst (sendInputInternal m w p "send input to session")) in *.
  assert (Hr : forall (A : Type) (f : t -> A),
                 (forall a l, f (set_timers l a) = f a) ->
                 f (fst (refreshIMEPosition m1 w)) = f m1).
  { intros A f Hf. unfold refreshIMEPosition.
    destruct (imeFocused m1); simpl; auto. }
  rewrite (Hr _ callbacks), (Hr _ imeInput), (Hr _ lastEscapeTime),
    (Hr _ session) by reflexivity.
  repeat split; try assumption.
  intro Hd. subst m1. now rewrite sendInputInternal_unchanged.
Qed.

(** An Escape outside the double-press window is forwarded as the key
    [escape] and its time is recorded. *)
Lemma escape_forwarded (m : t) (w : World) (e : KeyboardEvent) :
  reaches m e = true ->
  key e = "Escape" ->
  (DOUBLE_ESCAPE_THRESHOLD <= now w - lastEscapeTime m)%Z ->
  let r := handle m w e in
  sent (snd r) = [Input.ofKey "escape"]
  /\ toggles (snd r) = []
  /\ lastEscapeTime (fst r) = now w
  /\ callbacks (fst r) = callbacks m
  /\ (definitivelyRejected m w = false -> reaches (fst r) e = true).
Proof.
  intros Hr Hk Ht r. subst r. rewrite (escape_step m w e Hr Hk).
  apply Z.ltb_ge in Ht. rewrite Ht.
  set (m0 := set_lastEscapeTime (now w) m).
  destruct (sendInput_frame m0 w "escape") as (Hc & Hi & Hl & Hs).
  assert (Hsome : exists s, session m0 = Some s).
  { subst reaches. unfold reachesMapping in Hr.
    apply andb_prop in Hr. destruct Hr as [Hr _].
    destruct (listening_inv m e Hr) as (s & Hs' & _). now exists s. }
  destruct Hsome as [s Hs'].
  repeat split.
  - unfold sendInput. rewrite send_then_refresh_sent, Hs'. reflexivity.
  - unfold sendInput. apply send_then_refresh_toggles.
  - exact Hl.
  - exact Hc.
  - intro Hd. subst reaches. unfold reachesMapping in *.
    rewrite (listening_ext m (fst (sendInput m0 w "escape")) e);
      [exact Hr| |exact Hi].
    now rewrite (Hs Hd).
Qed.

(** Ctrl with one of the letters a..z, once the guards are passed
    (lines 329-350). *)
Lemma ctrl_letter_step (m : t) (w : World) (e : KeyboardEvent) (c : ascii) :
  reaches m e = true ->
  key e = String c "" ->
  (97 <= JS.unit_code c <= 122)%Z ->
  ctrlKey e = true ->
  handle m w e = sendInput m w (JS.fromCharCode (JS.unit_code c - 96)).
Proof.
  intros Hr Hk Hc Hctrl. subst handle reaches.
  unfold reachesMapping in Hr.
  apply andb_prop in Hr. destruct Hr as [Hl Hcp].
  apply negb_true_iff in Hcp.
  destruct (listening_inv m e Hl) as (s & Hs & Hf & Hcomp & Hx).
  unfold handleKeyboardInput. rewrite Hs, Hf, Hcomp. cbv zeta.
  rewrite Hx, Hcp, Hk, Hctrl. cbn [negb]. rewrite !andb_false_r.
  rewrite !(eqb_length_neq (String c "") "Escape"),
          !(eqb_length_neq (String c "") "Enter"),
          !(eqb_length_neq (String c "") "ArrowUp"),
          !(eqb_length_neq (String c "") "ArrowDown"),
          !(eqb_length_neq (String c "") "ArrowLeft"),
          !(eqb_length_neq (String c "") "ArrowRight"),
          !(eqb_length_neq (String c "") "Tab"),
          !(eqb_length_neq (String c "") "Backspace"),
          !(eqb_length_neq (String c "") "Delete")
    by (simpl; discriminate).
  assert ((String c "" =? " ") = false) as ->.
  { apply String.eqb_neq. intro E. injection E as ->.
    vm_compute in Hc. destruct Hc as [Hc _]. now apply Hc. }
  cbn [andb negb String.length Nat.eqb JS.toLowerCase JS.charCodeAt0].
  rewrite (lower_unit_lowercase c Hc).
  assert (((97 <=? JS.unit_code c) && (JS.unit_code c <=? 122))%Z = true)
    as -> by (apply andb_true_intro; split; apply Z.leb_le; lia).
  reflexivity.
Qed.

(** Ctrl+Enter, once the guards are passed (lines 260-264). *)
Lemma ctrl_enter_step (m : t) (w : World) (e : KeyboardEvent) :
  reaches m e = true ->
  key e = "Enter" ->
  ctrlKey e = true ->
  handle m w e = sendInput m w "ctrl_enter".
Proof.
  intros Hr Hk Hctrl. subst handle reaches.
  unfold reachesMapping in Hr.
  apply andb_prop in Hr. destruct Hr as [Hl Hcp].
  apply negb_true_iff in Hcp.
  destruct (listening_inv m e Hl) as (s & Hs & Hf & Hcomp & Hx).
  unfold handleKeyboardInput. rewrite Hs, Hf, Hcomp. cbv zeta.
  rewrite Hx, Hcp, Hk, Hctrl. simpl.
  rewrite !andb_false_r. reflexivity.
Qed.

End Mapping.

(** Three Escape presses that reach the key mapping, on a manager with
    callbacks registered.  The first comes 500 ms or more after the last
    recorded Escape and its send is not definitively rejected; the second
    follows the first by less than 500 ms; the third comes at any later
    clock value (a [Date.now()] of at least 500), however soon after the
    second.
    - The first is forwarded as one [escape] key and its time is recorded.
    - The second raises exactly one capture-toggle notification, which
      negates the current capture state, sends nothing, and resets the
      recorded time to 0.
    - The third raises no notification: it is forwarded as a fresh single
      [escape] and its time is recorded. *)
Lemma escape_presses_past_the_guards
    (isCopyPasteShortcut isIMEAllowedKey : KeyboardEvent -> bool)
    (m : InputManager.t) (e : KeyboardEvent) (c : InputManagerCallbacks)
    (w1 w2 w3 : World) :
  InputManager.reachesMapping isCopyPasteShortcut isIMEAllowedKey m e = true ->
  key e = "Escape" ->
  InputManager.callbacks m = Some c ->
  (500 <= now w1 - InputManager.lastEscapeTime m)%Z ->
  InputManager.definitivelyRejected m w1 = false ->
  (now w2 - now w1 < 500)%Z ->
  (500 <= now w3)%Z ->
  let handle :=
    InputManager.handleKeyboardInput isCopyPasteShortcut isIMEAllowedKey in
  let r1 := handle m w1 e in
  let r2 := handle (fst r1) w2 e in
  let r3 := handle (fst r2) w3 e in
  (InputManager.sent (snd r1) = [Input.mk None (Some "escape")]
   /\ InputManager.toggles (snd r1) = []
   /\ InputManager.lastEscapeTime (fst r1) = now w1)
  /\
  (snd r2 = [InputManager.CaptureToggled
               (negb match getKeyboardCaptureActive c with
                     | Some b => b
                     | None => true
                     end)]
   /\ InputManager.sent (snd r2) = []
   /\ InputManager.lastEscapeTime (fst r2) = 0%Z)
  /\
  (InputManager.sent (snd r3) = [Input.mk None (Some "escape")]
   /\ InputManager.toggles (snd r3) = []
   /\ InputManager.lastEscapeTime (fst r3) = now w3).
Proof.
  intros Hr Hk Hc H1 Hd H2 H3 handle r1 r2 r3.
  destruct (escape_forwarded isCopyPasteShortcut isIMEAllowedKey m w1 e
              Hr Hk H1) as (S1 & T1 & L1 & C1 & R1).
  fold handle in S1, T1, L1, C1, R1. fold r1 in S1, T1, L1, C1, R1.
  specialize (R1 Hd).
  assert (E2 : r2 = (InputManager.set_lastEscapeTime 0 (fst r1),
                     [InputManager.CaptureToggled
                        (negb match getKeyboardCaptureActive c with
                              | Some b => b
                              | None => true
                              end)])).
  { subst r2 handle.
    rewrite (escape_step isCopyPasteShortcut isIMEAllowedKey
               (fst r1) w2 e R1 Hk).
    rewrite L1, C1, Hc.
    assert ((now w2 - now w1 <? InputManager.DOUBLE_ESCAPE_THRESHOLD)%Z
            = true) as -> by (apply Z.ltb_lt; exact H2).
    reflexivity. }
  assert (R2 : InputManager.reachesMapping isCopyPasteShortcut
                 isIMEAllowedKey (fst r2) e = true).
  { rewrite E2. simpl fst. unfold InputManager.reachesMapping in *.
    rewrite (listening_ext isIMEAllowedKey (fst r1)); auto. }
  assert (H3' : (InputManager.DOUBLE_ESCAPE_THRESHOLD
                 <= now w3 - InputManager.lastEscapeTime (fst r2))%Z).
  { rewrite E2. simpl. unfold InputManager.DOUBLE_ESCAPE_THRESHOLD. lia. }
  destruct (escape_forwarded isCopyPasteShortcut isIMEAllowedKey
              (fst r2) w3 e R2 Hk H3') as (S3 & T3 & L3 & _).
  repeat split; try assumption; rewrite E2; reflexivity.
Qed.

(** C6, as the code has it.  Away from the proxy (a session attached and not
    exited, the proxy without the focus, no composition in progress, no
    copy/paste shortcut, callbacks registered), three Escape presses: the
    first 500 ms or more after the last recorded Escape and not definitively
    rejected, the second less than 500 ms after the first, the third at any
    later clock value of at least 500.
    - The first is forwarded as one [escape] key and its time is recorded.
    - The second raises exactly one capture-toggle notification, which
      negates the current capture state, sends nothing, and resets the
      recorded time to 0.
    - The third raises no notification: it is forwarded as a fresh single
      [escape] and its time is recorded.
    On the proxy itself (no composition in progress) the proxy's own keydown
    handler hands every Escape to [onSpecialKey]: each press is sent as the
    key [escape], whatever the time of the last one, and raises no
    notification; and the session view's handler returns without effect
    when the proxy has the focus and does not let the key through. *)
Theorem double_escape_away_from_the_proxy
    (isCopyPasteShortcut isIMEAllowedKey : KeyboardEvent -> bool)
    (m : InputManager.t) (e : KeyboardEvent) (s : Session)
    (c : InputManagerCallbacks) (w1 w2 w3 : World)
    (mf : InputManager.t) (i : IME.t) :
  InputManager.session m = Some s ->
  (status s =? "exited") = false ->
  InputManager.imeFocused m = false ->
  InputManager.imeComposing m = false ->
  isCopyPasteShortcut e = false ->
  key e = "Escape" ->
  InputManager.callbacks m = Some c ->
  (500 <= now w1 - InputManager.lastEscapeTime m)%Z ->
  InputManager.definitivelyRejected m w1 = false ->
  (now w2 - now w1 < 500)%Z ->
  (500 <= now w3)%Z ->
  InputManager.imeInput mf = Some i ->
  IME.isComposing i = false ->
  IME.hasOnSpecialKey i = true ->
  let handle :=
    InputManager.handleKeyboardInput isCopyPasteShortcut isIMEAllowedKey in
  let r1 := handle m w1 e in
  let r2 := handle (fst r1) w2 e in
  let r3 := handle (fst r2) w3 e in
  let onProxy :=
    InputManager.proxyEvent (fun i => IME.handleKeydown i e) mf w2 in
  (InputManager.sent (snd r1) = [Input.mk None (Some "escape")]
   /\ InputManager.toggles (snd r1) = []
   /\ InputManager.lastEscapeTime (fst r1) = now w1)
  /\
  (snd r2 = [InputManager.CaptureToggled
               (negb match getKeyboardCaptureActive c with
                     | Some b => b
                     | None => true
                     end)]
   /\ InputManager.sent (snd r2) = []
   /\ InputManager.lastEscapeTime (fst r2) = 0%Z)
  /\
  (InputManager.sent (snd r3) = [Input.mk None (Some "escape")]
   /\ InputManager.toggles (snd r3) = []
   /\ InputManager.lastEscapeTime (fst r3) = now w3)
  /\
  (IME.handleKeydown i e
   = (i, [IME.PreventDefault; IME.OnSpecialKey "escape"])
   /\ InputManager.toggles (snd onProxy) = []
   /\ InputManager.sent (snd onProxy)
      = match InputManager.session mf with
        | Some _ => [Input.mk None (Some "escape")]
        | None => []
        end
   /\ InputManager.lastEscapeTime (fst onProxy)
      = InputManager.lastEscapeTime mf
   /\ (if IME.focused i && negb (isIMEAllowedKey e)
       then handle mf w2 e = (mf, [])
       else True)).
Proof.
  intros Hs Hx Hf Hcomp Hcp Hk Hc H1 Hd H2 H3 Hi Hic Hio
         handle r1 r2 r3 onProxy.
  assert (Hr : InputManager.reachesMapping isCopyPasteShortcut
                 isIMEAllowedKey m e = true).
  { unfold InputManager.reachesMapping, InputManager.listening.
    now rewrite Hs, Hf, Hcomp, Hx, Hcp. }
  destruct (escape_presses_past_the_guards isCopyPasteShortcut
              isIMEAllowedKey m e c w1 w2 w3 Hr Hk Hc H1 Hd H2 H3)
    as (A & B & C).
  split; [exact A|]. split; [exact B|]. split; [exact C|].
  assert (Ek : IME.handleKeydown i e
               = (i, [IME.PreventDefault; IME.OnSpecialKey "escape"])).
  { unfold IME.handleKeydown. rewrite Hk, Hic, Hio. simpl.
    now rewrite andb_false_r. }
  assert (Ep : onProxy
               = (fst (InputManager.sendInput
                         (InputManager.set_imeInput (Some i) mf) w2 "escape"),
                  snd (InputManager.sendInput
                         (InputManager.set_imeInput (Some i) mf) w2 "escape")
                  ++ [])).
  { subst onProxy. unfold InputManager.proxyEvent. rewrite Hi, Ek.
    cbn [InputManager.onProxyCalls InputManager.onProxyCall].
    rewrite !andThen_fst_snd. reflexivity. }
  split; [exact Ek|].
  rewrite Ep. cbn [fst snd]. rewrite app_nil_r.
  destruct (sendInput_frame
              (InputManager.set_imeInput (Some i) mf) w2 "escape")
    as (_ & _ & Hl & _).
  unfold InputManager.sendInput at 1 2.
  rewrite send_then_refresh_toggles, send_then_refresh_sent.
  repeat split.
  - exact Hl.
  - destruct (IME.focused i && negb (isIMEAllowedKey e)) eqn:G; [|exact I].
    subst handle. unfold InputManager.handleKeyboardInput.
    destruct (InputManager.session mf); [|reflexivity].
    unfold InputManager.imeFocused. rewrite Hi.
    apply andb_prop in G. destruct G as [G1 G2]. now rewrite G1, G2.
Qed.

(** Three presses at t, t + 200 and t + 300 milliseconds with the focus on
    the terminal; and one press on a focused proxy. *)
Lemma double_escape_away_from_the_proxy_witness :
  let handle :=
    InputManager.handleKeyboardInput Sample.isCopyPasteShortcut
      Sample.isIMEAllowedKey in
  let e := Sample.press "Escape" in
  let r1 := handle Sample.terminalManager (Sample.online Sample.t0) e in
  let r2 := handle (fst r1) (Sample.online (Sample.t0 + 200)) e in
  let r3 := handle (fst r2) (Sample.online (Sample.t0 + 300)) e in
  let onProxy :=
    InputManager.proxyEvent (fun i => IME.handleKeydown i e) Sample.manager
      (Sample.online (Sample.t0 + 200)) in
  (InputManager.sent (snd r1) = [Input.mk None (Some "escape")]
   /\ InputManager.toggles (snd r1) = []
   /\ InputManager.lastEscapeTime (fst r1) = Sample.t0)
  /\
  (snd r2 = [InputManager.CaptureToggled false]
   /\ InputManager.sent (snd r2) = []
   /\ InputManager.lastEscapeTime (fst r2) = 0%Z)
  /\
  (InputManager.sent (snd r3) = [Input.mk None (Some "escape")]
   /\ InputManager.toggles (snd r3) = []
   /\ InputManager.lastEscapeTime (fst r3) = (Sample.t0 + 300)%Z)
  /\
  (IME.handleKeydown Sample.proxy e
   = (Sample.proxy, [IME.PreventDefault; IME.OnSpecialKey "escape"])
   /\ InputManager.toggles (snd onProxy) = []
   /\ InputManager.sent (snd onProxy) = [Input.mk None (Some "escape")]
   /\ InputManager.lastEscapeTime (fst onProxy) = 0%Z
   /\ handle Sample.manager (Sample.online (Sample.t0 + 200)) e
      = (Sample.manager, [])).
Proof.
  refine (double_escape_away_from_the_proxy Sample.isCopyPasteShortcut
            Sample.isIMEAllowedKey Sample.terminalManager
            (Sample.press "Escape") Sample.running Sample.hooks
            (Sample.online Sample.t0)
            (Sample.online (Sample.t0 + 200))
            (Sample.online (Sample.t0 + 300))
            Sample.manager Sample.proxy
            eq_refl eq_refl eq_refl eq_refl eq_refl eq_refl eq_refl
            _ eq_refl _ _ eq_refl eq_refl eq_refl);
    vm_compute; congruence.
Defined.

(** C6, as stated, fails on a proxy that has the focus: of two Escape
    presses 200 ms apart, each seen first by the proxy's keydown handler and
    then by the session view's, the second is sent as [escape] like the
    first and raises no capture toggle. *)
Lemma double_escape_on_the_proxy_sends_both :
  let handle :=
    InputManager.handleKeyboardInput Sample.isCopyPasteShortcut
      Sample.isIMEAllowedKey in
  let e := Sample.press "Escape" in
  let onProxy m w :=
    InputManager.proxyEvent (fun i => IME.handleKeydown i e) m w in
  let w1 := Sample.online Sample.t0 in
  let w2 := Sample.online (Sample.t0 + 200) in
  let p1 := onProxy Sample.manager w1 in
  let k1 := handle (fst p1) w1 e in
  let p2 := onProxy (fst k1) w2 in
  let k2 := handle (fst p2) w2 e in
  let second := snd p2 ++ snd k2 in
  ~ (List.length (InputManager.toggles second) = 1
     /\ InputManager.sent second = []).
Proof. vm_compute. intros [H _]. discriminate H. Qed.

(** C7.  A keydown with Ctrl held, on a listening manager (session attached
    and not exited, key not held back by the focused proxy, no composition in
    progress):
    - a recognized copy/paste combination is left untouched: nothing is
      mapped, sent or changed;
    - otherwise one of the letters a..z is sent as text, the single control
      character with code 1..26 (the letter's code less 96), exactly as
      [sendInputText] sends it;
    - otherwise Enter is sent as the key token [ctrl_enter].
    The other modifiers play no part once Ctrl is held. *)
Theorem ctrl_letter_is_control_code
    (isCopyPasteShortcut isIMEAllowedKey : KeyboardEvent -> bool)
    (m : InputManager.t) (w : World) (e : KeyboardEvent) :
  InputManager.listening isIMEAllowedKey m e = true ->
  ctrlKey e = true ->
  let r := InputManager.handleKeyboardInput isCopyPasteShortcut
             isIMEAllowedKey m w e in
  (isCopyPasteShortcut e = true -> r = (m, []))
  /\ (isCopyPasteShortcut e = false ->
      forall c : ascii,
        key e = String c "" ->
        (97 <= JS.unit_code c <= 122)%Z ->
        let chr := JS.fromCharCode (JS.unit_code c - 96) in
        r = InputManager.sendInputText m w chr
        /\ InputManager.sent (snd r) = [Input.mk (Some chr) None])
  /\ (isCopyPasteShortcut e = false ->
      key e = "Enter" ->
      r = InputManager.sendInput m w "ctrl_enter"
      /\ InputManager.sent (snd r) = [Input.mk None (Some "ctrl_enter")]).
Proof.
  intros Hl Hctrl r.
  destruct (listening_inv isIMEAllowedKey m e Hl) as (s & Hs & _).
  split; [|split].
  - intro Hcp. now apply copy_paste_passes_through.
  - intros Hcp c Hk Hc chr.
    assert (Hr : InputManager.reachesMapping isCopyPasteShortcut
                   isIMEAllowedKey m e = true)
      by (unfold InputManager.reachesMapping; now rewrite Hl, Hcp).
    assert (E : r = InputManager.sendInputText m w chr).
    { subst r. rewrite (ctrl_letter_step _ _ m w e c Hr Hk Hc Hctrl).
      unfold InputManager.sendInput, InputManager.sendInputText.
      fold chr. unfold chr at 1, JS.fromCharCode.
      now rewrite single_unit_not_special. }
    split; [exact E|].
    rewrite E. unfold InputManager.sendInputText.
    now rewrite send_then_refresh_sent, Hs.
  - intros Hcp Hk.
    assert (Hr : InputManager.reachesMapping isCopyPasteShortcut
                   isIMEAllowedKey m e = true)
      by (unfold InputManager.reachesMapping; now rewrite Hl, Hcp).
    assert (E : r = InputManager.sendInput m w "ctrl_enter")
      by (subst r; now apply ctrl_enter_step).
    split; [exact E|].
    rewrite E. unfold InputManager.sendInput.
    now rewrite send_then_refresh_sent, Hs.
Qed.

(** Ctrl+A, Ctrl+Enter and the copy/paste combination Ctrl+V. *)
Lemma ctrl_letter_is_control_code_witness :
  let handle :=
    InputManager.handleKeyboardInput Sample.isCopyPasteShortcut
      Sample.isIMEAllowedKey Sample.manager (Sample.online Sample.t0) in
  InputManager.sent (snd (handle (Sample.ctrl "a")))
  = [Input.mk (Some (JS.fromCharCode 1)) None]
  /\ InputManager.sent (snd (handle (Sample.ctrl "Enter")))
     = [Input.mk None (Some "ctrl_enter")]
  /\ handle (Sample.ctrl "v") = (Sample.manager, []).
Proof.
  split; [|split].
  - apply (proj1 (proj2 (ctrl_letter_is_control_code
                           Sample.isCopyPasteShortcut Sample.isIMEAllowedKey
                           Sample.manager (Sample.online Sample.t0)
                           (Sample.ctrl "a") eq_refl eq_refl))
             eq_refl "a"%char eq_refl).
    vm_compute. split; discriminate.
  - apply (proj2 (proj2 (ctrl_letter_is_control_code
                           Sample.isCopyPasteShortcut Sample.isIMEAllowedKey
                           Sample.manager (Sample.online Sample.t0)
                           (Sample.ctrl "Enter") eq_refl eq_refl))
             eq_refl eq_refl).
  - apply (proj1 (ctrl_letter_is_control_code
                    Sample.isCopyPasteShortcut Sample.isIMEAllowedKey
                    Sample.manager (Sample.online Sample.t0)
                    (Sample.ctrl "v") eq_refl eq_refl)
             eq_refl).
Defined.

(** ** Repositioning the proxy after a send *)

(** One send while the proxy has focus: one immediate reposition, and one
    more timeout, due 50 ms later, behind those already pending. *)
Lemma focused_send_adds_a_timeout
    (m : InputManager.t) (w : World) (x : string) :
  InputManager.imeFocused m = true ->
  let r := InputManager.sendInputText m w x in
  InputManager.repositions (snd r) = 1
  /\ InputManager.timers (fst r) = InputManager.timers m ++ [(now w + 50)%Z].
Proof.
  intros Hf r. subst r. unfold InputManager.sendInputText.
  rewrite andThen_fst_snd. cbn [fst snd].
  destruct (sendInputInternal_frame m w (Input.ofText x)
              "send input to session") as (_ & _ & _ & Hi & Ht).
  set (r := InputManager.sendInputInternal m w (Input.ofText x)
              "send input to session") in *.
  assert (Hf' : InputManager.imeFocused (fst r) = true)
    by (unfold InputManager.imeFocused in *; now rewrite Hi).
  unfold InputManager.refreshIMEPosition. rewrite Hf'. cbn [fst snd].
  split; [|cbn; now rewrite Ht].
  assert (Hq : InputManager.repositions (snd r) = 0).
  { subst r. unfold InputManager.sendInputInternal.
    destruct (InputManager.session m) as [s|]; simpl; auto.
    destruct (InputManager.useWebSocketInput m), (wsAccepts w); simpl; auto;
      destruct (fetched w) as [code|]; simpl; auto;
      destruct (InputManager.ok code), (code =? 400)%Z,
               (InputManager.callbacks m); simpl; auto. }
  revert Hq. generalize (snd r) as l.
  induction l as [|a l IH]; simpl; [reflexivity|].
  destruct a; simpl; auto; discriminate.
Qed.

(** C9, on the code.  Two sends 10 ms apart while the proxy has focus: each
    triggers one immediate reposition and sets a timeout of its own; the
    first timeout is not cleared by the second send, so two delayed
    repositions are pending at once, and both run when they are due. *)
Theorem rapid_sends_queue_two_repositions :
  let r1 := InputManager.sendInputText Sample.manager
              (Sample.online Sample.t0) "a" in
  let r2 := InputManager.sendInputText (fst r1)
              (Sample.online (Sample.t0 + 10)) "b" in
  InputManager.imeFocused Sample.manager = true
  /\ InputManager.repositions (snd r1) = 1
  /\ InputManager.timers (fst r1) = [(Sample.t0 + 50)%Z]
  /\ InputManager.repositions (snd r2) = 1
  /\ InputManager.timers (fst r2)
     = [(Sample.t0 + 50)%Z; (Sample.t0 + 60)%Z]
  /\ InputManager.repositions
       (snd (InputManager.runTimers (fst r2) (Sample.t0 + 60))) = 2
  /\ InputManager.timers
       (fst (InputManager.runTimers (fst r2) (Sample.t0 + 60))) = [].
Proof. repeat split. Qed.

(** * Further properties of the code *)

(** ** The proxy over whole event sequences *)

Section ProxyRuns.

Lemma run_app (s : IME.t) (a b : list IMELife.Event) :
  IMELife.run s (a ++ b) =
  (fst (IMELife.run (fst (IMELife.run s a)) b),
   snd (IMELife.run s a) ++ snd (IMELife.run (fst (IMELife.run s a)) b)).
Proof.
  revert s. induction a as [|ev a IH]; intro s; simpl.
  - now destruct (IMELife.run s b).
  - destruct (IMELife.step s ev) as [s1 c1]. rewrite IH.
    destruct (IMELife.run s1 a) as [s2 c2]. simpl.
    destruct (IMELife.run s2 b) as [s3 c3]. simpl.
    now rewrite app_assoc.
Qed.

(** One event keeps the body attribute and the flag in step. *)
Lemma step_keeps_mirror (s : IME.t) (ev : IMELife.Event) :
  IME.composingAttr s = IME.isComposing s ->
  IME.composingAttr (fst (IMELife.step s ev))
  = IME.isComposing (fst (IMELife.step s ev)).
Proof.
  intro H. destruct ev as [|d|d| |e|target clip| | |c| |v|b]; simpl;
    try assumption; try reflexivity.
  - unfold IME.handleInput.
    destruct (IME.isComposing s) eqn:C; simpl; [congruence|].
    destruct (JS.truthy (IME.value s)); simpl; congruence.
  - unfold IME.handleKeydown.
    repeat match goal with
           | |- context [if ?b then _ else _] => destruct b eqn:?; simpl
           end; congruence.
  - unfold IME.dispatchPaste, IME.handlePaste, IME.globalPasteHandler.
    destruct (isProxy target), (isEditable target), clip as [x|]; simpl;
      try assumption; destruct (JS.truthy x); simpl; assumption.
  - destruct c;
      cbv [IMELife.runClosure IMELife.stopFocusRetention IME.hideInput
           IME.updatePosition IMELife.set_focusedAttr IME.set_opacity];
      simpl;
      repeat match goal with
             | |- context [if ?b then _ else _] => destruct b eqn:?; simpl
             end; congruence.
Qed.

Lemma run_keeps_mirror (evs : list IMELife.Event) (s : IME.t) :
  IME.composingAttr s = IME.isComposing s ->
  IME.composingAttr (fst (IMELife.run s evs))
  = IME.isComposing (fst (IMELife.run s evs)).
Proof.
  revert s. induction evs as [|ev evs IH]; intros s H; simpl; [exact H|].
  pose proof (step_keeps_mirror s ev H) as H1.
  destruct (IMELife.step s ev) as [s1 c1]. simpl in H1.
  specialize (IH s1 H1).
  now destruct (IMELife.run s1 evs).
Qed.

End ProxyRuns.

(** X1.  From its construction on, whatever events, closures and browser
    actions follow, the attribute [data-ime-composing] on the document body
    is set exactly when the proxy's private composing flag is: what other
    components read from the body is what the proxy itself goes by. *)
Theorem composing_attribute_mirrors_flag
    (focusGranted : bool) (evs : list IMELife.Event) :
  let s := fst (IMELife.run (IMELife.create focusGranted) evs) in
  IME.composingAttr s = IME.isComposing s.
Proof.
  apply run_keeps_mirror. now destruct focusGranted.
Qed.

(** X2.  An event on the proxy makes at most one callback, text or special
    key.  When it hands over text, the proxy buffer is empty afterwards,
    unless the text came from a paste outside the proxy, which the global
    listener forwards without touching the buffer. *)
Theorem proxy_event_one_callback (s : IME.t) (ev : IMELife.Event) :
  let (s', calls) := IMELife.step s ev in
  (List.length (IME.texts calls) + List.length (IME.specials calls) <= 1)%nat
  /\ (IME.texts calls = []
      \/ IME.value s' = ""
      \/ exists target clip,
           ev = IMELife.Paste target clip /\ isProxy target = false).
Proof.
  destruct ev as [|d|d| |e|target clip| | |c| |v|b]; simpl;
    try (split; [lia|now left]).
  - destruct (JS.truthy d); simpl; split; auto.
  - unfold IME.handleInput.
    destruct (IME.isComposing s); simpl; [split; [lia|now left]|].
    destruct (JS.truthy (IME.value s)); simpl; split; auto.
  - unfold IME.handleKeydown.
    repeat match goal with
           | |- context [if ?b then _ else _] => destruct b; simpl
           end; split; auto.
  - unfold IME.dispatchPaste, IME.handlePaste, IME.globalPasteHandler.
    destruct (isProxy target) eqn:P, (isEditable target), clip as [x|];
      simpl; try (split; [lia|now left]);
      destruct (JS.truthy x); simpl; split; auto;
      right; right; exists target, (Some x); auto.
Qed.

(** What the manager's closures do with one callback of the proxy. *)
Lemma onProxyCall_offered (m : InputManager.t) (w : World) (c : IME.Effect) :
  match c with
  | IME.OnTextInput x =>
      Forall (eq (Input.mk (Some x) None))
        (InputManager.offered (snd (InputManager.onProxyCall m w c)))
  | IME.OnSpecialKey k =>
      Forall (eq (if JS.includes InputManager.specialKeys k
                  then Input.mk None (Some k)
                  else Input.mk (Some k) None))
        (InputManager.offered (snd (InputManager.onProxyCall m w c)))
  | _ => InputManager.onProxyCall m w c = (m, [])
  end.
Proof.
  destruct c; simpl; try reflexivity; apply send_then_refresh_offered.
Qed.

(** X3.  Every name the proxy's keydown handler hands to [onSpecialKey] is
    in the manager's list of special keys, so that [sendInput] sends it as a
    [{key: ...}] payload and never as text; and every text the proxy hands
    over reaches the transports as [{text: ...}]. *)
Theorem proxy_callbacks_keep_their_kind
    (m : InputManager.t) (w : World) (s : IME.t) (ev : IMELife.Event) :
  let calls := snd (IMELife.step s ev) in
  Forall (fun k => JS.includes InputManager.specialKeys k = true)
    (IME.specials calls)
  /\ Forall (fun k =>
       Forall (eq (Input.mk None (Some k)))
         (InputManager.offered
            (snd (InputManager.onProxyCall m w (IME.OnSpecialKey k)))))
       (IME.specials calls)
  /\ Forall (fun x =>
       Forall (eq (Input.mk (Some x) None))
         (InputManager.offered
            (snd (InputManager.onProxyCall m w (IME.OnTextInput x)))))
       (IME.texts calls).
Proof.
  intro calls.
  assert (H : Forall (fun k => JS.includes InputManager.specialKeys k = true)
                (IME.specials calls)).
  { subst calls.
    destruct ev as [|d|d| |e|target clip| | |c| |v|b]; simpl;
      try constructor.
    - destruct (JS.truthy d); simpl; constructor.
    - unfold IME.handleInput.
      destruct (IME.isComposing s); simpl; [constructor|].
      destruct (JS.truthy (IME.value s)); simpl; constructor.
    - unfold IME.handleKeydown.
      repeat match goal with
             | |- context [if ?b then _ else _] => destruct b; simpl
             end; repeat constructor.
    - unfold IME.dispatchPaste, IME.handlePaste, IME.globalPasteHandler.
      destruct (isProxy target), (isEditable target), clip as [x|]; simpl;
        try constructor; destruct (JS.truthy x); simpl; constructor. }
  split; [exact H|split].
  - eapply Forall_impl; [|exact H]. intros k Hk.
    unfold InputManager.onProxyCall, InputManager.sendInput.
    rewrite Hk. apply send_then_refresh_offered.
  - apply Forall_forall. intros x _.
    exact (onProxyCall_offered m w (IME.OnTextInput x)).
Qed.


(** ** [trim] and the Enter key of the proxy *)

Section Trim.

Lemma blank_rev_string (a b : string) :
  KeyNames.blank (JS.rev_string a b) = KeyNames.blank a && KeyNames.blank b.
Proof.
  revert b. induction a as [|c a IH]; intro b; simpl; [reflexivity|].
  rewrite IH. simpl.
  destruct (JS.is_space c), (KeyNames.blank a), (KeyNames.blank b);
    reflexivity.
Qed.

Lemma rev_string_empty (a b : string) :
  JS.rev_string a b = "" -> a = "" /\ b = "".
Proof.
  revert b. induction a as [|c a IH]; intros b H; simpl in H; [auto|].
  apply IH in H. destruct H as [_ H]. discriminate H.
Qed.

Lemma trimStart_blank (s : string) :
  KeyNames.blank s = true -> JS.trimStart s = "".
Proof.
  induction s as [|c s IH]; simpl; [reflexivity|].
  intro H. apply andb_prop in H. destruct H as [-> H]. auto.
Qed.

(** [trimStart] keeps whether a string is blank, and a string it leaves
    non-empty is not blank. *)
Lemma trimStart_keeps_blank (s : string) :
  KeyNames.blank (JS.trimStart s) = KeyNames.blank s.
Proof.
  induction s as [|c s IH]; simpl; [reflexivity|].
  destruct (JS.is_space c) eqn:E; simpl; [exact IH|now rewrite E].
Qed.

Lemma trim_truthy (s : string) :
  JS.truthy (JS.trim s) = negb (KeyNames.blank s).
Proof.
  unfold JS.trim. destruct (KeyNames.blank s) eqn:B; simpl.
  - rewrite (trimStart_blank s B). reflexivity.
  - apply truthy_true_iff. intro E.
    apply rev_string_empty in E. destruct E as [E _].
    assert (Hb : KeyNames.blank
                   (JS.trimStart (JS.rev_string (JS.trimStart s) ""))
                 = true) by now rewrite E.
    rewrite trimStart_keeps_blank, blank_rev_string,
      trimStart_keeps_blank, B in Hb.
    discriminate Hb.
Qed.

End Trim.

(** X5.  Enter in the proxy, outside a composition.  When the buffer holds
    anything but white space, the buffer is handed over as text, as it is,
    untrimmed, and is cleared.  When the buffer is empty or white space
    only, the key [enter] is handed over and the buffer is left as it is.
    Either way the default handling is suppressed once. *)
Theorem enter_sends_buffer_or_key (s : IME.t) (e : KeyboardEvent) :
  IME.isComposing s = false ->
  IME.hasOnSpecialKey s = true ->
  key e = "Enter" ->
  IME.handleKeydown s e =
  if KeyNames.blank (IME.value s)
  then (s, [IME.PreventDefault; IME.OnSpecialKey "enter"])
  else (IME.set_value "" s,
        [IME.PreventDefault; IME.OnTextInput (IME.value s)]).
Proof.
  intros Hc Hk He. unfold IME.handleKeydown.
  rewrite Hc, Hk, He. simpl. rewrite andb_false_r, trim_truthy.
  now destruct (KeyNames.blank (IME.value s)).
Qed.

(** Enter on a buffer of two spaces, and on " ls ". *)
Lemma enter_sends_buffer_or_key_witness :
  IME.handleKeydown (IME.mk false "  " IME.Shown true false true true)
    (mkKey "Enter" false false false false)
  = (IME.mk false "  " IME.Shown true false true true,
     [IME.PreventDefault; IME.OnSpecialKey "enter"])
  /\ IME.handleKeydown (IME.mk false " ls " IME.Shown true false true true)
       (mkKey "Enter" false false false false)
     = (IME.mk false "" IME.Shown true false true true,
        [IME.PreventDefault; IME.OnTextInput " ls "]).
Proof.
  split.
  - exact (enter_sends_buffer_or_key
             (IME.mk false "  " IME.Shown true false true true)
             (mkKey "Enter" false false false false)
             eq_refl eq_refl eq_refl).
  - exact (enter_sends_buffer_or_key
             (IME.mk false " ls " IME.Shown true false true true)
             (mkKey "Enter" false false false false)
             eq_refl eq_refl eq_refl).
Defined.

(** ** The keyboard handler, case by case *)

Section KeyboardCases.

Import InputManager.

Variables isCopyPasteShortcut isIMEAllowedKey : KeyboardEvent -> bool.

Let handle := handleKeyboardInput isCopyPasteShortcut isIMEAllowedKey.

(** A string the handler may pass to [sendInput]: if it is a special key at
    all, it is one the [switch] assigns. *)
Let sendable (x : string) : Prop :=
  JS.includes specialKeys x = true -> JS.includes KeyNames.assigned x = true.

Lemma sendable_single_unit (k : string) :
  (String.length k =? 1)%nat = true -> sendable k.
Proof.
  destruct k as [|c [|c' k]]; simpl; try discriminate.
  intros _ H. now rewrite single_unit_not_special in H.
Qed.

Lemma sendable_fromCharCode (n : Z) : sendable (JS.fromCharCode n).
Proof.
  intro H. unfold JS.fromCharCode in H.
  now rewrite single_unit_not_special in H.
Qed.

(** Every way a call of the handler can end: without effect; with a capture
    toggle and the Escape time reset; or with one [sendInput], of a sendable
    string, after a [consumeEvent] for the Alt combinations and after the
    Escape time is recorded for a forwarded Escape. *)
Lemma handle_cases (P : Result -> Prop) (m : t) (w : World)
    (e : KeyboardEvent) :
  P (m, []) ->
  (forall c, P (set_lastEscapeTime 0 m, [CaptureToggled c])) ->
  P (set_lastEscapeTime 0 m, []) ->
  (forall x, sendable x ->
     P (andThen (m, [ConsumeEvent]) (fun m => sendInput m w x))) ->
  (forall m' x, sendable x ->
     m' = m \/ m' = set_lastEscapeTime (now w) m ->
     P (sendInput m' w x)) ->
  P (handle m w e).
Proof.
  intros Hnil Htog Hsil Halt Hsend. subst handle.
  unfold handleKeyboardInput.
  destruct (session m) as [s|]; [|exact Hnil].
  cbv zeta.
  repeat match goal with
         | |- P (if ?b then _ else _) => destruct b eqn:?
         | |- P (_, match callbacks m with _ => _ end) =>
             destruct (callbacks m)
         end;
    try exact Hnil; try apply Htog; try exact Hsil;
    try (apply Halt; intro H; vm_compute in H; discriminate H);
    apply Hsend; auto;
    repeat match goal with
           | |- sendable (if ?b then _ else _) => destruct b eqn:?
           | |- sendable (match ?o with _ => _ end) => destruct o eqn:?
           end;
    try apply sendable_fromCharCode;
    try (apply sendable_single_unit; assumption);
    try (intro H; vm_compute in H |- *; first [reflexivity|discriminate H]).
Qed.

End KeyboardCases.

Section KeyboardTraces.

Import InputManager.

Variables (m : t) (w : World).

Lemma consume_then (k : t -> Result) :
  andThen (m, [ConsumeEvent]) k = (fst (k m), ConsumeEvent :: snd (k m)).
Proof. now rewrite andThen_fst_snd. Qed.

Lemma sendInput_offered (x : string) :
  Forall (eq (if JS.includes specialKeys x
              then Input.ofKey x else Input.ofText x))
    (offered (snd (sendInput m w x))).
Proof. unfold sendInput. apply send_then_refresh_offered. Qed.

Lemma sendInput_sent_length (x : string) :
  (List.length (sent (snd (sendInput m w x)))
   + List.length (toggles (snd (sendInput m w x))) <= 1)%nat.
Proof.
  unfold sendInput.
  rewrite send_then_refresh_sent, send_then_refresh_toggles.
  destruct (session m); simpl; lia.
Qed.

Let session_moves := Transitions.moves m w.

Lemma sendInputInternal_session_moves (p : Input.t) (ctx : string) :
  session_moves (fst (sendInputInternal m w p ctx)).
Proof.
  unfold session_moves, Transitions.moves, sendInputInternal,
    definitivelyRejected.
  destruct (session m) as [s|] eqn:Hs; simpl; [|now rewrite Hs].
  destruct (useWebSocketInput m && wsAccepts w); simpl;
    [rewrite Hs; auto|].
  destruct (fetched w) as [code|]; simpl; [|rewrite Hs; auto].
  destruct (ok code); simpl; [rewrite Hs; auto|].
  destruct (code =? 400)%Z; simpl; [auto|rewrite Hs; auto].
Qed.

Lemma send_then_refresh_session_moves (p : Input.t) (ctx : string) :
  session_moves (fst (andThen (sendInputInternal m w p ctx)
                        (fun m => refreshIMEPosition m w))).
Proof.
  rewrite andThen_fst_snd. cbn [fst].
  pose proof (sendInputInternal_session_moves p ctx) as H.
  unfold session_moves, Transitions.moves in *.
  destruct (refreshIMEPosition_quiet
              (fst (sendInputInternal m w p ctx)) w) as (_ & _ & _ & -> & _).
  exact H.
Qed.

End KeyboardTraces.

(** X6.  Whatever the key, the modifiers and the state, the only special-key
    tokens the keyboard handler ever puts in a [{key: ...}] payload are the
    twelve its [switch] assigns: enter, ctrl_enter, shift_enter, escape, the
    four arrows, tab, shift_tab, backspace and delete.  The other entries of
    the special-key list (page_up, page_down, home, end, f1..f12) are never
    sent from the keyboard. *)
Theorem keyboard_sends_assigned_tokens_only
    (isCopyPasteShortcut isIMEAllowedKey : KeyboardEvent -> bool)
    (m : InputManager.t) (w : World) (e : KeyboardEvent) :
  Forall (fun p =>
            match Input.key p with
            | Some k => JS.includes KeyNames.assigned k = true
            | None => True
            end)
    (InputManager.offered
       (snd (InputManager.handleKeyboardInput isCopyPasteShortcut
               isIMEAllowedKey m w e))).
Proof.
  assert (Hsend : forall m' x,
             (JS.includes InputManager.specialKeys x = true ->
              JS.includes KeyNames.assigned x = true) ->
             Forall (fun p =>
                       match Input.key p with
                       | Some k => JS.includes KeyNames.assigned k = true
                       | None => True
                       end)
               (InputManager.offered (snd (InputManager.sendInput m' w x)))).
  { intros m' x Hx. eapply Forall_impl; [|apply sendInput_offered].
    intros p <-.
    destruct (JS.includes InputManager.specialKeys x); simpl; auto. }
  apply (handle_cases isCopyPasteShortcut isIMEAllowedKey
           (fun r => Forall _ (InputManager.offered (snd r))));
    try (intros; simpl; constructor).
  - intros x Hx. rewrite consume_then. simpl. now apply Hsend.
  - intros m' x Hx _. now apply Hsend.
Qed.

(** X7.  One keydown puts at most one payload on a transport or raises at
    most one capture toggle, never both; and every payload it offers has
    exactly one of the fields [text] and [key]. *)
Theorem keydown_sends_at_most_once
    (isCopyPasteShortcut isIMEAllowedKey : KeyboardEvent -> bool)
    (m : InputManager.t) (w : World) (e : KeyboardEvent) :
  let tr := snd (InputManager.handleKeyboardInput isCopyPasteShortcut
                   isIMEAllowedKey m w e) in
  (List.length (InputManager.sent tr)
   + List.length (InputManager.toggles tr) <= 1)%nat
  /\ Forall (fun p => Input.fields p = 1) (InputManager.offered tr).
Proof.
  apply (handle_cases isCopyPasteShortcut isIMEAllowedKey
           (fun r =>
              (List.length (InputManager.sent (snd r))
               + List.length (InputManager.toggles (snd r)) <= 1)%nat
              /\ Forall (fun p => Input.fields p = 1)
                   (InputManager.offered (snd r))));
    try (intros; simpl; split; [lia|constructor]).
  - intros x _. rewrite consume_then. simpl. split.
    + apply sendInput_sent_length.
    + eapply Forall_impl; [|apply sendInput_offered]. intros p <-.
      now destruct (JS.includes InputManager.specialKeys x).
  - intros m' x _ _. split.
    + apply sendInput_sent_length.
    + eapply Forall_impl; [|apply sendInput_offered]. intros p <-.
      now destruct (JS.includes InputManager.specialKeys x).
Qed.

(** X8.  None of the four ways into the input path ([sendInputText],
    [sendInput], [sendControlSequence], [handleKeyboardInput]) attaches,
    detaches or renames a session, and each leaves the status as it was
    unless the call ended in a fallback response of status 400, which
    leaves it 'exited'.  In particular nothing on the input path brings an
    exited session back. *)
Theorem status_moves_only_to_exited
    (isCopyPasteShortcut isIMEAllowedKey : KeyboardEvent -> bool)
    (m : InputManager.t) (w : World) (x : string) (e : KeyboardEvent) :
  Transitions.moves m w (fst (InputManager.sendInputText m w x))
  /\ Transitions.moves m w (fst (InputManager.sendInput m w x))
  /\ Transitions.moves m w (fst (InputManager.sendControlSequence m w x))
  /\ Transitions.moves m w
       (fst (InputManager.handleKeyboardInput isCopyPasteShortcut
               isIMEAllowedKey m w e)).
Proof.
  assert (Hself : Transitions.moves m w m).
  { unfold Transitions.moves. destruct (InputManager.session m); auto. }
  repeat split; try apply send_then_refresh_session_moves.
  apply (handle_cases isCopyPasteShortcut isIMEAllowedKey
           (fun r => Transitions.moves m w (fst r)));
    try (intros; exact Hself).
  - intros x' _. rewrite consume_then. cbn [fst].
    apply send_then_refresh_session_moves.
  - intros m' x' _ [->| ->].
    + apply send_then_refresh_session_moves.
    + exact (send_then_refresh_session_moves
               (InputManager.set_lastEscapeTime (now w) m) w _ _).
Qed.

(** ** The key mapping, key by key *)

Section KeyByKey.

Import InputManager.

Variables isCopyPasteShortcut isIMEAllowedKey : KeyboardEvent -> bool.

Let handle := handleKeyboardInput isCopyPasteShortcut isIMEAllowedKey.
Let reaches := reachesMapping isCopyPasteShortcut isIMEAllowedKey.

(** The guards, as the rewriting of a call needs them. *)
Lemma reaches_inv (m : t) (e : KeyboardEvent) :
  reaches m e = true ->
  exists s, session m = Some s
    /\ imeFocused m && negb (isIMEAllowedKey e) = false
    /\ imeComposing m = false
    /\ (status s =? "exited") = false
    /\ isCopyPasteShortcut e = false.
Proof.
  subst reaches. unfold reachesMapping. intro H.
  apply andb_prop in H. destruct H as [Hl Hcp].
  apply negb_true_iff in Hcp.
  destruct (listening_inv isIMEAllowedKey m e Hl) as (s & H1 & H2 & H3 & H4).
  exists s. auto.
Qed.

Lemma not_named_inv (k : string) :
  JS.includes KeyNames.named k = false ->
  (k =? "Enter") = false /\ (k =? "Escape") = false
  /\ (k =? "ArrowUp") = false /\ (k =? "ArrowDown") = false
  /\ (k =? "ArrowLeft") = false /\ (k =? "ArrowRight") = false
  /\ (k =? "Tab") = false /\ (k =? "Backspace") = false
  /\ (k =? "Delete") = false /\ (k =? " ") = false.
Proof.
  unfold JS.includes, KeyNames.named. cbn [existsb]. intro H.
  repeat (apply orb_false_elim in H; destruct H as [? H]).
  repeat split; assumption.
Qed.

(** A key of one code unit, once the guards are passed (lines 326-350). *)
Lemma single_unit_step (m : t) (w : World) (e : KeyboardEvent) (c : ascii) :
  reaches m e = true ->
  key e = String c "" ->
  handle m w e =
  sendInput m w
    (if ctrlKey e
        && ((97 <=? JS.unit_code (JS.lower_unit c))
            && (JS.unit_code (JS.lower_unit c) <=? 122))%Z
     then JS.fromCharCode (JS.unit_code (JS.lower_unit c) - 96)
     else String c "").
Proof.
  intros Hr Hk.
  destruct (reaches_inv m e Hr) as (s & Hs & Hf & Hcomp & Hx & Hcp).
  subst handle. unfold handleKeyboardInput. rewrite Hs, Hf, Hcomp. cbv zeta.
  rewrite Hx, Hcp, Hk.
  rewrite !(eqb_length_neq (String c "") "Escape"),
          !(eqb_length_neq (String c "") "Enter"),
          !(eqb_length_neq (String c "") "ArrowUp"),
          !(eqb_length_neq (String c "") "ArrowDown"),
          !(eqb_length_neq (String c "") "ArrowLeft"),
          !(eqb_length_neq (String c "") "ArrowRight"),
          !(eqb_length_neq (String c "") "Tab"),
          !(eqb_length_neq (String c "") "Backspace"),
          !(eqb_length_neq (String c "") "Delete")
    by (simpl; discriminate).
  rewrite !andb_false_r.
  cbn [andb negb String.length Nat.eqb JS.toLowerCase JS.charCodeAt0].
  rewrite !andb_true_r.
  destruct (String c "" =? " ") eqn:Esp.
  - apply String.eqb_eq in Esp. rewrite <- Esp.
    now destruct (ctrlKey e),
      ((97 <=? JS.unit_code (JS.lower_unit c))
       && (JS.unit_code (JS.lower_unit c) <=? 122))%Z.
  - now destruct (ctrlKey e),
      ((97 <=? JS.unit_code (JS.lower_unit c))
       && (JS.unit_code (JS.lower_unit c) <=? 122))%Z.
Qed.

End KeyByKey.

(** X9.  A key name of several code units without a [case] of its own in
    the [switch] (Home, End, PageUp, F1..F12, Insert, a bare modifier, ...)
    is ignored in every state and with every modifier: nothing is sent and
    nothing changes. *)
Theorem unnamed_keys_are_ignored
    (isCopyPasteShortcut isIMEAllowedKey : KeyboardEvent -> bool)
    (m : InputManager.t) (w : World) (e : KeyboardEvent) :
  (String.length (key e) =? 1)%nat = false ->
  JS.includes KeyNames.named (key e) = false ->
  InputManager.handleKeyboardInput isCopyPasteShortcut isIMEAllowedKey m w e
  = (m, []).
Proof.
  intros Hlen Hn.
  destruct (not_named_inv (key e) Hn)
    as (H1 & H2 & H3 & H4 & H5 & H6 & H7 & H8 & H9 & H10).
  unfold InputManager.handleKeyboardInput.
  destruct (InputManager.session m) as [s|]; [|reflexivity].
  cbv zeta.
  rewrite H1, H2, H3, H4, H5, H6, H7, H8, H9, H10, Hlen.
  rewrite !andb_false_r.
  repeat match goal with
         | |- (if ?b then _ else _) = _ => destruct b
         end; reflexivity.
Qed.

(** F5 and Home reach no transport. *)
Lemma unnamed_keys_are_ignored_witness :
  InputManager.handleKeyboardInput Sample.isCopyPasteShortcut
    Sample.isIMEAllowedKey Sample.terminalManager
    (Sample.online Sample.t0) (Sample.press "F5")
  = (Sample.terminalManager, [])
  /\ InputManager.handleKeyboardInput Sample.isCopyPasteShortcut
       Sample.isIMEAllowedKey Sample.terminalManager
       (Sample.online Sample.t0) (Sample.press "Home")
     = (Sample.terminalManager, []).
Proof.
  split.
  - exact (unnamed_keys_are_ignored Sample.isCopyPasteShortcut
             Sample.isIMEAllowedKey Sample.terminalManager
             (Sample.online Sample.t0) (Sample.press "F5")
             eq_refl eq_refl).
  - exact (unnamed_keys_are_ignored Sample.isCopyPasteShortcut
             Sample.isIMEAllowedKey Sample.terminalManager
             (Sample.online Sample.t0) (Sample.press "Home")
             eq_refl eq_refl).
Defined.

(** X10.  A key of one code unit that gets past the guards is sent as text,
    exactly as [sendInputText] sends it: the character itself, unless Ctrl is
    held and the lower-cased character is one of a..z, in which case the
    control character with the letter's code less 96.  So Ctrl+A and Ctrl+a
    both give chr(1), and Ctrl+1 gives "1". *)
Theorem single_character_keys
    (isCopyPasteShortcut isIMEAllowedKey : KeyboardEvent -> bool)
    (m : InputManager.t) (w : World) (e : KeyboardEvent) (c : ascii) :
  InputManager.reachesMapping isCopyPasteShortcut isIMEAllowedKey m e = true ->
  key e = String c "" ->
  let code := JS.unit_code (JS.lower_unit c) in
  InputManager.handleKeyboardInput isCopyPasteShortcut isIMEAllowedKey m w e
  = InputManager.sendInputText m w
      (if ctrlKey e && ((97 <=? code) && (code <=? 122))%Z
       then JS.fromCharCode (code - 96)
       else String c "").
Proof.
  intros Hr Hk code.
  rewrite (single_unit_step isCopyPasteShortcut isIMEAllowedKey m w e c Hr Hk).
  fold code.
  unfold InputManager.sendInput, InputManager.sendInputText.
  destruct (ctrlKey e && ((97 <=? code) && (code <=? 122))%Z);
    unfold JS.fromCharCode; now rewrite single_unit_not_special.
Qed.

(** Ctrl+A (upper case), Ctrl+1 and a plain "x". *)
Lemma single_character_keys_witness :
  let handle :=
    InputManager.handleKeyboardInput Sample.isCopyPasteShortcut
      Sample.isIMEAllowedKey Sample.terminalManager
      (Sample.online Sample.t0) in
  let text := InputManager.sendInputText Sample.terminalManager
                (Sample.online Sample.t0) in
  handle (Sample.ctrl "A") = text (JS.fromCharCode 1)
  /\ handle (Sample.ctrl "1") = text "1"
  /\ handle (Sample.press "x") = text "x".
Proof.
  split; [|split].
  - exact (single_character_keys Sample.isCopyPasteShortcut
             Sample.isIMEAllowedKey Sample.terminalManager
             (Sample.online Sample.t0) (Sample.ctrl "A") "A"%char
             eq_refl eq_refl).
  - exact (single_character_keys Sample.isCopyPasteShortcut
             Sample.isIMEAllowedKey Sample.terminalManager
             (Sample.online Sample.t0) (Sample.ctrl "1") "1"%char
             eq_refl eq_refl).
  - exact (single_character_keys Sample.isCopyPasteShortcut
             Sample.isIMEAllowedKey Sample.terminalManager
             (Sample.online Sample.t0) (Sample.press "x") "x"%char
             eq_refl eq_refl).
Defined.

Section NamedKeys.

Import InputManager.

Variables isCopyPasteShortcut isIMEAllowedKey : KeyboardEvent -> bool.

Let handle := handleKeyboardInput isCopyPasteShortcut isIMEAllowedKey.
Let reaches := reachesMapping isCopyPasteShortcut isIMEAllowedKey.

(** The call once the guards are passed: the Alt combinations, then the
    [switch]. *)
Ltac past_guards m e Hr :=
  let s := fresh "s" in
  let Hs := fresh "Hs" in
  let Hf := fresh "Hf" in
  let Hcomp := fresh "Hcomp" in
  let Hx := fresh "Hx" in
  let Hcp := fresh "Hcp" in
  destruct (reaches_inv isCopyPasteShortcut isIMEAllowedKey m e Hr)
    as (s & Hs & Hf & Hcomp & Hx & Hcp);
  subst handle; unfold handleKeyboardInput;
  rewrite Hs, Hf, Hcomp; cbv zeta; rewrite Hx, Hcp.

Lemma navigation_step (m : t) (w : World) (e : KeyboardEvent)
    (k tok : string) :
  In (k, tok) KeyNames.navigation ->
  reaches m e = true ->
  key e = k ->
  KeyNames.altOnly e = false ->
  handle m w e = sendInput m w tok.
Proof.
  intros Hin Hr Hk Halt. unfold KeyNames.altOnly in Halt.
  past_guards m e Hr. rewrite Hk, Halt.
  simpl in Hin.
  repeat (destruct Hin as [Hin|Hin];
          [injection Hin as <- <-; simpl; rewrite ?andb_false_r;
           reflexivity|]).
  destruct Hin.
Qed.

Lemma word_move_step (m : t) (w : World) (e : KeyboardEvent)
    (k x : string) :
  In (k, x) KeyNames.wordMoves ->
  reaches m e = true ->
  key e = k ->
  KeyNames.altOnly e = true ->
  handle m w e = andThen (m, [ConsumeEvent]) (fun m => sendInput m w x).
Proof.
  intros Hin Hr Hk Halt. unfold KeyNames.altOnly in Halt.
  past_guards m e Hr. rewrite Hk, Halt.
  simpl in Hin.
  repeat (destruct Hin as [Hin|Hin];
          [injection Hin as <- <-; reflexivity|]).
  destruct Hin.
Qed.

Lemma shifted_step (m : t) (w : World) (e : KeyboardEvent) :
  reaches m e = true ->
  ctrlKey e = false ->
  (key e = "Tab" \/ key e = "Enter") ->
  handle m w e =
  sendInput m w ((if shiftKey e then "shift_" else "")
                 ++ JS.toLowerCase (key e)).
Proof.
  intros Hr Hc Hk.
  past_guards m e Hr. rewrite Hc.
  destruct Hk as [-> | ->]; simpl; rewrite ?andb_false_r;
    now destruct (shiftKey e).
Qed.

End NamedKeys.

(** X11.  The four arrows, Backspace and Delete, past the guards and unless
    Alt alone is held, are sent as the key tokens arrow_up, arrow_down,
    arrow_left, arrow_right, backspace and delete, in a [{key: ...}]
    payload, whatever the other modifiers. *)
Theorem navigation_keys_are_tokens
    (isCopyPasteShortcut isIMEAllowedKey : KeyboardEvent -> bool)
    (m : InputManager.t) (w : World) (e : KeyboardEvent) (k tok : string) :
  In (k, tok) KeyNames.navigation ->
  InputManager.reachesMapping isCopyPasteShortcut isIMEAllowedKey m e = true ->
  key e = k ->
  KeyNames.altOnly e = false ->
  let r := InputManager.handleKeyboardInput isCopyPasteShortcut
             isIMEAllowedKey m w e in
  r = InputManager.sendInput m w tok
  /\ InputManager.sent (snd r) = [Input.mk None (Some tok)].
Proof.
  intros Hin Hr Hk Halt r.
  assert (E : r = InputManager.sendInput m w tok)
    by (subst r; eapply navigation_step; eassumption).
  split; [exact E|].
  destruct (reaches_inv _ _ m e Hr) as (s & Hs & _).
  rewrite E. unfold InputManager.sendInput.
  rewrite send_then_refresh_sent, Hs.
  simpl in Hin.
  repeat (destruct Hin as [Hin|Hin]; [injection Hin as <- <-; reflexivity|]).
  destruct Hin.
Qed.

(** Ctrl held with the left arrow: still the token arrow_left. *)
Lemma navigation_keys_are_tokens_witness :
  let r := InputManager.handleKeyboardInput Sample.isCopyPasteShortcut
             Sample.isIMEAllowedKey Sample.manager (Sample.online Sample.t0)
             (Sample.ctrl "ArrowLeft") in
  r = InputManager.sendInput Sample.manager (Sample.online Sample.t0)
        "arrow_left"
  /\ InputManager.sent (snd r) = [Input.mk None (Some "arrow_left")].
Proof.
  refine (navigation_keys_are_tokens Sample.isCopyPasteShortcut
            Sample.isIMEAllowedKey Sample.manager (Sample.online Sample.t0)
            (Sample.ctrl "ArrowLeft") "ArrowLeft" "arrow_left"
            _ eq_refl eq_refl eq_refl).
  simpl. auto.
Defined.

(** X12.  With Alt alone held and past the guards, the left arrow, the
    right arrow and Backspace consume the event and send the word-motion
    sequences ESC b, ESC f and Ctrl+W (code 23) as text, not as the tokens
    arrow_left, arrow_right and backspace. *)
Theorem alt_keys_send_word_moves
    (isCopyPasteShortcut isIMEAllowedKey : KeyboardEvent -> bool)
    (m : InputManager.t) (w : World) (e : KeyboardEvent) (k x : string) :
  In (k, x) KeyNames.wordMoves ->
  InputManager.reachesMapping isCopyPasteShortcut isIMEAllowedKey m e = true ->
  key e = k ->
  KeyNames.altOnly e = true ->
  let r := InputManager.handleKeyboardInput isCopyPasteShortcut
             isIMEAllowedKey m w e in
  fst r = fst (InputManager.sendInputText m w x)
  /\ snd r = InputManager.ConsumeEvent
             :: snd (InputManager.sendInputText m w x)
  /\ InputManager.sent (snd r) = [Input.mk (Some x) None].
Proof.
  intros Hin Hr Hk Halt r.
  assert (E : r = (fst (InputManager.sendInputText m w x),
                   InputManager.ConsumeEvent
                   :: snd (InputManager.sendInputText m w x))).
  { subst r.
    rewrite (word_move_step _ _ m w e k x Hin Hr Hk Halt), consume_then.
    simpl in Hin.
    repeat (destruct Hin as [Hin|Hin];
            [injection Hin as <- <-; reflexivity|]).
    destruct Hin. }
  destruct (reaches_inv _ _ m e Hr) as (s & Hs & _).
  rewrite E. cbn [fst snd InputManager.sent]. repeat split.
  unfold InputManager.sendInputText.
  now rewrite send_then_refresh_sent, Hs.
Qed.

(** Alt with the left arrow. *)
Lemma alt_keys_send_word_moves_witness :
  let r := InputManager.handleKeyboardInput Sample.isCopyPasteShortcut
             Sample.isIMEAllowedKey Sample.manager (Sample.online Sample.t0)
             (mkKey "ArrowLeft" false true false false) in
  fst r = fst (InputManager.sendInputText Sample.manager
                 (Sample.online Sample.t0) InputManager.esc_b)
  /\ snd r = InputManager.ConsumeEvent
             :: snd (InputManager.sendInputText Sample.manager
                       (Sample.online Sample.t0) InputManager.esc_b)
  /\ InputManager.sent (snd r) = [Input.mk (Some InputManager.esc_b) None].
Proof.
  refine (alt_keys_send_word_moves Sample.isCopyPasteShortcut
            Sample.isIMEAllowedKey Sample.manager (Sample.online Sample.t0)
            (mkKey "ArrowLeft" false true false false)
            "ArrowLeft" InputManager.esc_b _ eq_refl eq_refl eq_refl).
  simpl. auto.
Defined.

(** X13.  Tab and Enter without Ctrl, past the guards: the token is the
    lower-cased key name, with the prefix shift_ exactly when Shift is held
    (tab, shift_tab, enter, shift_enter), sent in a [{key: ...}] payload. *)
Theorem shift_selects_the_shifted_token
    (isCopyPasteShortcut isIMEAllowedKey : KeyboardEvent -> bool)
    (m : InputManager.t) (w : World) (e : KeyboardEvent) :
  InputManager.reachesMapping isCopyPasteShortcut isIMEAllowedKey m e = true ->
  ctrlKey e = false ->
  key e = "Tab" \/ key e = "Enter" ->
  let tok :=
    ((if shiftKey e then "shift_" else "") ++ JS.toLowerCase (key e))%string
  in
  let r := InputManager.handleKeyboardInput isCopyPasteShortcut
             isIMEAllowedKey m w e in
  r = InputManager.sendInput m w tok
  /\ InputManager.sent (snd r) = [Input.mk None (Some tok)].
Proof.
  intros Hr Hc Hk tok r.
  assert (E : r = InputManager.sendInput m w tok)
    by (subst r tok; now apply shifted_step).
  split; [exact E|].
  destruct (reaches_inv _ _ m e Hr) as (s & Hs & _).
  rewrite E. unfold InputManager.sendInput.
  rewrite send_then_refresh_sent, Hs. subst tok.
  destruct Hk as [-> | ->]; now destruct (shiftKey e).
Qed.

(** Shift+Tab. *)
Lemma shift_selects_the_shifted_token_witness :
  let r := InputManager.handleKeyboardInput Sample.isCopyPasteShortcut
             Sample.isIMEAllowedKey Sample.terminalManager
             (Sample.online Sample.t0)
             (mkKey "Tab" false false false true) in
  r = InputManager.sendInput Sample.terminalManager
        (Sample.online Sample.t0) "shift_tab"
  /\ InputManager.sent (snd r) = [Input.mk None (Some "shift_tab")].
Proof.
  exact (shift_selects_the_shifted_token Sample.isCopyPasteShortcut
           Sample.isIMEAllowedKey Sample.terminalManager
           (Sample.online Sample.t0) (mkKey "Tab" false false false true)
           eq_refl eq_refl (or_introl eq_refl)).
Defined.

(** ** Setting up the proxy: the retries *)

Section Retries.

Import Lifecycle.

Lemma created_app (a b : list Effect) :
  created (a ++ b) = created a + created b.
Proof.
  induction a as [|x a IH]; simpl; [reflexivity|].
  destruct x; simpl; rewrite IH; reflexivity.
Qed.

Lemma cleaned_app (a b : list Effect) :
  cleaned (a ++ b) = cleaned a + cleaned b.
Proof.
  induction a as [|x a IH]; simpl; [reflexivity|].
  destruct x; simpl; rewrite IH; reflexivity.
Qed.

Lemma scheduled_app (a b : list Effect) :
  scheduled (a ++ b) = scheduled a + scheduled b.
Proof.
  induction a as [|x a IH]; simpl; [reflexivity|].
  destruct x; simpl; rewrite IH; reflexivity.
Qed.

Lemma errors_app (a b : list Effect) :
  errors (a ++ b) = errors a + errors b.
Proof.
  induction a as [|x a IH]; simpl; [reflexivity|].
  destruct x; simpl; rewrite IH; reflexivity.
Qed.

Lemma lifecycle_andThen (r : Result) (k : t -> Result) :
  andThen r k = (fst (k (fst r)), snd r ++ snd (k (fst r))).
Proof. destruct r as [l1 t1]. simpl. now destruct (k l1). Qed.

Lemma set_retries_same (l : t) : set_retries (retries l) l = l.
Proof. now destruct l. Qed.

Lemma setup_without_terminal (n : nat) (l : t) (page : Page) :
  isMobilePhone page = false ->
  hasProxy l = false ->
  InputManager.callbacks (core l) = None \/ terminalElement page = false ->
  setupIMEInput n l page =
  if (MAX_RETRIES <=? n)%nat
  then (l, [Error "Failed to setup IME after maximum retries"])
  else (set_retries (retries l ++ [n + 1]) l,
        [RetryScheduled (n + 1) IME_SETUP_RETRY_DELAY_MS]).
Proof.
  intros Hm Hp Ht. unfold setupIMEInput. rewrite Hm, Hp.
  destruct Ht as [-> | ->]; [reflexivity|].
  now destruct (InputManager.callbacks (core l)).
Qed.

Lemma setup_with_terminal (n : nat) (l : t) (page : Page)
    (c : InputManagerCallbacks) :
  isMobilePhone page = false ->
  hasProxy l = false ->
  InputManager.callbacks (core l) = Some c ->
  terminalElement page = true ->
  terminalContainer page = true ->
  setupIMEInput n l page = createProxy l page.
Proof.
  intros Hm Hp Hc Ht Hk. unfold setupIMEInput.
  now rewrite Hm, Hp, Hc, Ht, Hk.
Qed.

Lemma fireRetries_idle (fuel k : nat) (pages : nat -> Page) (l : t) :
  retries l = [] -> fireRetries fuel k pages l = (l, []).
Proof. intro H. destruct fuel; simpl; [|rewrite H]; reflexivity. Qed.

Variable pages : nat -> Page.

Hypothesis not_a_phone : forall k, isMobilePhone (pages k) = false.

(** The attempts from the [n]-th on, the [n]-th being made now and the
    later ones as their closures come due. *)
Let attempts (n fuel : nat) (l : t) : Result :=
  andThen (setupIMEInput n l (pages n))
          (fun l => fireRetries fuel (S n) pages l).

(** No terminal element from attempt [n] up to the last one: the set-up
    schedules the retries that are left, logs one error and gives up. *)
Lemma attempts_exhausted (d n fuel : nat) (l : t) :
  n + d = MAX_RETRIES ->
  d <= fuel ->
  hasProxy l = false ->
  retries l = [] ->
  (forall k, terminalElement (pages k) = false) ->
  fst (attempts n fuel l) = l
  /\ scheduled (snd (attempts n fuel l)) = d
  /\ errors (snd (attempts n fuel l)) = 1
  /\ created (snd (attempts n fuel l)) = 0.
Proof.
  revert n fuel l. induction d as [|d IH]; intros n fuel l Hn Hf Hp Hr Ht;
    subst attempts; cbv beta in *; rewrite lifecycle_andThen;
    rewrite (setup_without_terminal n l (pages n))
      by (auto using not_a_phone).
  - assert ((MAX_RETRIES <=? n)%nat = true) as ->
      by (apply Nat.leb_le; lia).
    cbn [fst snd]. rewrite fireRetries_idle by exact Hr. simpl. auto.
  - assert ((MAX_RETRIES <=? n)%nat = false) as ->
      by (apply Nat.leb_gt; lia).
    cbn [fst snd]. rewrite Hr. cbn [app].
    destruct fuel as [|fuel]; [lia|].
    replace (n + 1) with (S n) by lia.
    cbn [fireRetries retries set_retries].
    unfold fireRetry. cbn [retries set_retries].
    replace (set_retries [] (set_retries [S n] l)) with l
      by (destruct l; simpl in *; now subst).
    specialize (IH (S n) fuel l).
    cbv beta in IH.
    destruct IH as (I1 & I2 & I3 & I4); try assumption; try lia.
    cbn [scheduled errors created]. rewrite I1, I2, I3, I4. auto.
Qed.

(** The terminal element turns up at attempt [n + d], not before, and the
    container is there: the proxy is built at that attempt. *)
Lemma attempts_succeed (d n fuel : nat) (l : t) (c : InputManagerCallbacks) :
  n + d <= MAX_RETRIES ->
  d <= fuel ->
  hasProxy l = false ->
  retries l = [] ->
  InputManager.callbacks (core l) = Some c ->
  (forall k, k < n + d -> terminalElement (pages k) = false) ->
  terminalElement (pages (n + d)) = true ->
  terminalContainer (pages (n + d)) = true ->
  fst (attempts n fuel l)
  = set_core (InputManager.set_imeInput
                (Some (IMELife.create (focusGranted (pages (n + d)))))
                (core l)) l
  /\ scheduled (snd (attempts n fuel l)) = d
  /\ errors (snd (attempts n fuel l)) = 0
  /\ created (snd (attempts n fuel l)) = 1.
Proof.
  revert n fuel l.
  induction d as [|d IH]; intros n fuel l Hn Hf Hp Hr Hc Hlate Hnow Hcont;
    subst attempts; cbv beta in *; rewrite lifecycle_andThen.
  - rewrite Nat.add_0_r in *.
    rewrite (setup_with_terminal n l (pages n) c)
      by (auto using not_a_phone).
    unfold createProxy. cbn [fst snd].
    rewrite fireRetries_idle by (simpl; exact Hr). simpl. auto.
  - rewrite (setup_without_terminal n l (pages n))
      by (try right; auto using not_a_phone; apply Hlate; lia).
    assert ((MAX_RETRIES <=? n)%nat = false) as ->
      by (apply Nat.leb_gt; lia).
    cbn [fst snd]. rewrite Hr. cbn [app].
    destruct fuel as [|fuel]; [lia|].
    replace (n + 1) with (S n) by lia.
    cbn [fireRetries retries set_retries].
    unfold fireRetry. cbn [retries set_retries].
    replace (set_retries [] (set_retries [S n] l)) with l
      by (destruct l; simpl in *; now subst).
    specialize (IH (S n) fuel l).
    cbv beta in IH.
    replace (S n + d) with (n + S d) in IH by lia.
    destruct IH as (I1 & I2 & I3 & I4); try assumption; try lia.
    cbn [scheduled errors created]. rewrite I1, I2, I3, I4. auto.
Qed.

End Retries.

(** X14.  The proxy's set-up on a device that is no phone, when no terminal
    element ever turns up: the first attempt and ten retries, 100 ms apart,
    are made and no more; the eleventh attempt logs one error and gives up;
    no proxy is built, nothing stays pending, and the manager is as it
    was. *)
Theorem setup_gives_up_after_ten_retries
    (pages : nat -> Lifecycle.Page) (fuel : nat) (l : Lifecycle.t) :
  (forall k, Lifecycle.isMobilePhone (pages k) = false) ->
  (forall k, Lifecycle.terminalElement (pages k) = false) ->
  Lifecycle.hasProxy l = false ->
  Lifecycle.retries l = [] ->
  10 <= fuel ->
  let r := Lifecycle.andThen (Lifecycle.setupIMEInput 0 l (pages 0))
             (fun l => Lifecycle.fireRetries fuel 1 pages l) in
  fst r = l
  /\ Lifecycle.scheduled (snd r) = 10
  /\ Lifecycle.errors (snd r) = 1
  /\ Lifecycle.created (snd r) = 0.
Proof.
  intros Hm Ht Hp Hr Hf r.
  exact (attempts_exhausted pages Hm 10 0 fuel l eq_refl Hf Hp Hr Ht).
Qed.

(** A desktop page on which the terminal element never appears. *)
Lemma setup_gives_up_after_ten_retries_witness :
  let pages := fun _ : nat =>
    Lifecycle.mkPage false false false true None true in
  let l := Lifecycle.mk Sample.terminalManager false [] in
  let l := Lifecycle.set_core
             (InputManager.set_imeInput None Sample.terminalManager) l in
  let r := Lifecycle.andThen (Lifecycle.setupIMEInput 0 l (pages 0))
             (fun l => Lifecycle.fireRetries 25 1 pages l) in
  fst r = l
  /\ Lifecycle.scheduled (snd r) = 10
  /\ Lifecycle.errors (snd r) = 1
  /\ Lifecycle.created (snd r) = 0.
Proof.
  refine (setup_gives_up_after_ten_retries
            (fun _ => Lifecycle.mkPage false false false true None true) 25
            (Lifecycle.set_core
               (InputManager.set_imeInput None Sample.terminalManager)
               (Lifecycle.mk Sample.terminalManager false []))
            (fun _ => eq_refl) (fun _ => eq_refl) eq_refl eq_refl _).
  lia.
Defined.

(** X15.  When the terminal element first turns up at attempt [k], no later
    than the tenth retry, with callbacks registered and a container on the
    page, the proxy is built at that attempt, once, after exactly [k]
    retries and without an error; nothing stays pending. *)
Theorem setup_succeeds_when_terminal_appears
    (pages : nat -> Lifecycle.Page) (k fuel : nat) (l : Lifecycle.t)
    (c : InputManagerCallbacks) :
  (forall j, Lifecycle.isMobilePhone (pages j) = false) ->
  k <= 10 ->
  (forall j, j < k -> Lifecycle.terminalElement (pages j) = false) ->
  Lifecycle.terminalElement (pages k) = true ->
  Lifecycle.terminalContainer (pages k) = true ->
  InputManager.callbacks (Lifecycle.core l) = Some c ->
  Lifecycle.hasProxy l = false ->
  Lifecycle.retries l = [] ->
  k <= fuel ->
  let r := Lifecycle.andThen (Lifecycle.setupIMEInput 0 l (pages 0))
             (fun l => Lifecycle.fireRetries fuel 1 pages l) in
  InputManager.imeInput (Lifecycle.core (fst r))
  = Some (IMELife.create (Lifecycle.focusGranted (pages k)))
  /\ Lifecycle.retries (fst r) = []
  /\ Lifecycle.scheduled (snd r) = k
  /\ Lifecycle.errors (snd r) = 0
  /\ Lifecycle.created (snd r) = 1.
Proof.
  intros Hm Hk Hlate Hnow Hcont Hc Hp Hr Hf r.
  destruct (attempts_succeed pages Hm k 0 fuel l c Hk Hf Hp Hr Hc
              Hlate Hnow Hcont) as (E & H2 & H3 & H4).
  subst r. cbv beta in E. rewrite E. simpl. auto.
Qed.

(** The terminal element appears at the third retry. *)
Lemma setup_succeeds_when_terminal_appears_witness :
  let pages := fun j : nat =>
    Lifecycle.mkPage false false (3 <=? j)%nat true None true in
  let l := Lifecycle.set_core
             (InputManager.set_imeInput None Sample.terminalManager)
             (Lifecycle.mk Sample.terminalManager false []) in
  let r := Lifecycle.andThen (Lifecycle.setupIMEInput 0 l (pages 0))
             (fun l => Lifecycle.fireRetries 25 1 pages l) in
  InputManager.imeInput (Lifecycle.core (fst r))
  = Some (IMELife.create true)
  /\ Lifecycle.retries (fst r) = []
  /\ Lifecycle.scheduled (snd r) = 3
  /\ Lifecycle.errors (snd r) = 0
  /\ Lifecycle.created (snd r) = 1.
Proof.
  refine (setup_succeeds_when_terminal_appears
            (fun j => Lifecycle.mkPage false false (3 <=? j)%nat true None
                        true)
            3 25
            (Lifecycle.set_core
               (InputManager.set_imeInput None Sample.terminalManager)
               (Lifecycle.mk Sample.terminalManager false []))
            Sample.hooks (fun _ => eq_refl) _ _ eq_refl eq_refl eq_refl
            eq_refl eq_refl _); try lia.
  intros j Hj. change ((3 <=? j)%nat = false). apply Nat.leb_gt. exact Hj.
Defined.

(** ** Proxies are neither duplicated nor lost *)

Section Conservation.

Import Lifecycle.

Lemma replay_app (alive : bool) (a b : list Effect) :
  replay alive (a ++ b)
  = match replay alive a with
    | Some mid => replay mid b
    | None => None
    end.
Proof.
  revert alive. induction a as [|x a IH]; intro alive; simpl; [reflexivity|].
  destruct x, alive; simpl; auto.
Qed.

(** The trace of a run reads well against the proxy before and after it. *)
Let balanced (l : t) (r : Result) : Prop :=
  replay (hasProxy l) (snd r) = Some (hasProxy (fst r)).

Lemma balanced_nil (l : t) : balanced l (l, []).
Proof. reflexivity. Qed.

(** A step that leaves the proxy alone and neither builds nor cleans. *)
Lemma balanced_quiet (l l' : t) (tr : list Effect) :
  hasProxy l' = hasProxy l ->
  Forall (fun x => x <> ProxyCreated /\ x <> ProxyCleanedUp) tr ->
  balanced l (l', tr).
Proof.
  subst balanced. cbv beta. cbn [fst snd]. intros -> H.
  induction H as [|x tr [H1 H2] _ IH]; simpl; [reflexivity|].
  destruct x; try exact IH; congruence.
Qed.

Lemma balanced_andThen (l : t) (r : Result) (k : t -> Result) :
  balanced l r -> (forall l', balanced l' (k l')) ->
  balanced l (andThen r k).
Proof.
  subst balanced. cbv beta. intros H1 H2.
  rewrite lifecycle_andThen. cbn [fst snd].
  rewrite replay_app, H1. apply H2.
Qed.

Lemma balanced_createProxy (l : t) (page : Page) :
  hasProxy l = false -> balanced l (createProxy l page).
Proof. subst balanced. cbv beta. intro H. rewrite H. reflexivity. Qed.

Ltac quiet :=
  apply balanced_quiet;
  [ reflexivity
  | repeat (constructor; [split; discriminate|]); constructor ].

Lemma balanced_setupIMEInput (n : nat) (l : t) (page : Page) :
  balanced l (setupIMEInput n l page).
Proof.
  unfold setupIMEInput.
  destruct (isMobilePhone page); [apply balanced_nil|].
  destruct (hasProxy l) eqn:Hp; [apply balanced_nil|].
  destruct (negb _).
  - destruct (MAX_RETRIES <=? n)%nat; quiet.
  - destruct (negb (terminalContainer page)); [quiet|].
    now apply balanced_createProxy.
Qed.

Lemma balanced_enableIMEInput (l : t) (page : Page) :
  balanced l (enableIMEInput l page).
Proof.
  unfold enableIMEInput, forceSetupIMEInput.
  destruct (detectMobile page); [apply balanced_nil|].
  destruct (hasProxy l) eqn:Hp; [apply balanced_nil|].
  destruct (negb (hasSession l)); [apply balanced_nil|].
  destruct (negb (terminalContainer page)); [quiet|].
  now apply balanced_createProxy.
Qed.

Lemma balanced_cleanup (l : t) : balanced l (cleanup l).
Proof.
  subst balanced. cbv beta. unfold cleanup, hasProxy.
  destruct l as [[s c u t0 i tm] g r]. simpl.
  destruct i, g, u; reflexivity.
Qed.

Lemma balanced_setupListener (l : t) :
  balanced l (setupGlobalCompositionListener l).
Proof.
  unfold setupGlobalCompositionListener.
  destruct (globalCompositionListener l); [apply balanced_nil|quiet].
Qed.

Lemma balanced_apply (o : Op) (l : t) (page : Page) :
  balanced l (apply o l page).
Proof.
  destruct o as [s|c| | | | | |]; cbn [apply].
  - unfold setSession.
    repeat (apply balanced_andThen; [|intro]).
    + destruct (_ && _); [apply balanced_cleanup|apply balanced_nil].
    + quiet.
    + destruct (_ && _); [apply balanced_setupIMEInput|apply balanced_nil].
    + destruct (_ && _); [apply balanced_setupListener|apply balanced_nil].
    + destruct (socket_input page); [quiet|apply balanced_nil].
    + destruct s; [|apply balanced_nil].
      destruct (InputManager.useWebSocketInput _); quiet.
  - unfold setCallbacks. quiet.
  - apply balanced_cleanup.
  - unfold retryIMESetup.
    destruct (_ && _); [apply balanced_setupIMEInput|apply balanced_nil].
  - apply balanced_enableIMEInput.
  - unfold focusIMEInput.
    destruct (InputManager.imeInput (core l)) as [i|] eqn:Hi;
      [|apply balanced_nil].
    cbn. apply balanced_quiet.
    + unfold hasProxy. cbn. now rewrite Hi.
    + repeat (constructor; [split; discriminate|]); constructor.
  - unfold onGlobalCompositionStart.
    destruct (globalCompositionListener l); [|apply balanced_nil].
    destruct (_ && _); [apply balanced_enableIMEInput|apply balanced_nil].
  - unfold fireRetry.
    destruct (retries l) as [|n r] eqn:Hr; [apply balanced_nil|].
    exact (balanced_setupIMEInput n (set_retries r l) page).
Qed.

Lemma balanced_applyAll (os : list (Op * Page)) (l : t) :
  balanced l (applyAll os l).
Proof.
  revert l. induction os as [|[o page] os IH]; intro l; simpl.
  - apply balanced_nil.
  - apply balanced_andThen; [apply balanced_apply|exact IH].
Qed.

End Conservation.

(** X16.  Over any sequence of set-up operations, retries coming due and
    global composition starts, in any state and on any page, the trace
    reads well against the manager's one proxy: a proxy is only ever built
    when none is alive, is only ever cleaned up when one is, and whether one
    is alive at the end is what the manager's field says.  So no proxy is
    built over a live one, and none is dropped without its [cleanup()]. *)
Theorem proxies_are_never_duplicated_or_lost
    (os : list (Lifecycle.Op * Lifecycle.Page)) (l : Lifecycle.t) :
  let r := Lifecycle.applyAll os l in
  Lifecycle.replay (Lifecycle.hasProxy l) (snd r)
  = Some (Lifecycle.hasProxy (fst r)).
Proof. exact (balanced_applyAll os l). Qed.

(** ** Tear-down *)

(** X17.  After [cleanup()] the manager holds no session, no callbacks, no
    proxy and no global listener; from then on the keyboard handler returns
    at once, and [sendInputText], [sendInput] and [sendControlSequence]
    offer nothing to either transport.  The retries still pending are not
    cancelled, but one that comes due then builds no proxy. *)
Theorem cleanup_silences_the_manager
    (isCopyPasteShortcut isIMEAllowedKey : KeyboardEvent -> bool)
    (l : Lifecycle.t) (w : World) (e : KeyboardEvent) (x : string)
    (page : Lifecycle.Page) :
  let l' := fst (Lifecycle.cleanup l) in
  let m := Lifecycle.core l' in
  InputManager.session m = None
  /\ InputManager.callbacks m = None
  /\ InputManager.imeInput m = None
  /\ Lifecycle.globalCompositionListener l' = false
  /\ Lifecycle.retries l' = Lifecycle.retries l
  /\ InputManager.handleKeyboardInput isCopyPasteShortcut isIMEAllowedKey
       m w e = (m, [])
  /\ InputManager.offered (snd (InputManager.sendInputText m w x)) = []
  /\ InputManager.offered (snd (InputManager.sendInput m w x)) = []
  /\ InputManager.offered (snd (InputManager.sendControlSequence m w x)) = []
  /\ Lifecycle.created (snd (Lifecycle.fireRetry l' page)) = 0.
Proof.
  destruct l as [[s c u t0 i tm] g r].
  unfold Lifecycle.cleanup, Lifecycle.hasProxy. simpl.
  destruct i, g; simpl; repeat split;
    unfold Lifecycle.fireRetry, Lifecycle.setupIMEInput, Lifecycle.hasProxy;
    cbn [Lifecycle.retries Lifecycle.set_core Lifecycle.set_listener
         Lifecycle.set_retries Lifecycle.core Lifecycle.set_callbacks
         InputManager.callbacks InputManager.imeInput
         InputManager.set_session InputManager.set_imeInput
         InputManager.session InputManager.useWebSocketInput
         InputManager.lastEscapeTime InputManager.timers
         Lifecycle.globalCompositionListener negb];
    destruct r as [|n r]; try reflexivity;
    repeat match goal with
           | |- context [if ?b then _ else _] => destruct b
           end; reflexivity.
Qed.

(** X18.  [setSession(null)] tears down only when a proxy exists.  With a
    proxy it runs [cleanup()]: the callbacks are dropped, the global
    listener is removed and, if WebSocket input was enabled, the channel is
    disconnected.  Without a proxy it only forgets the session: callbacks,
    listener and channel stay as they were.  Either way no session and no
    proxy remain. *)
Theorem null_session_tears_down_only_with_a_proxy
    (l : Lifecycle.t) (page : Lifecycle.Page) :
  let r := Lifecycle.setSession None l page in
  let m := Lifecycle.core l in
  let m' := Lifecycle.core (fst r) in
  InputManager.session m' = None
  /\ InputManager.imeInput m' = None
  /\ InputManager.callbacks m'
     = (if Lifecycle.hasProxy l then None else InputManager.callbacks m)
  /\ Lifecycle.globalCompositionListener (fst r)
     = (if Lifecycle.hasProxy l then false
        else Lifecycle.globalCompositionListener l)
  /\ Lifecycle.disconnects (snd r)
     = (if Lifecycle.hasProxy l && InputManager.useWebSocketInput m
        then 1 else 0)
  /\ Lifecycle.connects (snd r) = 0.
Proof.
  destruct l as [[s c u t0 i tm] g rs].
  unfold Lifecycle.setSession, Lifecycle.cleanup, Lifecycle.hasProxy. simpl.
  destruct i, g, u, (Lifecycle.socket_input page); simpl; auto 10.
Qed.

(** X19.  [setSession(session)] on a page whose URL carries [socket_input]
    with any value but 'true': WebSocket input is switched off and no
    connection is opened; every later call of [sendInputInternal] then
    issues exactly one fallback request and does not offer the payload to
    the persistent channel at all, whatever the channel would answer. *)
Theorem url_parameter_forces_the_fallback
    (s : Session) (l : Lifecycle.t) (page : Lifecycle.Page) (v : string)
    (w : World) (p : Input.t) (ctx : string) :
  Lifecycle.socket_input page = Some v ->
  (v =? "true") = false ->
  let r := Lifecycle.setSession (Some s) l page in
  let m := Lifecycle.core (fst r) in
  let tr := snd (InputManager.sendInputInternal m w p ctx) in
  InputManager.useWebSocketInput m = false
  /\ Lifecycle.connects (snd r) = 0
  /\ InputManager.session m = Some s
  /\ InputManager.offered tr = [p]
  /\ InputManager.viaHttp tr = [p].
Proof.
  intros Hv Hf r m tr.
  assert (Hm : InputManager.useWebSocketInput m = false
               /\ Lifecycle.connects (snd r) = 0
               /\ InputManager.session m = Some s).
  { subst m r. destruct l as [[s0 c u t0 i tm] g rs].
    unfold Lifecycle.setSession, Lifecycle.hasProxy. cbn [negb andb].
    cbn.
    rewrite Hv, Hf.
    destruct i; cbn;
      [ destruct (Lifecycle.detectMobile page), g; cbn; auto |].
    unfold Lifecycle.setupIMEInput, Lifecycle.hasProxy. cbn.
    destruct (Lifecycle.isMobilePhone page); cbn;
      [ destruct (Lifecycle.detectMobile page), g; cbn; auto |].
    destruct c; cbn;
      destruct (Lifecycle.terminalElement page),
               (Lifecycle.terminalContainer page),
               (Lifecycle.detectMobile page), g; cbn; auto. }
  destruct Hm as (Hu & Hc & Hs).
  repeat split; try assumption; subst tr;
    unfold InputManager.sendInputInternal; rewrite Hs, Hu; simpl;
    destruct (fetched w) as [code|]; simpl; auto;
    destruct (InputManager.ok code), (code =? 400)%Z,
             (InputManager.callbacks m); simpl; auto.
Qed.

(** The request for "ls" after [setSession] on a page with
    [?socket_input=false]. *)
Lemma url_parameter_forces_the_fallback_witness :
  let page := Lifecycle.mkPage false false true true (Some "false") true in
  let r := Lifecycle.setSession (Some Sample.running) Lifecycle.initial
             page in
  let m := Lifecycle.core (fst r) in
  let tr := snd (InputManager.sendInputInternal m (Sample.online Sample.t0)
                   (Input.ofText "ls") "send input to session") in
  InputManager.useWebSocketInput m = false
  /\ Lifecycle.connects (snd r) = 0
  /\ InputManager.session m = Some Sample.running
  /\ InputManager.offered tr = [Input.ofText "ls"]
  /\ InputManager.viaHttp tr = [Input.ofText "ls"].
Proof.
  exact (url_parameter_forces_the_fallback Sample.running Lifecycle.initial
           (Lifecycle.mkPage false false true true (Some "false") true)
           "false" (Sample.online Sample.t0) (Input.ofText "ls")
           "send input to session" eq_refl eq_refl).
Defined.

(** ** Phones *)

Lemma created_andThen (r : Lifecycle.Result)
    (k : Lifecycle.t -> Lifecycle.Result) :
  Lifecycle.created (snd (Lifecycle.andThen r k))
  = Lifecycle.created (snd r) + Lifecycle.created (snd (k (fst r))).
Proof. rewrite lifecycle_andThen. cbn [snd]. apply created_app. Qed.

Lemma phone_apply (o : Lifecycle.Op) (l : Lifecycle.t) (page : Lifecycle.Page) :
  Lifecycle.isMobilePhone page = true ->
  Lifecycle.detectMobile page = true ->
  Lifecycle.created (snd (Lifecycle.apply o l page)) = 0.
Proof.
  intros Hp Hd.
  destruct l as [[s c u t0 i tm] g rs].
  destruct o as [s'|c'| | | | | |];
    cbv [Lifecycle.apply Lifecycle.setSession Lifecycle.setCallbacks
         Lifecycle.cleanup Lifecycle.retryIMESetup Lifecycle.enableIMEInput
         Lifecycle.focusIMEInput Lifecycle.onGlobalCompositionStart
         Lifecycle.fireRetry Lifecycle.setupIMEInput
         Lifecycle.setupGlobalCompositionListener Lifecycle.hasProxy
         Lifecycle.hasSession];
    rewrite ?Hp, ?Hd; cbn;
    try (destruct s'); try (destruct i); try (destruct g);
    try (destruct u); try (destruct rs);
    try (destruct (Lifecycle.socket_input page) as [v|]);
    cbn; rewrite ?Hp, ?Hd; cbn; try reflexivity;
    repeat match goal with
           | |- context [if ?b then _ else _] => destruct b; cbn
           end; reflexivity.
Qed.

(** X20.  On a device that both tests call a phone ([isMobilePhone] from
    the user agent and the imported [detectMobile()]), no set-up operation,
    retry or global composition start ever builds a proxy. *)
Theorem phones_never_get_a_proxy
    (os : list (Lifecycle.Op * Lifecycle.Page)) (l : Lifecycle.t) :
  Forall (fun op => Lifecycle.isMobilePhone (snd op) = true
                    /\ Lifecycle.detectMobile (snd op) = true) os ->
  Lifecycle.created (snd (Lifecycle.applyAll os l)) = 0.
Proof.
  intro H. revert l.
  induction H as [|[o page] os [Hp Hd] _ IH]; intro l; simpl;
    [reflexivity|].
  rewrite created_andThen, IH, (phone_apply o l page Hp Hd). reflexivity.
Qed.

(** A session is set, a composition starts somewhere, a retry is asked for:
    all on a phone. *)
Lemma phones_never_get_a_proxy_witness :
  let phone := Lifecycle.mkPage true true true true None true in
  Lifecycle.created
    (snd (Lifecycle.applyAll
            [ (Lifecycle.SetCallbacks Sample.hooks, phone);
              (Lifecycle.SetSession (Some Sample.running), phone);
              (Lifecycle.GlobalCompositionStart, phone);
              (Lifecycle.RetryIMESetup, phone);
              (Lifecycle.EnableIMEInput, phone) ]
            Lifecycle.initial)) = 0.
Proof.
  refine (phones_never_get_a_proxy _ Lifecycle.initial _).
  repeat (apply Forall_cons; [split; reflexivity|]). apply Forall_nil.
Defined.

(** ** Browser shortcuts and the capture state *)

(** X21.  Switching keyboard capture off only ever releases keys to the
    browser, and exactly these: outside input fields and editors, the one
    platform modifier (Cmd on a Mac, Ctrl elsewhere) without Shift and Alt,
    with one of the letters A, F, R, L, P, S, D in either case.  Inside an
    input field or editor the capture state plays no part.  Without
    callbacks, or without [getKeyboardCaptureActive], capture counts as
    on. *)
Theorem capture_off_releases_seven_letters
    (isBrowserShortcut isCopyPasteShortcut : KeyboardEvent -> bool)
    (m : InputManager.t) (isMac : bool) (target : Shortcuts.Element)
    (e : KeyboardEvent) :
  let shortcut m :=
    Shortcuts.isKeyboardShortcut isBrowserShortcut isCopyPasteShortcut
      m isMac target e in
  let captured := shortcut (Shortcuts.withCapture true m) in
  let released := shortcut (Shortcuts.withCapture false m) in
  released
  = (if Shortcuts.editable target then captured
     else captured
          || ((if isMac then metaKey e else ctrlKey e)
              && negb (shiftKey e) && negb (altKey e)
              && JS.includes Shortcuts.letters (JS.toLowerCase (key e))))
  /\ shortcut (Lifecycle.set_callbacks None m) = captured
  /\ shortcut (Lifecycle.set_callbacks (Some (mkCallbacks None)) m)
     = captured.
Proof.
  cbv zeta. unfold Shortcuts.isKeyboardShortcut.
  cbn [Shortcuts.withCapture Lifecycle.set_callbacks InputManager.callbacks
       getKeyboardCaptureActive negb].
  destruct (Shortcuts.editable target); [auto|].
  destruct (isBrowserShortcut e); [auto|].
  destruct (key e =? "F12"), (key e =? "I"), (key e =? "Tab"),
    (JS.includes ["arrowleft"; "arrowright"] (JS.toLowerCase (key e))),
    (JS.includes Shortcuts.letters (JS.toLowerCase (key e))),
    isMac, (ctrlKey e), (shiftKey e), (metaKey e), (altKey e);
    cbn; auto.
Qed.

(** ** The mobile console's log buffer *)

Section LogBuffer.

Import MobileConsole.

(** The last [n] elements of a list. *)
Let lastn {A} (n : nat) (l : list A) : list A :=
  skipn (List.length l - n) l.

Lemma tl_skipn {A} (n : nat) (l : list A) :
  List.tl (skipn n l) = skipn (S n) l.
Proof.
  revert l. induction n as [|n IH]; intros [|x l]; simpl; auto.
Qed.

Lemma skipn_app_l {A} (n : nat) (l r : list A) :
  n <= List.length l -> skipn n l ++ r = skipn n (l ++ r).
Proof.
  intro H. rewrite skipn_app.
  replace (n - List.length l) with 0 by lia. reflexivity.
Qed.

(** What [addLog] keeps of a history [h] of which the array holds the last
    [maxLogs] entries and the log container holds everything. *)
Lemma addLog_keeps (ty x : string) (em : bool) (c : t) (h : list string) :
  logs c = lastn (maxLogs c) h ->
  map textContent (children c) = h ->
  let c' := addLog ty x em c in
  logs c' = lastn (maxLogs c') (h ++ [x])
  /\ map textContent (children c') = h ++ [x]
  /\ maxLogs c' = maxLogs c.
Proof.
  subst lastn. cbv beta. intros Hl Hc. cbv zeta. unfold addLog. cbn.
  split; [|split; [rewrite map_app, Hc; reflexivity|reflexivity]].
  rewrite Hl, !length_app, length_skipn. cbn [List.length].
  match goal with
  | |- context [if ?b then _ else _] => destruct b eqn:E
  end.
  - apply Nat.ltb_lt in E.
    assert (Hlen : maxLogs c <= List.length h) by lia.
    rewrite (skipn_app_l (List.length h - maxLogs c) h [x]) by lia.
    rewrite tl_skipn. f_equal. lia.
  - apply Nat.ltb_ge in E.
    rewrite (skipn_app_l (List.length h - maxLogs c) h [x]) by lia.
    f_equal. lia.
Qed.

Lemma addAll_keeps (es : list Entry) (c : t) (h : list string) :
  logs c = lastn (maxLogs c) h ->
  map textContent (children c) = h ->
  let c' := addAll es c in
  let h' := h ++ map (fun e => snd (fst e)) es in
  logs c' = lastn (maxLogs c) h'
  /\ map textContent (children c') = h'
  /\ maxLogs c' = maxLogs c.
Proof.
  revert c h. induction es as [|[[ty x] em] es IH]; intros c h Hl Hc;
    cbv zeta; simpl.
  - rewrite app_nil_r. auto.
  - destruct (addLog_keeps ty x em c h Hl Hc) as (H1 & H2 & H3).
    destruct (IH (addLog ty x em c) (h ++ [x]) H1 H2) as (I1 & I2 & I3).
    unfold addAll in *. cbn [fst snd] in *.
    rewrite <- app_assoc in I1, I2. cbn [app] in I1, I2.
    rewrite I1, I2, I3, H3. auto.
Qed.

End LogBuffer.

(** X22.  After any number of intercepted console calls the array [logs]
    holds the texts of the last hundred of them, in order, and never more
    than a hundred; the log container on screen is not trimmed with it and
    holds an element for every call since the console was built. *)
Theorem log_array_is_capped_and_the_container_is_not
    (es : list MobileConsole.Entry) :
  let c := MobileConsole.addAll es MobileConsole.initial in
  let texts := map (fun e => snd (fst e)) es in
  MobileConsole.logs c = skipn (List.length es - 100) texts
  /\ List.length (MobileConsole.logs c) = Nat.min (List.length es) 100
  /\ map MobileConsole.textContent (MobileConsole.children c) = texts.
Proof.
  cbv zeta.
  destruct (addAll_keeps es MobileConsole.initial [] eq_refl eq_refl)
    as (H1 & H2 & _).
  cbn in H1, H2. rewrite length_map in H1.
  repeat split; try assumption.
  rewrite H1, length_skipn, length_map.
  unfold MobileConsole.Entry in *. lia.
Qed.

(** ** The tunnel service *)

Section Tunnel.

Import Ngrok.

Variable config : NgrokConfig.

Lemma settled_app (a b : list Effect) :
  settled (a ++ b) = settled a + settled b.
Proof.
  induction a as [|x a IH]; simpl; [reflexivity|].
  destruct x; simpl; rewrite IH; reflexivity.
Qed.

(** What one handler may do to the promise: settle it once if it is still
    pending, and then mark it; never settle it when it is marked. *)
Let once (r : Run) (res : Result) : Prop :=
  settled (snd res) + (if resolved r then 1 else 0)
  = (if resolved (fst res) then 1 else 0).

Lemma once_handleLine (r : Run) (line : Line) :
  once r (handleLine config r line).
Proof.
  unfold once. destruct line as [|msg url lvl err]; simpl.
  - now destruct (resolved r).
  - destruct (match msg with Some m => m =? "started tunnel" | None => false end),
      (JS.truthy_opt url), (resolved r) eqn:R; simpl;
      rewrite ?R, ?settled_app; simpl;
      destruct (_ || _); reflexivity.
Qed.

Lemma once_handleOutput (lines : list Line) (r : Run) :
  once r (handleOutput config r lines).
Proof.
  unfold once. revert r.
  induction lines as [|line lines IH]; intro r; simpl.
  - now destruct (resolved r).
  - pose proof (once_handleLine r line) as H1. unfold once in H1.
    destruct (handleLine config r line) as [r1 t1]. simpl in H1.
    specialize (IH r1).
    destruct (handleOutput config r1 lines) as [r2 t2]. simpl in *.
    rewrite settled_app. lia.
Qed.

Lemma once_step (r : Run) (ev : Event) : once r (step config r ev).
Proof.
  destruct ev as [lines| |message|code| | |]; cbn [step].
  - apply once_handleOutput.
  - unfold once. simpl. now destruct (resolved r).
  - unfold once. unfold onError.
    destruct (resolved r) eqn:R; simpl; now rewrite ?R.
  - unfold once. unfold onClose.
    assert (Hz : forall n, settled (repeat StopSettled n) = 0)
      by (induction n; simpl; auto).
    destruct (stopHandlers r) as [|n], code as [c|]; cbn [fst snd resolved];
      rewrite ?settled_app, ?Hz;
      try destruct (negb (c =? 0)%Z); cbn [settled];
      destruct (resolved r); reflexivity.
  - unfold once. unfold onStartupTimeout, stop.
    destruct (resolved r) eqn:R; simpl; [now rewrite R|].
    destruct (ngrokProcess (service r)); simpl; reflexivity.
  - unfold once. unfold stop.
    destruct (ngrokProcess (service r)); simpl; now destruct (resolved r).
  - unfold once. unfold onKillTimeout.
    destruct (ngrokProcess (service r)); simpl; now destruct (resolved r).
Qed.

Lemma once_run (evs : list Event) (r : Run) : once r (run config r evs).
Proof.
  unfold once. revert r.
  induction evs as [|ev evs IH]; intro r; simpl.
  - now destruct (resolved r).
  - pose proof (once_step r ev) as H1. unfold once in H1.
    destruct (step config r ev) as [r1 t1]. simpl in H1.
    specialize (IH r1).
    destruct (run config r1 evs) as [r2 t2]. simpl in *.
    rewrite settled_app. lia.
Qed.

(** A running service has a tunnel, and the tunnel has a public URL. *)
Let sound (s : t) : Prop :=
  isRunning s = false
  \/ exists tunnel, currentTunnel s = Some tunnel
                    /\ JS.truthy (publicUrl tunnel) = true.

Lemma sound_handleLine (r : Run) (line : Line) :
  sound (service r) -> sound (service (fst (handleLine config r line))).
Proof.
  unfold sound. intro H.
  destruct line as [|msg url lvl err]; simpl; [exact H|].
  destruct (match msg with Some m => m =? "started tunnel" | None => false end);
    simpl; [|exact H].
  destruct url as [u|]; simpl; [|exact H].
  destruct (JS.truthy u) eqn:U; simpl; [|exact H].
  destruct (resolved r); simpl; [exact H|].
  right. eexists. split; [reflexivity|exact U].
Qed.

Lemma sound_handleOutput (lines : list Line) (r : Run) :
  sound (service r) -> sound (service (fst (handleOutput config r lines))).
Proof.
  revert r. induction lines as [|line lines IH]; intros r H; simpl;
    [exact H|].
  pose proof (sound_handleLine r line H) as H1. unfold sound in *.
  destruct (handleLine config r line) as [r1 t1]. simpl in H1.
  specialize (IH r1 H1).
  now destruct (handleOutput config r1 lines).
Qed.

Lemma sound_step (r : Run) (ev : Event) :
  sound (service r) -> sound (service (fst (step config r ev))).
Proof.
  intro H. destruct ev as [lines| |message|code| | |]; cbn [step].
  - now apply sound_handleOutput.
  - exact H.
  - unfold onError. destruct (resolved r); simpl; [exact H|].
    unfold sound. now left.
  - unfold onClose. unfold sound.
    destruct (stopHandlers r); simpl; now left.
  - unfold onStartupTimeout, stop. destruct (resolved r); simpl;
      [exact H|].
    destruct (ngrokProcess (service r)); simpl; exact H.
  - unfold stop. destruct (ngrokProcess (service r)); simpl; exact H.
  - unfold onKillTimeout.
    destruct (ngrokProcess (service r)); simpl; exact H.
Qed.

Lemma sound_run (evs : list Event) (r : Run) :
  sound (service r) -> sound (service (fst (run config r evs))).
Proof.
  revert r. induction evs as [|ev evs IH]; intros r H; simpl; [exact H|].
  pose proof (sound_step r ev H) as H1. unfold sound in *.
  destruct (step config r ev) as [r1 t1]. simpl in H1.
  specialize (IH r1 H1).
  now destruct (run config r1 evs).
Qed.

Lemma sound_calls (runs : list (list Event)) (s : t) :
  sound s -> sound (calls config s runs).
Proof.
  revert s. induction runs as [|evs runs IH]; intros s H; simpl; [exact H|].
  destruct (startReturnsEarly s); [now apply IH|].
  apply IH. apply sound_run. exact H.
Qed.

End Tunnel.

(** X23.  Whatever the spawned process does and in whatever order (output
    lines of any content, an error, a close, the start-up timeout, calls of
    [stop()] and their kill timeouts), the promise of one [start()] call is
    resolved or rejected at most once, and exactly when the call's
    [resolved] flag ends up set. *)
Theorem start_settles_at_most_once
    (config : Ngrok.NgrokConfig) (s : Ngrok.t) (evs : list Ngrok.Event) :
  let r := Ngrok.run config (Ngrok.spawned s) evs in
  Ngrok.settled (snd r) = (if Ngrok.resolved (fst r) then 1 else 0)
  /\ (Ngrok.settled (snd r) <= 1)%nat.
Proof.
  pose proof (once_run config evs (Ngrok.spawned s)) as H.
  cbv beta in H. simpl in H. cbv zeta.
  rewrite Nat.add_0_r in H. rewrite H.
  split; [reflexivity|]. destruct (Ngrok.resolved _); lia.
Qed.

(** X24.  Through any succession of [start()] calls and the events of their
    processes, from a new service on: whenever [isActive()] is true,
    [getTunnel()] holds a tunnel, [getPublicUrl()] gives its URL, and a
    further [start()] returns that tunnel at once without spawning; the
    branch of [start()] that would spawn a second process while running is
    never taken.  When [isActive()] is false, [start()] does not return
    early. *)
Theorem running_service_has_a_tunnel
    (config : Ngrok.NgrokConfig) (runs : list (list Ngrok.Event)) :
  let s := Ngrok.calls config Ngrok.initial runs in
  if Ngrok.isActive s
  then exists tunnel,
         Ngrok.getTunnel s = Some tunnel
         /\ Ngrok.getPublicUrl s = Some (Ngrok.publicUrl tunnel)
         /\ Ngrok.startReturnsEarly s = Some tunnel
  else Ngrok.startReturnsEarly s = None.
Proof.
  cbv zeta.
  assert (H : Ngrok.isRunning Ngrok.initial = false
              \/ exists tunnel,
                   Ngrok.currentTunnel Ngrok.initial = Some tunnel
                   /\ JS.truthy (Ngrok.publicUrl tunnel) = true)
    by now left.
  apply (sound_calls config runs) in H.
  unfold Ngrok.isActive, Ngrok.getTunnel, Ngrok.getPublicUrl,
    Ngrok.startReturnsEarly.
  destruct (Ngrok.isRunning _) eqn:R; [|reflexivity].
  destruct H as [H|(tunnel & Ht & Hu)]; [discriminate H|].
  exists tunnel. rewrite Ht, Hu. auto.
Qed.

(** ** More on the proxy: compositions and visibility *)

Section ProxyInvariants.

(** While composing, an absorbed event makes no callback and leaves the
    composing flag set. *)
Lemma absorbed_step (s : IME.t) (ev : IMELife.Event) :
  IME.isComposing s = true ->
  IMELife.absorbed ev = true ->
  IME.isComposing (fst (IMELife.step s ev)) = true
  /\ IME.texts (snd (IMELife.step s ev)) = []
  /\ IME.specials (snd (IMELife.step s ev)) = [].
Proof.
  intros Hc Ha.
  destruct ev as [|d|d| |e|target clip| | |c| |v|b]; try discriminate Ha;
    simpl; auto.
  - unfold IME.handleInput. rewrite Hc. simpl. auto.
  - rewrite (keydown_while_composing s e Hc). simpl. auto.
  - destruct c;
      cbv [IMELife.runClosure IMELife.stopFocusRetention IME.hideInput
           IME.updatePosition IMELife.set_focusedAttr IME.set_opacity];
      simpl; rewrite ?Hc;
      repeat match goal with
             | |- context [if ?b then _ else _] => destruct b; simpl
             end; auto.
Qed.

Lemma absorbed_run (evs : list IMELife.Event) (s : IME.t) :
  IME.isComposing s = true ->
  forallb IMELife.absorbed evs = true ->
  IME.isComposing (fst (IMELife.run s evs)) = true
  /\ IME.texts (snd (IMELife.run s evs)) = []
  /\ IME.specials (snd (IMELife.run s evs)) = [].
Proof.
  revert s. induction evs as [|ev evs IH]; intros s Hc Ha; simpl; auto.
  simpl in Ha. apply andb_prop in Ha. destruct Ha as [Ha1 Ha2].
  destruct (absorbed_step s ev Hc Ha1) as (H1 & H2 & H3).
  destruct (IMELife.step s ev) as [s1 c1]. simpl in *.
  destruct (IH s1 H1 Ha2) as (I1 & I2 & I3).
  destruct (IMELife.run s1 evs) as [s2 c2]. simpl in *.
  repeat split; [exact I1| |].
  - unfold IME.texts in *. clear - H2 I2.
    induction c1 as [|x c1 IHc]; simpl in *; [exact I2|].
    destruct (IME.textOf x); [discriminate H2|]. now apply IHc.
  - unfold IME.specials in *. clear - H3 I3.
    induction c1 as [|x c1 IHc]; simpl in *; [exact I3|].
    destruct (IME.specialOf x); [discriminate H3|]. now apply IHc.
Qed.

Lemma choose_app {A B} (f : A -> option B) (a b : list A) :
  IME.choose f (a ++ b) = IME.choose f a ++ IME.choose f b.
Proof.
  induction a as [|x a IH]; simpl; [reflexivity|].
  destruct (f x); simpl; now rewrite IH.
Qed.

(** A focused, visible proxy stays so over an event that keeps the
    focus. *)
Lemma focus_step (s : IME.t) (ev : IMELife.Event) :
  IME.focused s = true ->
  IME.opacity s = IME.Shown ->
  IMELife.keepsFocus ev = true ->
  IME.focused (fst (IMELife.step s ev)) = true
  /\ IME.opacity (fst (IMELife.step s ev)) = IME.Shown.
Proof.
  intros Hf Ho Hk.
  destruct ev as [|d|d| |e|target clip| | |c| |v|[|]]; try discriminate Hk;
    simpl; auto.
  - unfold IME.handleInput.
    destruct (IME.isComposing s); simpl; auto.
    destruct (JS.truthy (IME.value s)); simpl; auto.
  - unfold IME.handleKeydown.
    repeat match goal with
           | |- context [if ?b then _ else _] => destruct b; simpl
           end; auto.
  - unfold IME.dispatchPaste, IME.handlePaste, IME.globalPasteHandler.
    destruct (isProxy target), (isEditable target), clip as [x|]; simpl;
      auto; destruct (JS.truthy x); simpl; auto.
  - destruct c;
      cbv [IMELife.runClosure IMELife.stopFocusRetention IME.hideInput
           IME.updatePosition IMELife.set_focusedAttr IME.set_opacity];
      simpl; rewrite ?Hf; simpl; auto.
Qed.

Lemma focus_run (evs : list IMELife.Event) (s : IME.t) :
  IME.focused s = true ->
  IME.opacity s = IME.Shown ->
  forallb IMELife.keepsFocus evs = true ->
  IME.focused (fst (IMELife.run s evs)) = true
  /\ IME.opacity (fst (IMELife.run s evs)) = IME.Shown.
Proof.
  revert s. induction evs as [|ev evs IH]; intros s Hf Ho Hk; simpl; auto.
  simpl in Hk. apply andb_prop in Hk. destruct Hk as [Hk1 Hk2].
  destruct (focus_step s ev Hf Ho Hk1) as (H1 & H2).
  destruct (IMELife.step s ev) as [s1 c1]. simpl in *.
  destruct (IH s1 H1 H2 Hk2) as (I1 & I2).
  now destruct (IMELife.run s1 evs).
Qed.

End ProxyInvariants.

(** X25.  A composition absorbs whatever happens between its start and its
    end, short of a paste: input events, keydowns of any key, composition
    updates, focus changes, closures coming due and edits of the buffer make
    no callback at all.  The whole composition delivers exactly the
    finalized text, once, when it is not empty, and nothing when it is, and
    leaves the flag cleared and the buffer empty. *)
Theorem composition_absorbs_everything_but_its_end
    (s : IME.t) (evs : list IMELife.Event) (y : string) :
  forallb IMELife.absorbed evs = true ->
  let r := IMELife.run s
             (IMELife.CompositionStart :: evs ++ [IMELife.CompositionEnd y]) in
  IME.texts (snd r) = (if JS.truthy y then [y] else [])
  /\ IME.specials (snd r) = []
  /\ IME.isComposing (fst r) = false
  /\ IME.value (fst r) = "".
Proof.
  intros Ha r. subst r.
  change (IMELife.CompositionStart :: evs ++ [IMELife.CompositionEnd y])
    with ([IMELife.CompositionStart] ++ evs ++ [IMELife.CompositionEnd y]).
  rewrite !run_app. cbn [fst snd].
  set (s1 := fst (IMELife.run s [IMELife.CompositionStart])).
  assert (Hc : IME.isComposing s1 = true) by reflexivity.
  destruct (absorbed_run evs s1 Hc Ha) as (_ & H2 & H3).
  unfold IME.texts, IME.specials in *.
  rewrite !choose_app, H2, H3.
  simpl. destruct (JS.truthy y); simpl; auto.
Qed.

(** Typing "ni", an Enter and a blur in the middle of a composition that
    ends with "hi". *)
Lemma composition_absorbs_everything_but_its_end_witness :
  let r := IMELife.run Sample.proxy
             [ IMELife.CompositionStart;
               IMELife.BrowserEdits "ni"; IMELife.InputEvent;
               IMELife.Keydown (Sample.press "Enter");
               IMELife.Blur; IMELife.Due IMELife.AfterBlur;
               IMELife.CompositionEnd "hi" ] in
  IME.texts (snd r) = ["hi"]
  /\ IME.specials (snd r) = []
  /\ IME.isComposing (fst r) = false
  /\ IME.value (fst r) = "".
Proof.
  exact (composition_absorbs_everything_but_its_end Sample.proxy
           [ IMELife.BrowserEdits "ni"; IMELife.InputEvent;
             IMELife.Keydown (Sample.press "Enter");
             IMELife.Blur; IMELife.Due IMELife.AfterBlur ]
           "hi" eq_refl).
Defined.

(** X26.  A proxy built with its focus granted stays visible (opacity
    '0.8') for as long as the focus does not leave it, whatever events and
    closures come in between, the closures set by earlier blurs and by
    sends included. *)
Theorem proxy_stays_visible_while_focused (evs : list IMELife.Event) :
  forallb IMELife.keepsFocus evs = true ->
  let s := fst (IMELife.run (IMELife.create true) evs) in
  IME.focused s = true /\ IME.opacity s = IME.Shown.
Proof.
  intros Hk. exact (focus_run evs (IMELife.create true) eq_refl eq_refl Hk).
Qed.

(** Plain typing, a blur event without loss of focus, and the closures. *)
Lemma proxy_stays_visible_while_focused_witness :
  let s := fst (IMELife.run (IMELife.create true)
                  [ IMELife.BrowserEdits "ls"; IMELife.InputEvent;
                    IMELife.Due IMELife.AfterInput;
                    IMELife.Blur; IMELife.Due IMELife.AfterBlur;
                    IMELife.CompositionStart; IMELife.CompositionEnd "";
                    IMELife.Due IMELife.AfterCompositionEnd ]) in
  IME.focused s = true /\ IME.opacity s = IME.Shown.
Proof.
  exact (proxy_stays_visible_while_focused
           [ IMELife.BrowserEdits "ls"; IMELife.InputEvent;
             IMELife.Due IMELife.AfterInput;
             IMELife.Blur; IMELife.Due IMELife.AfterBlur;
             IMELife.CompositionStart; IMELife.CompositionEnd "";
             IMELife.Due IMELife.AfterCompositionEnd ]
           eq_refl).
Defined.

(** ** [sendControlSequence] *)

(** X27.  [sendControlSequence(c)] does what [sendInputText(c)] does: it
    leaves the manager in the same state and makes the same calls in the
    same order (the same payload [{text: c}] to the same transport, the same
    refresh request, the same repositioning, the same warning); the two
    traces differ in nothing but the text of the error they log. *)
Theorem control_sequence_is_sent_as_text
    (m : InputManager.t) (w : World) (c : string) :
  let a := InputManager.sendControlSequence m w c in
  let b := InputManager.sendInputText m w c in
  fst a = fst b
  /\ map Traces.withoutErrorText (snd a) = map Traces.withoutErrorText (snd b)
  /\ InputManager.offered (snd a) = InputManager.offered (snd b)
  /\ InputManager.sent (snd a) = InputManager.sent (snd b)
  /\ Forall (eq (Input.mk (Some c) None)) (InputManager.offered (snd a))
  /\ InputManager.refreshes (snd a) = InputManager.refreshes (snd b)
  /\ InputManager.repositions (snd a) = InputManager.repositions (snd b)
  /\ InputManager.errorsLogged (snd a) = InputManager.errorsLogged (snd b).
Proof.
  cbv zeta.
  assert (H4 : Forall (eq (Input.mk (Some c) None))
                 (InputManager.offered
                    (snd (InputManager.sendControlSequence m w c))))
    by apply send_then_refresh_offered.
  repeat split; try exact H4;
    unfold InputManager.sendControlSequence, InputManager.sendInputText,
      InputManager.sendInputInternal, InputManager.refreshIMEPosition,
      InputManager.imeFocused;
    repeat match goal with
           | |- context [match ?x with _ => _ end] =>
               match x with
               | context [match _ with _ => _ end] => fail 1
               | _ => destruct x; cbn
               end
           end; reflexivity.
Qed.
